(** * Pernosco on-prem smoke test (tests/main.py): a shallow embedding

    The test script drives external programs (git, rr, the pernosco
    launcher, docker, unzip) and a Selenium browser session.  Every
    interaction with the outside is an [event] appended to a log, and the
    answer of the outside is read from a [world]: a record of functions
    of the position of the event in the log.  The script itself is a
    program in a state-and-exception monad over its module globals. *)

From Stdlib Require Import List ZArith NArith Lia Bool String Ascii DecimalString.
From Stdlib Require DecimalPos DecimalZ.
From Equations Require Import Equations.
Import ListNotations.

Set Implicit Arguments.

(** ** Python strings *)

Module Py.

(** A [str] is a sequence of Unicode code points. *)
Definition char := N.
Definition str := list char.

Definition lit (s : string) : str :=
  map N_of_ascii (list_ascii_of_string s).

Fixpoint eqb (a b : str) : bool :=
  match a, b with
  | [], [] => true
  | x :: a', y :: b' => N.eqb x y && eqb a' b'
  | _, _ => false
  end.

(** [x in l] for a list of strings. *)
Definition mem (x : str) (l : list str) : bool := existsb (eqb x) l.

(** [str.isspace] on one code point, the set [str.split()] and
    [str.strip()] use. *)
Definition isspace (c : char) : bool :=
  ((9 <=? c) && (c <=? 13) || (28 <=? c) && (c <=? 32)
   || (c =? 133) || (c =? 160) || (c =? 5760)
   || (8192 <=? c) && (c <=? 8202)
   || (c =? 8232) || (c =? 8233) || (c =? 8239) || (c =? 8287)
   || (c =? 12288))%N.

(** [s.split()]: maximal runs of non-whitespace; [cur] is the run being
    read, last character first. *)
Fixpoint split_from (cur : str) (s : str) : list str :=
  match s with
  | [] => match cur with [] => [] | _ => [rev cur] end
  | c :: s' =>
      if isspace c then
        match cur with
        | [] => split_from [] s'
        | _ => rev cur :: split_from [] s'
        end
      else split_from (c :: cur) s'
  end.

Definition split (s : str) : list str := split_from [] s.

(** [l[-1]]: [None] stands for IndexError. *)
Definition last_item (A : Type) (l : list A) : option A :=
  match rev l with
  | [] => None
  | x :: _ => Some x
  end.

(** [s.startswith(p)] *)
Fixpoint startswith (s p : str) : bool :=
  match p, s with
  | [], _ => true
  | x :: p', y :: s' => N.eqb x y && startswith s' p'
  | _ :: _, [] => false
  end.

(** [p in s] for strings: [p] occurs as a substring of [s]. *)
Fixpoint contains (s p : str) : bool :=
  startswith s p ||
  match s with
  | [] => false
  | _ :: s' => contains s' p
  end.

Fixpoint lstrip (s : str) : str :=
  match s with
  | c :: s' => if isspace c then lstrip s' else s
  | [] => []
  end.

(** [s.strip()] *)
Definition strip (s : str) : str := rev (lstrip (rev (lstrip s))).

(** Line boundaries of [str.splitlines()]. *)
Definition islinebreak (c : char) : bool :=
  ((10 <=? c) && (c <=? 13) || (28 <=? c) && (c <=? 30)
   || (c =? 133) || (c =? 8232) || (c =? 8233))%N.

(** [s.splitlines()]: a carriage return followed by a line feed is one
    boundary; no empty line is produced after a final boundary. *)
Fixpoint splitlines_from (cur : str) (s : str) : list str :=
  match s with
  | [] => match cur with [] => [] | _ => [rev cur] end
  | c :: s' =>
      if islinebreak c then
        rev cur ::
        match c, s' with
        | 13%N, 10%N :: s'' => splitlines_from [] s''
        | _, _ => splitlines_from [] s'
        end
      else splitlines_from (c :: cur) s'
  end.

Definition splitlines (s : str) : list str := splitlines_from [] s.

(** ["%d" % z] *)
Definition of_int (z : Z) : str := lit (NilZero.string_of_int (Z.to_int z)).

(** ["%s" % v] for a value that is a string or None. *)
Definition of_option (v : option str) : str :=
  match v with
  | Some s => s
  | None => lit "None"
  end.

End Py.


(** ** Exceptions, events and the outside world *)

Inductive exn :=
| CalledProcessError (returncode : Z) (cmd : list Py.str)
| CustomException (msg : Py.str)
| WebDriverException
| JavascriptException
| NoSuchElementException
| StaleElementReferenceException
| TimeoutException
| IndexError
| ValueError
| TypeError
| AttributeError
| AssertionError
| OSError.

(** [except WebDriverException]: the Selenium exceptions all derive from
    it. *)
Definition is_WebDriverException (e : exn) : bool :=
  match e with
  | WebDriverException | JavascriptException | NoSuchElementException
  | StaleElementReferenceException | TimeoutException => true
  | _ => false
  end.

Definition is_JavascriptException (e : exn) : bool :=
  match e with JavascriptException => true | _ => false end.

Definition is_NoSuchElementException (e : exn) : bool :=
  match e with NoSuchElementException => true | _ => false end.

Definition is_StaleElementReferenceException (e : exn) : bool :=
  match e with StaleElementReferenceException => true | _ => false end.

(** What [driver.execute_script] hands back: the scalar JSON values. *)
Inductive jsval :=
| JNull
| JBool (b : bool)
| JInt (z : Z)
| JStr (s : Py.str).

(** Python [==] on these values: [bool] is a subclass of [int], a string
    only equals a string. *)
Definition py_eq (a b : jsval) : bool :=
  match a, b with
  | JNull, JNull => true
  | JBool x, JBool y => Bool.eqb x y
  | JBool x, JInt y | JInt y, JBool x => Z.eqb (if x then 1 else 0) y
  | JInt x, JInt y => Z.eqb x y
  | JStr x, JStr y => Py.eqb x y
  | _, _ => false
  end.

(** Which environment a subprocess gets: the inherited one, or
    [clean_env] (the inherited one with _RR_TRACE_DIR set to tmpdir). *)
Inductive environ := InheritEnv | CleanEnv.

(** One queued action of a Selenium ActionChains object. *)
Inductive chain_action :=
| KeyDown (k : Py.str)
| KeyUp (k : Py.str)
| TypeKeys (k : Py.str).

(** What create_driver sets on the Firefox options object. *)
Inductive option_setting :=
| OptArgument (a : Py.str)
| OptHeadless
| OptPreference (name : Py.str) (value : bool)
| OptLogLevel (level : Py.str).

(** Calls on the Selenium driver and its objects. Elements are named by
    the position in the log of the lookup that found them. *)
Inductive selenium_call :=
| NewWebDriver (options : list option_setting)
| Get (url : option Py.str)
| FindElementByCss (selector : Py.str)
| WindowHandles
| SwitchToFrame (element : option nat)
| SwitchToWindow (handle : option Py.str)
| SendKeys (element : option nat) (keys : Py.str)
| Click (element : nat)
| Perform (chain : list chain_action)
| Quit.

Inductive event :=
| EvStdout (s : Py.str)
| EvStderr (s : Py.str)
| EvCheckCall (argv : list Py.str) (cwd : option Py.str) (env : environ)
| EvCheckOutput (argv : list Py.str)
| EvPopen (argv : list Py.str)
| EvMkdir (path : Py.str)
| EvKillSigint (proc : nat)
| EvWait (proc : nat)
| EvSleep (milliseconds : nat)
| EvDriver (c : selenium_call)
| EvElementText (selector : Py.str) (r : exn + Py.str)
| EvExecuteScript (script : Py.str) (r : exn + jsval).

(** A subprocess either cannot be started or exits with a status, having
    written [out] on its standard output. *)
Inductive proc_outcome :=
| SpawnFailed (e : exn)
| Exited (returncode : Z) (out : Py.str).

(** The outside, as seen by the script. Each function takes the position
    in the log of the event it answers, so the answer to a call may
    depend in any way on when the call is made.
    - [w_stdout t]: the lines the server started at [t] writes on its
      standard output before the stream ends;
    - [w_polls t]: how many more polls after the first fit in the
      TIMEOUT of a wait started at [t]. *)
Record world := mkWorld {
  w_mkdtemp : Py.str;
  w_selenium_version : Py.str;
  w_proc : nat -> proc_outcome;
  w_stdout : nat -> list Py.str;
  w_os : nat -> option exn;
  w_driver : nat -> option exn;
  w_window_handles : nat -> list Py.str;
  w_element_text : nat -> exn + Py.str;
  w_execute_script : nat -> exn + jsval;
  w_polls : nat -> nat
}.

(** The parsed command line. *)
Record arguments := mkArgs {
  headless : bool;
  no_pull : bool;
  arg_tmpdir : option Py.str
}.

(** ** Module globals and the monad *)

Record state := mkState {
  trace_dir : option Py.str;
  next_trace_id : Z;
  driver : option nat;
  url : option Py.str;
  server : option nat;
  source_frame : option nat;
  main_window : option Py.str;
  search_input : option nat;
  log : list event
}.

(** The globals as the module's first lines leave them. *)
Definition initial : state :=
  mkState None 0 None None None None None None [].

Definition set_trace_dir (v : option Py.str) (st : state) : state :=
  mkState v (next_trace_id st) (driver st) (url st) (server st)
          (source_frame st) (main_window st) (search_input st) (log st).

Definition set_next_trace_id (v : Z) (st : state) : state :=
  mkState (trace_dir st) v (driver st) (url st) (server st)
          (source_frame st) (main_window st) (search_input st) (log st).

Definition set_driver (v : option nat) (st : state) : state :=
  mkState (trace_dir st) (next_trace_id st) v (url st) (server st)
          (source_frame st) (main_window st) (search_input st) (log st).

Definition set_url (v : option Py.str) (st : state) : state :=
  mkState (trace_dir st) (next_trace_id st) (driver st) v (server st)
          (source_frame st) (main_window st) (search_input st) (log st).

Definition set_server (v : option nat) (st : state) : state :=
  mkState (trace_dir st) (next_trace_id st) (driver st) (url st) v
          (source_frame st) (main_window st) (search_input st) (log st).

Definition set_source_frame (v : option nat) (st : state) : state :=
  mkState (trace_dir st) (next_trace_id st) (driver st) (url st) (server st)
          v (main_window st) (search_input st) (log st).

Definition set_main_window (v : option Py.str) (st : state) : state :=
  mkState (trace_dir st) (next_trace_id st) (driver st) (url st) (server st)
          (source_frame st) v (search_input st) (log st).

Definition set_search_input (v : option nat) (st : state) : state :=
  mkState (trace_dir st) (next_trace_id st) (driver st) (url st) (server st)
          (source_frame st) (main_window st) v (log st).

Definition add_event (e : event) (st : state) : state :=
  mkState (trace_dir st) (next_trace_id st) (driver st) (url st) (server st)
          (source_frame st) (main_window st) (search_input st) (log st ++ [e]).

Inductive result (A : Type) :=
| Ok (a : A)
| Raise (e : exn).
Arguments Raise {A} e.

Definition M (A : Type) : Type := state -> result A * state.

Definition ret {A} (a : A) : M A := fun st => (Ok a, st).

Definition raise {A} (e : exn) : M A := fun st => (Raise e, st).

Definition bind {A B} (m : M A) (k : A -> M B) : M B :=
  fun st =>
    match m st with
    | (Ok a, st') => k a st'
    | (Raise e, st') => (Raise e, st')
    end.

(** [try: m  except <handles>: h] *)
Definition try_except {A} (m : M A) (handles : exn -> bool) (h : M A) : M A :=
  fun st =>
    match m st with
    | (Raise e, st') => if handles e then h st' else (Raise e, st')
    | r => r
    end.

Definition read {A} (f : state -> A) : M A := fun st => (Ok (f st), st).

Definition write (f : state -> state) : M unit := fun st => (Ok tt, f st).

(** The position the next event will have in the log. *)
Definition now : M nat := read (fun st => List.length (log st)).

Definition emit (e : event) : M unit := write (add_event e).

Declare Scope py_scope.
Delimit Scope py_scope with py.
Notation "x <- m ;; k" := (bind m (fun x => k))
  (at level 61, m at next level, right associativity) : py_scope.
Notation "m ;; k" := (bind m (fun _ => k))
  (at level 61, right associativity) : py_scope.
Local Open Scope py_scope.

(** [assert c] *)
Definition assert (c : bool) : M unit :=
  if c then ret tt else raise AssertionError.

(** An attribute access on a global that may still be [None]. *)
Definition deref {A} (f : state -> option A) : M A :=
  v <- read f ;;
  match v with
  | Some a => ret a
  | None => raise AttributeError
  end.

(** ** The script *)

Section Script.

Variable W : world.
Variable args : arguments.

(** Lines 41-47 and 66. *)
Definition tmpdir : Py.str :=
  match arg_tmpdir args with
  | Some d => d
  | None => w_mkdtemp W
  end.

Definition testdir : Py.str := tmpdir ++ Py.lit "/pernosco-submit-test".
Definition tmpdir_alias : Py.str := tmpdir ++ Py.lit "/alias".
Definition testdir_alias : Py.str := tmpdir_alias ++ Py.lit "/pernosco-submit-test".
Definition storage_dir : Py.str := tmpdir ++ Py.lit "/storage".

(** Lines 122-124. *)
Definition pernosco_cmd : list Py.str :=
  [Py.lit "./pernosco"; Py.lit "-x"; Py.lit "--log"; Py.lit "info:/proc/self/fd/2"]
  ++ (if no_pull args then [Py.lit "--no-pull"] else []).

Definition print (s : Py.str) : M unit := emit (EvStdout s).

Definition print_stderr (s : Py.str) : M unit := emit (EvStderr s).

(** [subprocess.check_call] *)
Definition check_call (argv : list Py.str) (cwd : option Py.str)
    (env : environ) : M unit :=
  t <- now ;;
  emit (EvCheckCall argv cwd env) ;;
  match w_proc W t with
  | SpawnFailed e => raise e
  | Exited rc _ =>
      if (rc =? 0)%Z then ret tt else raise (CalledProcessError rc argv)
  end.

(** [subprocess.check_output(..., encoding='utf-8')] *)
Definition check_output (argv : list Py.str) : M Py.str :=
  t <- now ;;
  emit (EvCheckOutput argv) ;;
  match w_proc W t with
  | SpawnFailed e => raise e
  | Exited rc out =>
      if (rc =? 0)%Z then ret out else raise (CalledProcessError rc argv)
  end.

(** A call answered by the operating system: it fails or it does not. *)
Definition os_call (e : event) : M nat :=
  t <- now ;;
  emit e ;;
  match w_os W t with
  | Some x => raise x
  | None => ret t
  end.

Definition sleep (milliseconds : nat) : M unit := emit (EvSleep milliseconds).

(** A call on the browser session; the result, if any, is named by the
    position of the call. *)
Definition driver_call (c : selenium_call) : M nat :=
  t <- now ;;
  emit (EvDriver c) ;;
  match w_driver W t with
  | Some x => raise x
  | None => ret t
  end.

(** Lines 55-56. *)
Definition build : M unit :=
  check_call [Py.lit "./build.sh"] (Some testdir) InheritEnv.

(** Lines 58-63. *)
Definition record : M unit :=
  check_call [Py.lit "rr"; Py.lit "record"; testdir ++ Py.lit "/out/main"] None CleanEnv ;;
  n <- read next_trace_id ;;
  write (set_trace_dir (Some (tmpdir ++ Py.lit "/main-" ++ Py.of_int n))) ;;
  n <- read next_trace_id ;;
  write (set_next_trace_id (n + 1)).

(** The first code point of each run of ten decimal digits (category
    Nd) of Unicode 14.0, the table of CPython 3.11: ASCII, Arabic-Indic,
    Devanagari, fullwidth, mathematical and the others. The digits of
    a run have the values 0 to 9 in order. *)
Definition decimal_blocks : list N :=
  [48; 1632; 1776; 1984; 2406; 2534; 2662; 2790; 2918; 3046; 3174; 3302;
   3430; 3558; 3664; 3792; 3872; 4160; 4240; 6112; 6160; 6470; 6608; 6784;
   6800; 6992; 7088; 7232; 7248; 42528; 43216; 43264; 43472; 43504; 43600;
   44016; 65296; 66720; 68912; 69734; 69872; 69942; 70096; 70384; 70736;
   70864; 71248; 71360; 71472; 71904; 72016; 72784; 73040; 73120; 92768;
   92864; 93008; 120782; 120792; 120802; 120812; 120822; 123200; 123632;
   125264; 130032]%N.

(** [int(c)] for a string of one character: the value of a decimal
    digit of any script; [None] stands for ValueError. *)
Definition digit (c : Py.char) : option Z :=
  match find (fun first => (first <=? c) && (c <? first + 10))%N decimal_blocks with
  | Some first => Some (Z.of_N (c - first))
  | None => None
  end.

(** Lines 68-80. The options object is local to the function. *)
Definition create_driver : M unit :=
  options <-
    (if headless args then
       match w_selenium_version W with
       | [] => raise IndexError
       | c :: _ =>
           match digit c with
           | None => raise ValueError
           | Some major =>
               if (4 <=? major)%Z then ret [OptArgument (Py.lit "-headless")]
               else ret [OptHeadless]
           end
       end
     else ret []) ;;
  d <- driver_call (NewWebDriver
         (options ++
          [OptPreference (Py.lit "network.websocket.delay-failed-reconnects") false;
           OptPreference (Py.lit "devtools.console.stdout.content") true;
           OptLogLevel (Py.lit "trace")])) ;;
  write (set_driver (Some d)).

(** How many more times the loop of open_browser can be entered. *)
Definition attempts_left (retries : Z) : nat := Z.to_nat (101 - retries).
Arguments attempts_left : simpl never.

(** Lines 82-96: the body of [while True], entered with the value
    [retries] has before the increment. *)
Equations open_browser_loop (u : option Py.str) (retries : Z) : M unit
  by wf (attempts_left retries) lt :=
open_browser_loop u retries with Z_gt_dec (retries + 1) 100 := {
  | left _ =>
      print_stderr (Py.lit "Too many retries loading " ++ Py.of_option u
                    ++ Py.lit ", bailing out") ;;
      raise (CustomException (Py.lit "Too many retries"))
  | right _ =>
      _ <- deref driver ;;
      t <- now ;;
      emit (EvDriver (Get u)) ;;
      match w_driver W t with
      | None => ret tt
      | Some e =>
          if is_WebDriverException e then
            sleep 50 ;;
            open_browser_loop u (retries + 1)
          else raise e
      end }.
Next Obligation. unfold attempts_left. lia. Qed.

Definition open_browser (u : option Py.str) : M unit :=
  open_browser_loop u 0.

(** Lines 98-104. *)
Definition CONTROL : Py.str := [57353%N].
Definition RETURN : Py.str := [57350%N].

Definition focus_search : M unit :=
  _ <- deref driver ;;
  _ <- driver_call (Perform [KeyDown CONTROL; TypeKeys (Py.lit "S"); KeyUp CONTROL]) ;;
  ret tt.

(** Lines 106-117: [script_succeeds(script, expected)(driver)]. *)
Definition script_succeeds (script : Py.str) (expected : jsval) : M bool :=
  try_except
    (_ <- deref driver ;;
     t <- now ;;
     emit (EvExecuteScript script (w_execute_script W t)) ;;
     match w_execute_script W t with
     | inl e => raise e
     | inr v => ret (py_eq v expected)
     end)
    is_JavascriptException
    (ret false).

(** Selenium's [EC.text_to_be_present_in_element((By.CSS_SELECTOR,
    selector), text)(driver)]: a stale element counts as absent text. *)
Definition text_to_be_present_in_element (selector text : Py.str) : M bool :=
  try_except
    (_ <- deref driver ;;
     t <- now ;;
     emit (EvElementText selector (w_element_text W t)) ;;
     match w_element_text W t with
     | inl e => raise e
     | inr element_text => ret (Py.contains element_text text)
     end)
    is_StaleElementReferenceException
    (ret false).

(** Selenium's [WebDriverWait(driver, TIMEOUT).until(method)]: call the
    method, return when it gives a true value, ignore a missing element,
    sleep half a second and give up with TimeoutException once the
    deadline has passed. [polls] counts the polls the deadline still
    allows. *)
Fixpoint until_from (polls : nat) (method : M bool) : M unit :=
  value <- try_except method is_NoSuchElementException (ret false) ;;
  if value then ret tt
  else
    sleep 500 ;;
    match polls with
    | O => raise TimeoutException
    | S polls' => until_from polls' method
    end.

Definition until (method : M bool) : M unit :=
  t <- now ;;
  until_from (w_polls W t) method.

(** Lines 129-131: the command line of the server. *)
Definition serve_argv (trace : Py.str) : list Py.str :=
  pernosco_cmd ++
  [Py.lit "--user"; Py.lit "1200"; Py.lit "serve"; Py.lit "--storage"; storage_dir;
   Py.lit "--sources"; tmpdir ++ Py.lit "=" ++ tmpdir_alias;
   Py.lit "--sources"; Py.lit "/usr"; trace].

(** Lines 133-138: the loop over the lines of the server's output. *)
Fixpoint scan_stdout (lines : list Py.str) : M unit :=
  match lines with
  | [] => ret tt
  | line :: rest =>
      print line ;;
      match Py.last_item (Py.split line) with
      | None => raise IndexError
      | Some last_word =>
          if Py.startswith last_word (Py.lit "http:") then
            write (set_url (Some last_word))
          else scan_stdout rest
      end
  end.

(** Lines 126-138. Popen refuses an argument that is None. *)
Definition start_server : M unit :=
  trace <- read trace_dir ;;
  match trace with
  | None => raise TypeError
  | Some trace =>
      p <- os_call (EvPopen (serve_argv trace)) ;;
      write (set_server (Some p)) ;;
      write (set_url None) ;;
      scan_stdout (w_stdout W p)
  end.

(** Lines 225-226 and again 235-236: interrupt the server and wait for
    it to exit. *)
Definition stop_server : M unit :=
  p <- deref server ;;
  _ <- os_call (EvKillSigint p) ;;
  emit (EvWait p).

(** The in-page scripts of lines 207 and 211, 218, 231. *)
Definition focus_script : Py.str :=
  Py.lit "return document.querySelector('#main > .notebook > .contents > div').classList.contains('focus');".

Definition textarea_script : Py.str :=
  Py.lit "return document.querySelector('#main > .notebook > .contents > div > div:nth-child(2) > textarea').value;".

Definition find_element_by_css_selector (selector : Py.str) : M nat :=
  _ <- deref driver ;;
  driver_call (FindElementByCss selector).

Definition wait_text (selector text : Py.str) : M unit :=
  until (text_to_be_present_in_element selector text).

Definition wait_script (script : Py.str) (expected : jsval) : M unit :=
  until (script_succeeds script expected).

Definition switch_to_frame : M unit :=
  _ <- deref driver ;;
  f <- read source_frame ;;
  _ <- driver_call (SwitchToFrame f) ;;
  ret tt.

Definition switch_to_window : M unit :=
  _ <- deref driver ;;
  w <- read main_window ;;
  _ <- driver_call (SwitchToWindow w) ;;
  ret tt.

Definition search_input_send_keys (keys : Py.str) : M unit :=
  e <- deref search_input ;;
  _ <- driver_call (SendKeys (Some e) keys) ;;
  ret tt.

(** Line 49 and lines 141-145. *)
Definition provision : M unit :=
  print_stderr (Py.lit "Working directory: " ++ tmpdir) ;;
  check_call [Py.lit "git"; Py.lit "clone";
              Py.lit "https://github.com/Pernosco/pernosco-submit-test"]
             (Some tmpdir) InheritEnv ;;
  check_call [Py.lit "git"; Py.lit "checkout"; Py.lit "-q";
              Py.lit "84861f84a7462c2b4e04b7b41f7f83616c83c8dc"]
             (Some testdir) InheritEnv ;;
  check_call [Py.lit "mkdir"; Py.lit "-p"; testdir_alias] None InheritEnv ;;
  print (Py.lit "Mounting filesystem into test") ;;
  check_call [Py.lit "sudo"; Py.lit "mount"; Py.lit "--bind"; testdir; testdir_alias]
             None InheritEnv.

(** Lines 149-152. *)
Definition ingest : M unit :=
  (if no_pull args then ret tt
   else check_call [Py.lit "./pernosco"; Py.lit "pull"] None InheritEnv) ;;
  check_call (pernosco_cmd ++
              [Py.lit "--user"; Py.lit "1200"; Py.lit "build"; Py.lit "--check-trace"])
             None CleanEnv.

(** Lines 154-161. *)
Definition serve : M unit :=
  _ <- os_call (EvMkdir storage_dir) ;;
  print (Py.lit "Starting server") ;;
  start_server ;;
  u <- read url ;;
  print (Py.lit "Opening browser at  " ++ Py.of_option u ++ Py.lit "  to run tests") ;;
  create_driver ;;
  u <- read url ;;
  open_browser u ;;
  print (Py.lit "Browser open, running tests").

(** Lines 162-195: the source of the program under test is readable. *)
Definition scenario1 : M unit :=
  wait_text (Py.lit ".view.source > .viewTitle") (Py.lit "_exit.c") ;;
  f <- find_element_by_css_selector (Py.lit "#main > .view.source iframe") ;;
  write (set_source_frame (Some f)) ;;
  _ <- deref driver ;;
  t <- driver_call WindowHandles ;;
  match w_window_handles W t with
  | [] => raise IndexError
  | h :: _ =>
      write (set_main_window (Some h)) ;;
      switch_to_frame ;;
      wait_text (Py.lit "#monaco-container") (Py.lit "_exit (") ;;
      switch_to_window ;;
      e <- find_element_by_css_selector (Py.lit "#searchInput") ;;
      write (set_search_input (Some e)) ;;
      focus_search ;;
      search_input_send_keys (Py.lit "helper_function") ;;
      wait_text (Py.lit "#searchDropdown > *:nth-child(1)") (Py.lit "helper_function") ;;
      search_input_send_keys RETURN ;;
      wait_text (Py.lit "#main > .execution > .contents > div") (Py.lit "helper_function") ;;
      item <- find_element_by_css_selector (Py.lit "#main > .execution > .contents > div") ;;
      _ <- driver_call (Click item) ;;
      wait_text (Py.lit ".view.source > .viewTitle") (Py.lit "file.c") ;;
      switch_to_frame ;;
      wait_text (Py.lit "#monaco-container") (Py.lit "helper_function") ;;
      switch_to_window
  end.

(** The string typed into the note, line 215. *)
Definition typed_text : Py.str := Py.lit "HelloKitty".

(** Lines 198-223: write a note, let the server store it, leave the
    page. *)
Definition notebook_write : M unit :=
  focus_search ;;
  search_input_send_keys (Py.lit "notebook") ;;
  wait_text (Py.lit "#searchDropdown > *:nth-child(1)") (Py.lit "otebook") ;;
  search_input_send_keys RETURN ;;
  first_note <- find_element_by_css_selector
                  (Py.lit "#main > .notebook > .contents > div > div.tentative") ;;
  wait_script focus_script (JBool true) ;;
  _ <- driver_call (Click first_note) ;;
  wait_script textarea_script (JStr (Py.lit "")) ;;
  _ <- deref driver ;;
  _ <- driver_call (Perform [TypeKeys typed_text]) ;;
  wait_script textarea_script (JStr (Py.lit "HelloKitty")) ;;
  sleep 2000 ;;
  _ <- deref driver ;;
  _ <- driver_call (Get (Some (Py.lit "about:blank"))) ;;
  ret tt.

(** Lines 225-236: restart the server on the same storage and trace and
    read the note back. *)
Definition restart_verify : M unit :=
  stop_server ;;
  start_server ;;
  u <- read url ;;
  open_browser u ;;
  wait_script textarea_script (JStr (Py.lit "HelloKitty")) ;;
  _ <- deref driver ;;
  _ <- driver_call Quit ;;
  stop_server.

(** Lines 238-242. *)
Definition cleanup_check : M unit :=
  out <- check_output [Py.lit "docker"; Py.lit "ps"; Py.lit "-aq"] ;;
  let output := Py.strip out in
  if (0 <? List.length output)%nat then
    print_stderr (Py.lit "Docker containers still running:" ++ [10%N] ++ output) ;;
    assert false
  else ret tt.

(** The path line 247 looks for in the archive. *)
Definition expected_source : Py.str :=
  tmpdir ++ Py.lit "/pernosco-submit-test/out/message.h".

(** Lines 244-247. *)
Definition export_verify : M unit :=
  check_call (pernosco_cmd ++
              [Py.lit "--user"; Py.lit "1200"; Py.lit "build";
               Py.lit "--copy-sources"; Py.lit "/"])
             None CleanEnv ;;
  trace <- read trace_dir ;;
  out <- check_output [Py.lit "unzip"; Py.lit "-Z1";
                       Py.of_option trace ++ Py.lit "/files.user/sources.zip"] ;;
  let zip_files := Py.splitlines out in
  assert (Py.mem expected_source zip_files).

(** The marker of line 251. *)
Definition PASS : Py.str := [10%N] ++ Py.lit "PASS".

(** Lines 249-251. *)
Definition teardown : M unit :=
  check_call [Py.lit "sudo"; Py.lit "umount"; testdir_alias] None InheritEnv ;;
  print_stderr PASS.

(** The module from its first statement to its last. *)
Definition main : M unit :=
  provision ;;
  build ;;
  record ;;
  ingest ;;
  serve ;;
  scenario1 ;;
  notebook_write ;;
  restart_verify ;;
  cleanup_check ;;
  export_verify ;;
  teardown.

End Script.

(** A run of the script is its result and final state from the initial
    globals. *)
Definition run (W : world) (args : arguments) : result unit * state :=
  main W args initial.

(** Several events appended at once, for stating final states. *)
Definition add_events (evs : list event) (st : state) : state :=
  mkState (trace_dir st) (next_trace_id st) (driver st) (url st) (server st)
          (source_frame st) (main_window st) (search_input st) (log st ++ evs).

(** The events of [n] navigation attempts that each hit a refused
    connection. *)
Definition refused_attempts (u : option Py.str) (n : nat) : list event :=
  List.concat (repeat [EvDriver (Get u); EvSleep 50] n).

Definition is_navigation (e : event) : bool :=
  match e with
  | EvDriver (Get _) => true
  | _ => false
  end.

(** The command line of the tracer, line 61. *)
Definition record_argv (W : world) (args : arguments) : list Py.str :=
  [Py.lit "rr"; Py.lit "record"; testdir W args ++ Py.lit "/out/main"].

(** The navigation issued at position [t] fails with a
    WebDriverException: the server does not accept connections yet. *)
Definition refuses (W : world) (t : nat) : Prop :=
  exists e, w_driver W t = Some e /\ is_WebDriverException e = true.

(** What open_browser prints when it gives up, line 87. *)
Definition bail_out_message (u : option Py.str) : Py.str :=
  Py.lit "Too many retries loading " ++ Py.of_option u ++ Py.lit ", bailing out".

(** The last whitespace-delimited token of a line, if it has one. *)
Definition last_word (line : Py.str) : option Py.str :=
  Py.last_item (Py.split line).

(** The last token of the line begins with [prefix]. *)
Definition announces (prefix line : Py.str) : bool :=
  match last_word line with
  | Some w => Py.startswith w prefix
  | None => false
  end.

(** A line the scan of start_server passes over: it has a last token,
    and that token does not begin with "http:". *)
Definition passed_over (line : Py.str) : Prop :=
  exists w, last_word line = Some w /\ Py.startswith w (Py.lit "http:") = false.

Definition blank (line : Py.str) : Prop :=
  Forall (fun c => Py.isspace c = true) line.

(** ** Concrete worlds and inputs used in the examples *)

(** Nothing fails and nothing is printed; the page is empty and every
    wait has time for 120 polls. *)
Definition calm : world :=
  mkWorld (Py.lit "/tmp/tmpk3v9") (Py.lit "3.141.0")
          (fun _ => Exited 0 []) (fun _ => []) (fun _ => None)
          (fun _ => None) (fun _ => [Py.lit "window-1"])
          (fun _ => inr []) (fun _ => inr JNull) (fun _ => 119).

Definition with_stdout (lines : list Py.str) (W : world) : world :=
  mkWorld (w_mkdtemp W) (w_selenium_version W) (w_proc W) (fun _ => lines)
          (w_os W) (w_driver W) (w_window_handles W) (w_element_text W)
          (w_execute_script W) (w_polls W).

Definition with_driver (f : nat -> option exn) (W : world) : world :=
  mkWorld (w_mkdtemp W) (w_selenium_version W) (w_proc W) (w_stdout W)
          (w_os W) f (w_window_handles W) (w_element_text W)
          (w_execute_script W) (w_polls W).

Definition with_proc (f : nat -> proc_outcome) (W : world) : world :=
  mkWorld (w_mkdtemp W) (w_selenium_version W) f (w_stdout W)
          (w_os W) (w_driver W) (w_window_handles W) (w_element_text W)
          (w_execute_script W) (w_polls W).

Definition with_execute_script (f : nat -> exn + jsval) (W : world) : world :=
  mkWorld (w_mkdtemp W) (w_selenium_version W) (w_proc W) (w_stdout W)
          (w_os W) (w_driver W) (w_window_handles W) (w_element_text W)
          f (w_polls W).

(** The command line [main.py --headless --no-pull /tmp/t]. *)
Definition sample_args : arguments := mkArgs true true (Some (Py.lit "/tmp/t")).

(** The globals once a trace has been recorded. *)
Definition recorded : state :=
  set_next_trace_id 1 (set_trace_dir (Some (Py.lit "/tmp/t/main-0")) initial).

(** The globals once a trace has been recorded and a browser session
    has been opened. *)
Definition browsing : state := set_driver (Some 0) recorded.

(** Output of a server that comes up and says where it listens. *)
Definition announcing_stdout : list Py.str :=
  [Py.lit "Loading trace" ++ [10%N];
   Py.lit "Appserver launched at http://172.29.0.2:3000/index.html" ++ [10%N];
   Py.lit "ready" ++ [10%N]].

(** Output of a server that exits before it listens. *)
Definition silent_stdout : list Py.str :=
  [Py.lit "Loading trace" ++ [10%N];
   Py.lit "error: database is missing" ++ [10%N]].

(** Output of a server that listens on a TLS port. *)
Definition tls_stdout : list Py.str :=
  [Py.lit "Appserver launched at https://172.29.0.2:3000/index.html" ++ [10%N]].

(** Output with an empty line before the announcement. *)
Definition spaced_stdout : list Py.str :=
  [Py.lit "Loading trace" ++ [10%N];
   [10%N];
   Py.lit "Appserver launched at http://172.29.0.2:3000/index.html" ++ [10%N]].

(** A browser that is refused three times and then gets through. *)
Definition late_server : world :=
  with_driver (fun t => if t <? 6 then Some WebDriverException else None) calm.

(** A browser that is refused every time. *)
Definition dead_server : world :=
  with_driver (fun _ => Some WebDriverException) calm.

(** A page whose script raises a JavaScript error. *)
Definition broken_page : world :=
  with_execute_script (fun _ => inl JavascriptException) calm.

(** A tracer that exits with status 1. *)
Definition failing_tracer : world :=
  with_proc (fun _ => Exited 1 []) calm.

(** The path of message.h under the alias root. *)
Definition alias_source (W : world) (args : arguments) : Py.str :=
  testdir_alias W args ++ Py.lit "/out/message.h".

(** The command lines of lines 244 and 246. *)
Definition copy_sources_argv (args : arguments) : list Py.str :=
  pernosco_cmd args ++
  [Py.lit "--user"; Py.lit "1200"; Py.lit "build"; Py.lit "--copy-sources"; Py.lit "/"].

Definition unzip_argv (trace : option Py.str) : list Py.str :=
  [Py.lit "unzip"; Py.lit "-Z1"; Py.of_option trace ++ Py.lit "/files.user/sources.zip"].

(** An archive that lists message.h under the work root only. *)
Definition work_root_archive : world :=
  with_proc (fun _ => Exited 0
     (Py.lit "/tmp/t/pernosco-submit-test/out/main.c" ++ [10%N] ++
      Py.lit "/tmp/t/pernosco-submit-test/out/message.h" ++ [10%N])) calm.

(** An archive that lists message.h under the alias root only. *)
Definition alias_archive : world :=
  with_proc (fun _ => Exited 0
     (Py.lit "/tmp/t/alias/pernosco-submit-test/out/main.c" ++ [10%N] ++
      Py.lit "/tmp/t/alias/pernosco-submit-test/out/message.h" ++ [10%N])) calm.

(** ** Relations between the state before and after a piece of script *)

(** The log has grown by events that all satisfy [P]. *)
Definition extends (P : event -> bool) (st st' : state) : Prop :=
  exists evs, log st' = log st ++ evs /\ forallb P evs = true.

(** The same, and the server handle and the trace directory are the
    ones from before. *)
Definition extends_same_server (P : event -> bool) (st st' : state) : Prop :=
  extends P st st' /\ server st' = server st /\ trace_dir st' = trace_dir st.

(** A computation respects [R] when every run of it, whether it returns
    or raises, relates the state before to the state after. *)
Definition respects (R : state -> state -> Prop) (A : Type) (m : M A) : Prop :=
  forall st r st', m st = (r, st') -> R st st'.

(** [R] lets the event happen. *)
Definition allows (R : state -> state -> Prop) (e : event) : Prop :=
  forall st, R st (add_event e st).

Class Frame (R : state -> state -> Prop) : Prop := {
  frame_refl : forall st, R st st;
  frame_trans : forall a b c, R a b -> R b c -> R a c
}.

(** Kinds of events. *)
Definition is_lifecycle (e : event) : bool :=
  match e with
  | EvPopen _ | EvKillSigint _ | EvWait _ => true
  | _ => false
  end.

Definition is_pass (e : event) : bool :=
  match e with
  | EvStderr s => Py.eqb s PASS
  | _ => false
  end.

Definition is_script (e : event) : bool :=
  match e with
  | EvExecuteScript _ _ => true
  | _ => false
  end.

Definition is_stdout (e : event) : bool :=
  match e with
  | EvStdout _ => true
  | _ => false
  end.

(** Events that neither start or stop a server nor announce success. *)
Definition background (e : event) : bool :=
  negb (is_lifecycle e) && negb (is_pass e).

(** Background events that are not script evaluations either. *)
Definition aftermath (e : event) : bool :=
  background e && negb (is_script e).

(** The command line of line 249. *)
Definition umount_argv (W : world) (args : arguments) : list Py.str :=
  [Py.lit "sudo"; Py.lit "umount"; testdir_alias W args].

(** The command line of line 239. *)
Definition docker_argv : list Py.str := [Py.lit "docker"; Py.lit "ps"; Py.lit "-aq"].

(** What a run does after the second server has been stopped, when
    every check passes: container check, export, listing, unmount,
    marker. *)
Definition closing_events (W : world) (args : arguments) (trace : Py.str)
    : list event :=
  [EvCheckOutput docker_argv;
   EvCheckCall (copy_sources_argv args) None CleanEnv;
   EvCheckOutput (unzip_argv (Some trace));
   EvCheckCall (umount_argv W args) None InheritEnv;
   EvStderr PASS].

(** Events other than the marker. *)
Definition unmarked (e : event) : bool := negb (is_pass e).

(** A world in which the whole scenario goes through. *)
Definition happy : world :=
  mkWorld (Py.lit "/tmp/tmpk3v9") (Py.lit "3.141.0")
    (fun t => if t <? 60 then Exited 0 []
              else Exited 0
                (Py.lit "/tmp/t/pernosco-submit-test/out/main.c" ++ [10%N] ++
                 Py.lit "/tmp/t/pernosco-submit-test/out/message.h" ++ [10%N]))
    (fun _ => announcing_stdout)
    (fun _ => None)
    (fun _ => None)
    (fun _ => [Py.lit "window-1"])
    (fun _ => inr (Py.lit "main.c _exit.c file.c _exit ( helper_function notebook"))
    (fun t => if t <? 42 then inr (JBool true)
              else if t <? 44 then inr (JStr [])
              else inr (JStr (Py.lit "HelloKitty")))
    (fun _ => 119).

(** A world in which the server comes up and the page never shows the
    source view. *)
Definition stuck_page : world := with_stdout announcing_stdout calm.

(** The marker can only be the last thing [m] does, and only when [m]
    returns. *)
Definition marker_last (m : M unit) : Prop :=
  forall st r st',
    m st = (r, st') ->
    forallb unmarked (log st) = true ->
    match r with
    | Ok _ => exists l, log st' = l ++ [EvStderr PASS] /\ forallb unmarked l = true
    | Raise _ => forallb unmarked (log st') = true
    end.

(** The events of [n] polls of a wait on [script] whose evaluation
    raised [e] each time, with the pause after each. *)
Definition failed_polls (script : Py.str) (e : exn) (n : nat) : list event :=
  List.concat (repeat [EvExecuteScript script (inl e); EvSleep 500] n).

(** The events a computation added to the log. *)
Definition new_events (st st' : state) : list event :=
  skipn (List.length (log st)) (log st').

(** The events open_browser can add for the target [u]. *)
Definition is_open_browser_event (u : option Py.str) (e : event) : Prop :=
  e = EvDriver (Get u) \/ e = EvSleep 50 \/ e = EvStderr (bail_out_message u).

(** A word: not empty and free of whitespace. *)
Definition is_word (t : Py.str) : Prop :=
  t <> [] /\ Forall (fun c => Py.isspace c = false) t.

(** The command line runs the pernosco launcher. *)
Definition is_pernosco (argv : list Py.str) : bool :=
  match argv with
  | first :: _ => Py.eqb first (Py.lit "./pernosco")
  | [] => false
  end.

(** The event is not a run of the pernosco launcher, or its command
    line has --no-pull in it. *)
Definition honours_no_pull (e : event) : bool :=
  match e with
  | EvCheckCall argv _ _ | EvCheckOutput argv | EvPopen argv =>
      if is_pernosco argv then Py.mem (Py.lit "--no-pull") argv else true
  | _ => true
  end.

(** The event runs "sudo umount <dir>". *)
Definition is_umount (e : event) : bool :=
  match e with
  | EvCheckCall [a; b; _] _ _ => Py.eqb a (Py.lit "sudo") && Py.eqb b (Py.lit "umount")
  | _ => false
  end.

Definition not_umount (e : event) : bool := negb (is_umount e).

(** No umount in the log has exited with status 0. *)
Definition never_unmounted (W : world) (l : list event) : Prop :=
  forall t e out,
    nth_error l t = Some e -> is_umount e = true -> w_proc W t <> Exited 0 out.

(** When [m] raises, it has not unmounted. *)
Definition leaves_mounted (W : world) (m : M unit) : Prop :=
  forall st e st',
    m st = (Raise e, st') ->
    never_unmounted W (log st) -> never_unmounted W (log st').

(** The trace directory record predicts for the first recording. *)
Definition predicted_trace (W : world) (args : arguments) : Py.str :=
  tmpdir W args ++ Py.lit "/main-0".

(** If the event starts a server, it does so on the predicted trace. *)
Definition serves_predicted (W : world) (args : arguments) (e : event) : Prop :=
  forall argv, e = EvPopen argv -> argv = serve_argv W args (predicted_trace W args).

(** Before the recording: the counter is kept and no server is
    touched. *)
Definition before_record (st st' : state) : Prop :=
  next_trace_id st' = next_trace_id st
  /\ extends (fun e => negb (is_lifecycle e)) st st'.

(** After the recording: the trace directory and the counter are kept,
    and a server is only started on the predicted trace. *)
Definition after_record (W : world) (args : arguments) (st st' : state) : Prop :=
  trace_dir st = Some (predicted_trace W args) ->
  trace_dir st' = Some (predicted_trace W args)
  /\ next_trace_id st' = next_trace_id st
  /\ exists evs, log st' = log st ++ evs /\ Forall (serves_predicted W args) evs.

(** What create_driver always sets on the options, lines 77-79. *)
Definition base_options : list option_setting :=
  [OptPreference (Py.lit "network.websocket.delay-failed-reconnects") false;
   OptPreference (Py.lit "devtools.console.stdout.content") true;
   OptLogLevel (Py.lit "trace")].

(** ** The revision update script (.update.py) *)

Module Update.

(** [s.replace(old, new, 1)]: the leftmost occurrence is replaced. *)
Fixpoint replace_first (old new s : Py.str) : Py.str :=
  if Py.startswith s old then new ++ skipn (List.length old) s
  else
    match s with
    | [] => []
    | c :: s' => c :: replace_first old new s'
    end.

(** [s.rstrip()] *)
Definition rstrip (s : Py.str) : Py.str := rev (Py.lstrip (rev s)).

(** [os.path.join(a, b)] for a relative [b]. *)
Definition path_join (a b : Py.str) : Py.str :=
  match rev a with
  | [] => b
  | c :: _ => if N.eqb c 47 then a ++ b else a ++ [47%N] ++ b
  end.

(** Lines 49-57: one turn of the loop over the lines of git log, on the
    pair of [accumulating] and [changelog]. *)
Definition changelog_step (acc : bool * list Py.str) (line : Py.str)
    : bool * list Py.str :=
  let (accumulating, changelog) := acc in
  let line := Py.strip line in
  match line with
  | [] => (false, changelog)
  | _ :: _ =>
      if accumulating then (true, changelog ++ [line])
      else if Py.startswith line (Py.lit "Changelog:") then
        (true, changelog ++ [replace_first (Py.lit "Changelog:") (Py.lit "-") line])
      else (false, changelog)
  end.

(** Lines 46-57, over lines already split. *)
Definition changelog_of_lines (lines : list Py.str) : list Py.str :=
  snd (fold_left changelog_step lines (false, [])).

(** Lines 46-57. *)
Definition extract_changelog (log_output : Py.str) : list Py.str :=
  changelog_of_lines (Py.splitlines log_output).

(** Lines 59-63: what is written to the commit message file. *)
Definition commit_message (changelog : list Py.str) : Py.str :=
  Py.lit "Update to new container version." ++ [10%N] ++ [10%N]
  ++ List.concat (map (fun line => line ++ [10%N]) changelog).

(** What the script can raise: KeyError for a missing key, or what a
    call to the outside raises. *)
Inductive failure :=
| KeyError (key : Py.str)
| Failed (e : exn).

Inductive step :=
| RevParse (cwd : Py.str)
| ReadMetadata
| WriteMetadata (db_builder_revision appserver_revision : Py.str)
| Stderr (s : Py.str)
| RunTests
| GitLog (range cwd : Py.str)
| WriteMessage (text : Py.str)
| Commit.

(** The outside of the update script: the environment variable, git
    rev-parse, the dict json.load returns (its keys are distinct), the
    smoke test, the output of git log (whose exit status the script
    does not look at), the name of the temporary file for the commit
    message and git commit. *)
Record surroundings := mkSurroundings {
  u_pernosco_root : option Py.str;
  u_rev_parse : proc_outcome;
  u_metadata : exn + list (Py.str * Py.str);
  u_tests : proc_outcome;
  u_git_log : exn + Py.str;
  u_message_name : Py.str;
  u_commit : proc_outcome
}.

Fixpoint lookup (key : Py.str) (d : list (Py.str * Py.str)) : option Py.str :=
  match d with
  | [] => None
  | (k, v) :: d' => if Py.eqb k key then Some v else lookup key d'
  end.

Definition called (argv : list Py.str) (o : proc_outcome) : failure + Py.str :=
  match o with
  | SpawnFailed e => inl (Failed e)
  | Exited rc out =>
      if (rc =? 0)%Z then inr out else inl (Failed (CalledProcessError rc argv))
  end.

(** The script from its first statement to its last: the steps taken,
    and the exception that ended them if there was one. *)
Definition update (S : surroundings) : list step * option failure :=
  match u_pernosco_root S with
  | None => ([], Some (KeyError (Py.lit "PERNOSCO_ROOT")))
  | Some pernosco_root =>
      let pernosco_main := path_join pernosco_root (Py.lit "main") in
      let l1 := [RevParse pernosco_main] in
      match called [Py.lit "git"; Py.lit "rev-parse"; Py.lit "HEAD"] (u_rev_parse S) with
      | inl f => (l1, Some f)
      | inr out =>
          let new_rev := rstrip out in
          let l2 := l1 ++ [ReadMetadata] in
          match u_metadata S with
          | inl e => (l2, Some (Failed e))
          | inr data =>
              match lookup (Py.lit "db_builder_revision") data with
              | None => (l2, Some (KeyError (Py.lit "db_builder_revision")))
              | Some old_rev =>
                  let l3 := l2 ++ [WriteMetadata new_rev new_rev;
                                   Stderr (Py.lit "Replacing on-prem revision  " ++ old_rev
                                           ++ Py.lit "  with  " ++ new_rev);
                                   RunTests] in
                  match called [Py.lit "./tests/main.py"; Py.lit "--headless"]
                               (u_tests S) with
                  | inl f => (l3, Some f)
                  | inr _ =>
                      let l4 := l3 ++ [GitLog (old_rev ++ Py.lit ".." ++ new_rev)
                                              pernosco_main] in
                      match u_git_log S with
                      | inl e => (l4, Some (Failed e))
                      | inr log_output =>
                          let changelog := extract_changelog log_output in
                          let l5 := l4 ++ [WriteMessage (commit_message changelog);
                                           Commit] in
                          match called [Py.lit "git"; Py.lit "commit"; Py.lit "--edit";
                                        Py.lit "--file"; u_message_name S;
                                        Py.lit "--"; Py.lit "metadata.json"]
                                       (u_commit S) with
                          | inl f => (l5, Some f)
                          | inr _ => (l5, None)
                          end
                      end
                  end
              end
          end
      end
  end.

(** No character of the string ends a line. *)
Definition one_line (s : Py.str) : Prop :=
  Forall (fun c => Py.islinebreak c = false) s.

(** A git log with one changelog paragraph, and one without. *)
Definition sample_log : Py.str :=
  Py.lit "commit 1f3a" ++ [10%N] ++
  Py.lit "    Fix the source view" ++ [10%N] ++
  [10%N] ++
  Py.lit "    Changelog: Fix the source view" ++ [10%N] ++
  Py.lit "    of inlined functions" ++ [10%N] ++
  [10%N] ++
  Py.lit "commit 77b0" ++ [10%N].

Definition failing_tests : surroundings :=
  mkSurroundings (Some (Py.lit "/home/dev/pernosco"))
    (Exited 0 (Py.lit "1f3a9c" ++ [10%N]))
    (inr [(Py.lit "db_builder_revision", Py.lit "77b0e2");
          (Py.lit "appserver_revision", Py.lit "77b0e2")])
    (Exited 1 [])
    (inr sample_log)
    (Py.lit "/tmp/tmpa81x")
    (Exited 0 []).

Definition passing_tests : surroundings :=
  mkSurroundings (Some (Py.lit "/home/dev/pernosco"))
    (Exited 0 (Py.lit "1f3a9c" ++ [10%N]))
    (inr [(Py.lit "db_builder_revision", Py.lit "77b0e2");
          (Py.lit "appserver_revision", Py.lit "77b0e2")])
    (Exited 0 [])
    (inr sample_log)
    (Py.lit "/tmp/tmpa81x")
    (Exited 0 []).

End Update.

(** The six events of the two servers of the script, in the order of
    lines 129, 225, 226, 129, 235 and 236: Popen, SIGINT and wait of the
    first, then of the second. A server is named by the position of its
    Popen in the log. *)
Definition server_lifecycle (argv : list Py.str) (p1 p2 : nat) : list event :=
  [EvPopen argv; EvKillSigint p1; EvWait p1;
   EvPopen argv; EvKillSigint p2; EvWait p2].

Definition is_check_output (e : event) : bool :=
  match e with
  | EvCheckOutput _ => true
  | _ => false
  end.

(** Events that touch no server and are not a check_output either
    (the first check_output of the script is the container check of
    line 239). *)
Definition uneventful (e : event) : bool :=
  negb (is_lifecycle e) && negb (is_check_output e).

(** The log [l] has got through the first [n] events of the lifecycle,
    the Popens being where [p1] and [p2] say, and no check_output has
    been made before the sixth. *)
Definition reached (n : nat) (argv : list Py.str) (p1 p2 : nat)
    (l : list event) : Prop :=
  filter is_lifecycle l = firstn n (server_lifecycle argv p1 p2)
  /\ (1 <= n -> nth_error l p1 = Some (EvPopen argv))
  /\ (4 <= n -> nth_error l p2 = Some (EvPopen argv) /\ p1 < p2)
  /\ (n < 6 -> existsb is_check_output l = false).

(** What is shown of every run, with result [r] and final state [st]. *)
Definition lifecycle_goal (r : result unit) (st : state) : Prop :=
  exists argv p1 p2 n,
    n <= 6 /\ reached n argv p1 p2 (log st) /\ (r = Ok tt -> n = 6).

(** * Properties *)

(** ** Basic facts about states and the monad *)

Lemma add_event_add_events e st : add_event e st = add_events [e] st.
Proof. reflexivity. Qed.

Lemma add_events_nil st : add_events [] st = st.
Proof. destruct st; unfold add_events; simpl. now rewrite app_nil_r. Qed.

Lemma add_events_app a b st :
  add_events b (add_events a st) = add_events (a ++ b) st.
Proof. unfold add_events; simpl. now rewrite app_assoc. Qed.

Lemma bind_ok_inv A B (m : M A) (k : A -> M B) st b st' :
  bind m k st = (Ok b, st') ->
  exists a st1, m st = (Ok a, st1) /\ k a st1 = (Ok b, st').
Proof.
  unfold bind. destruct (m st) as [[a|e] st1]; intros H.
  - now exists a, st1.
  - discriminate.
Qed.

Lemma bind_raise A B (m : M A) (k : A -> M B) st e st' :
  m st = (Raise e, st') -> bind m k st = (Raise e, st').
Proof. unfold bind. now intros ->. Qed.

Lemma bind_ok A B (m : M A) (k : A -> M B) st a st1 :
  m st = (Ok a, st1) -> bind m k st = k a st1.
Proof. unfold bind. now intros ->. Qed.

(** ** script_succeeds *)

(** C8. Whatever the script and the expected value, when the in-page
    evaluation raises JavascriptException the predicate returns False:
    the exception does not leave [script_succeeds]; only the evaluation
    itself is added to the log. *)
Theorem script_succeeds_swallows_js_error W script expected st d :
  driver st = Some d ->
  w_execute_script W (List.length (log st)) = inl JavascriptException ->
  script_succeeds W script expected st =
    (Ok false, add_event (EvExecuteScript script (inl JavascriptException)) st).
Proof.
  intros Hd Hw.
  unfold script_succeeds, try_except, bind, deref, read, now, emit, write.
  cbn. rewrite Hd. cbn. rewrite Hw. reflexivity.
Qed.

(** Any other exception of the evaluation does leave the predicate. *)
Lemma script_succeeds_other_error W script expected st d e :
  driver st = Some d ->
  w_execute_script W (List.length (log st)) = inl e ->
  is_JavascriptException e = false ->
  script_succeeds W script expected st =
    (Raise e, add_event (EvExecuteScript script (inl e)) st).
Proof.
  intros Hd Hw He.
  unfold script_succeeds, try_except, bind, deref, read, now, emit, write.
  cbn. rewrite Hd. cbn. rewrite Hw. cbn. rewrite He. reflexivity.
Qed.

(** ** record *)

(** C10. record is atomic on error: when rr record exits with a
    non-zero status, record raises CalledProcessError and leaves
    trace_dir and next_trace_id as they were; and in every case the
    counter grows by exactly one when record returns and stays as it was
    when record raises. *)
Theorem record_atomic W args st :
  (forall rc out,
      w_proc W (List.length (log st)) = Exited rc out -> rc <> 0%Z ->
      fst (record W args st) = Raise (CalledProcessError rc (record_argv W args))
      /\ trace_dir (snd (record W args st)) = trace_dir st
      /\ next_trace_id (snd (record W args st)) = next_trace_id st)
  /\ (fst (record W args st) = Ok tt <->
      next_trace_id (snd (record W args st)) = (next_trace_id st + 1)%Z)
  /\ (fst (record W args st) <> Ok tt ->
      trace_dir (snd (record W args st)) = trace_dir st
      /\ next_trace_id (snd (record W args st)) = next_trace_id st).
Proof.
  unfold record, check_call, bind, now, emit, read, write, record_argv.
  cbn.
  destruct (w_proc W (List.length (log st))) as [e|rc out] eqn:Hp; cbn.
  - repeat split; intros; try discriminate; try reflexivity; lia.
  - destruct (Z.eqb_spec rc 0) as [->|Hrc]; cbn;
      repeat split; intros; try reflexivity; try discriminate;
      try congruence; try lia.
Qed.

(** ** open_browser *)

Lemma open_browser_loop_stop W u retries :
  (retries + 1 > 100)%Z ->
  open_browser_loop W u retries =
    bind (print_stderr (bail_out_message u))
         (fun _ => raise (CustomException (Py.lit "Too many retries"))).
Proof.
  intros H. rewrite open_browser_loop_equation_1.
  destruct (Z_gt_dec (retries + 1) 100) as [g|n]; [|contradiction].
  now rewrite open_browser_loop_clause_1_equation_1.
Qed.

Lemma open_browser_loop_refused_once W u retries st d :
  (retries + 1 <= 100)%Z ->
  driver st = Some d ->
  refuses W (List.length (log st)) ->
  open_browser_loop W u retries st =
    open_browser_loop W u (retries + 1)
      (add_events [EvDriver (Get u); EvSleep 50] st).
Proof.
  intros Hr Hd (e & He & Hwd).
  rewrite open_browser_loop_equation_1.
  destruct (Z_gt_dec (retries + 1) 100) as [g|n]; [lia|].
  rewrite open_browser_loop_clause_1_equation_2.
  unfold bind, deref, read, now, emit, write, sleep. cbn.
  rewrite Hd. cbn. rewrite He, Hwd.
  rewrite !add_event_add_events, add_events_app. reflexivity.
Qed.

Lemma open_browser_loop_accepted W u retries st d :
  (retries + 1 <= 100)%Z ->
  driver st = Some d ->
  w_driver W (List.length (log st)) = None ->
  open_browser_loop W u retries st =
    (Ok tt, add_events [EvDriver (Get u)] st).
Proof.
  intros Hr Hd He.
  rewrite open_browser_loop_equation_1.
  destruct (Z_gt_dec (retries + 1) 100) as [g|n]; [lia|].
  rewrite open_browser_loop_clause_1_equation_2.
  unfold bind, deref, read, now, emit, write. cbn.
  rewrite Hd. cbn. rewrite He. reflexivity.
Qed.

Lemma open_browser_loop_refused W u d n :
  forall retries st,
    (retries + Z.of_nat n <= 100)%Z ->
    driver st = Some d ->
    (forall i, i < n -> refuses W (List.length (log st) + 2 * i)) ->
    open_browser_loop W u retries st =
      open_browser_loop W u (retries + Z.of_nat n)
        (add_events (refused_attempts u n) st).
Proof.
  induction n as [|n IH]; intros retries st Hr Hd Hall.
  - cbn. now rewrite Z.add_0_r, add_events_nil.
  - rewrite (@open_browser_loop_refused_once W u retries st d); [|lia|assumption|].
    + rewrite IH.
      * rewrite add_events_app.
        replace (retries + 1 + Z.of_nat n)%Z with (retries + Z.of_nat (S n))%Z by lia.
        reflexivity.
      * lia.
      * exact Hd.
      * intros i Hi. cbn [log add_events]. rewrite length_app. cbn [List.length].
        replace (List.length (log st) + 2 + 2 * i) with
          (List.length (log st) + 2 * S i) by lia.
        apply Hall. lia.
    + replace (List.length (log st)) with (List.length (log st) + 2 * 0) by lia.
      apply Hall. lia.
Qed.

Lemma refused_attempts_navigations u n :
  List.length (filter is_navigation (refused_attempts u n)) = n.
Proof.
  induction n as [|n IH]; [reflexivity|].
  unfold refused_attempts in *. cbn. now rewrite IH.
Qed.

(** C5. With a browser session open: when the first N navigation
    attempts (N < 100) fail with a WebDriverException and the next one
    succeeds, open_browser returns, having navigated N + 1 times; when
    each of the first 100 attempts fails so, open_browser prints its
    message and raises CustomException("Too many retries"), having
    navigated exactly 100 times. The function is total, so it never
    loops for ever. *)
Theorem open_browser_retry_bound W u st d :
  driver st = Some d ->
  (forall N, N < 100 ->
     (forall i, i < N -> refuses W (List.length (log st) + 2 * i)) ->
     w_driver W (List.length (log st) + 2 * N) = None ->
     open_browser W u st =
       (Ok tt, add_events (refused_attempts u N ++ [EvDriver (Get u)]) st)
     /\ List.length (filter is_navigation
                       (refused_attempts u N ++ [EvDriver (Get u)])) = N + 1)
  /\ ((forall i, i < 100 -> refuses W (List.length (log st) + 2 * i)) ->
      open_browser W u st =
        (Raise (CustomException (Py.lit "Too many retries")),
         add_events (refused_attempts u 100 ++ [EvStderr (bail_out_message u)]) st)
      /\ List.length (filter is_navigation
                        (refused_attempts u 100 ++ [EvStderr (bail_out_message u)])) = 100).
Proof.
  intros Hd. split.
  - intros N HN Hall Hok. split.
    + unfold open_browser.
      rewrite (@open_browser_loop_refused W u d N 0 st); [|lia|assumption|assumption].
      rewrite (@open_browser_loop_accepted W u _ _ d); [| lia | exact Hd |].
      * now rewrite add_events_app.
      * cbn [log add_events]. rewrite length_app.
        replace (List.length (refused_attempts u N)) with (2 * N); [exact Hok|].
        clear. induction N as [|N IH]; [reflexivity|].
        unfold refused_attempts in *. cbn [repeat List.concat]. rewrite length_app, <- IH.
        cbn [List.length]. lia.
    + rewrite filter_app, length_app, refused_attempts_navigations. reflexivity.
  - intros Hall. split.
    + unfold open_browser.
      rewrite (@open_browser_loop_refused W u d 100 0 st); [|lia|assumption|assumption].
      rewrite open_browser_loop_stop by lia.
      unfold bind, print_stderr, emit, write, raise.
      now rewrite add_event_add_events, add_events_app.
    + rewrite filter_app, length_app, refused_attempts_navigations. reflexivity.
Qed.

(** ** Splitting a line into words *)

Example split_announcement :
  Py.split (Py.lit "  Appserver launched at  http://172.29.0.2:3000/ " ++ [10%N]) =
    [Py.lit "Appserver"; Py.lit "launched"; Py.lit "at"; Py.lit "http://172.29.0.2:3000/"].
Proof. reflexivity. Qed.

Example split_tab_newline : Py.split [32%N; 9%N; 10%N] = [].
Proof. reflexivity. Qed.

Example splitlines_listing :
  Py.splitlines (Py.lit "a/b.c" ++ [13%N; 10%N] ++ Py.lit "d" ++ [10%N; 10%N] ++ Py.lit "e") =
    [Py.lit "a/b.c"; Py.lit "d"; []; Py.lit "e"].
Proof. reflexivity. Qed.

Example strip_ids : Py.strip ([10%N] ++ Py.lit " 4f2a " ++ [10%N]) = Py.lit "4f2a".
Proof. reflexivity. Qed.

Example trace_dir_name : Py.lit "/tmp/t" ++ Py.lit "/main-" ++ Py.of_int 12 = Py.lit "/tmp/t/main-12".
Proof. reflexivity. Qed.

Lemma split_from_blank line :
  blank line -> Py.split_from [] line = [].
Proof.
  induction 1 as [|c line Hc _ IH]; [reflexivity|].
  cbn. now rewrite Hc.
Qed.

Lemma split_from_nil cur line :
  Py.split_from cur line = [] -> cur = [] /\ blank line.
Proof.
  revert cur. induction line as [|c line IH]; intros cur H; cbn in H.
  - destruct cur; [split; [reflexivity|constructor] | discriminate].
  - destruct (Py.isspace c) eqn:Hc.
    + destruct cur; [|discriminate].
      destruct (IH [] H) as [_ Hb]. split; [reflexivity|now constructor].
    + destruct (IH _ H) as [Hcur _]. discriminate.
Qed.

(** A line has no last word exactly when it is made of whitespace. *)
Lemma last_word_none line : last_word line = None <-> blank line.
Proof.
  unfold last_word, Py.last_item, Py.split. split.
  - intros H. destruct (rev (Py.split_from [] line)) eqn:Hr; [|discriminate].
    apply (f_equal (@rev _)) in Hr. rewrite rev_involutive in Hr. cbn in Hr.
    now apply split_from_nil in Hr.
  - intros H. now rewrite split_from_blank.
Qed.

(** ** The scan of the server's output *)

Lemma scan_stdout_passed_over pre :
  forall rest st,
    Forall passed_over pre ->
    scan_stdout (pre ++ rest) st =
      scan_stdout rest (add_events (map EvStdout pre) st).
Proof.
  induction pre as [|line pre IH]; intros rest st Hpre.
  - cbn. now rewrite add_events_nil.
  - inversion Hpre as [|? ? (w & Hw & Hs) Hpre']; subst.
    cbn [app scan_stdout map]. unfold bind at 1, print, emit, write.
    unfold last_word in Hw. rewrite Hw, Hs.
    rewrite IH by assumption.
    now rewrite add_event_add_events, add_events_app.
Qed.

Lemma scan_stdout_found pre line post w st :
  Forall passed_over pre ->
  last_word line = Some w ->
  Py.startswith w (Py.lit "http:") = true ->
  scan_stdout (pre ++ line :: post) st =
    (Ok tt, set_url (Some w) (add_events (map EvStdout (pre ++ [line])) st)).
Proof.
  intros Hpre Hw Hs. rewrite scan_stdout_passed_over by assumption.
  cbn [scan_stdout]. unfold bind, print, emit, write.
  unfold last_word in Hw. rewrite Hw, Hs.
  now rewrite add_event_add_events, add_events_app, map_app.
Qed.

Lemma scan_stdout_blank pre line post st :
  Forall passed_over pre ->
  blank line ->
  scan_stdout (pre ++ line :: post) st =
    (Raise IndexError, add_events (map EvStdout (pre ++ [line])) st).
Proof.
  intros Hpre Hb. rewrite scan_stdout_passed_over by assumption.
  cbn [scan_stdout]. unfold bind, print, emit, write.
  apply last_word_none in Hb. unfold last_word in Hb. rewrite Hb.
  unfold raise. now rewrite add_event_add_events, add_events_app, map_app.
Qed.

Lemma scan_stdout_closed lines st :
  Forall passed_over lines ->
  scan_stdout lines st = (Ok tt, add_events (map EvStdout lines) st).
Proof.
  intros H. rewrite <- (app_nil_r lines) at 1.
  now rewrite scan_stdout_passed_over.
Qed.

(** start_server up to the scan, when the server process starts. *)
Lemma start_server_spawned W args st trace :
  trace_dir st = Some trace ->
  w_os W (List.length (log st)) = None ->
  start_server W args st =
    scan_stdout (w_stdout W (List.length (log st)))
      (set_url None
         (set_server (Some (List.length (log st)))
            (add_event (EvPopen (serve_argv W args trace)) st))).
Proof.
  intros Ht Hos.
  unfold start_server, bind, read, os_call, now, emit, write. cbn.
  rewrite Ht. cbn. rewrite Hos. reflexivity.
Qed.

(** ** start_server *)

(** C4, amended. With a recorded trace and a server process that
    starts: when some line of the server's output has a last word
    beginning with "http:" and every line before it has a last word that
    does not, start_server returns with the URL set to exactly that last
    word, having printed each line up to and including that one and
    none after it. *)
Theorem start_server_discovers_url W args st trace pre line post w :
  trace_dir st = Some trace ->
  w_os W (List.length (log st)) = None ->
  w_stdout W (List.length (log st)) = pre ++ line :: post ->
  Forall passed_over pre ->
  last_word line = Some w ->
  Py.startswith w (Py.lit "http:") = true ->
  fst (start_server W args st) = Ok tt
  /\ url (snd (start_server W args st)) = Some w
  /\ server (snd (start_server W args st)) = Some (List.length (log st))
  /\ log (snd (start_server W args st)) =
       log st ++ EvPopen (serve_argv W args trace) :: map EvStdout (pre ++ [line]).
Proof.
  intros Ht Hos Hout Hpre Hw Hs.
  rewrite (@start_server_spawned W args st trace Ht Hos), Hout.
  rewrite (@scan_stdout_found pre line post w _ Hpre Hw Hs). cbn.
  rewrite <- app_assoc. repeat split; reflexivity.
Qed.

Lemma start_server_discovers_url_witness :
  fst (start_server (with_stdout announcing_stdout calm) sample_args recorded) = Ok tt
  /\ url (snd (start_server (with_stdout announcing_stdout calm) sample_args recorded))
     = Some (Py.lit "http://172.29.0.2:3000/index.html")
  /\ server (snd (start_server (with_stdout announcing_stdout calm) sample_args recorded))
     = Some 0
  /\ log (snd (start_server (with_stdout announcing_stdout calm) sample_args recorded))
     = [] ++ EvPopen (serve_argv (with_stdout announcing_stdout calm) sample_args
                         (Py.lit "/tmp/t/main-0"))
          :: map EvStdout ([Py.lit "Loading trace" ++ [10%N]] ++
               [Py.lit "Appserver launched at http://172.29.0.2:3000/index.html" ++ [10%N]]).
Proof.
  apply (@start_server_discovers_url (with_stdout announcing_stdout calm) sample_args
           recorded (Py.lit "/tmp/t/main-0") [Py.lit "Loading trace" ++ [10%N]]
           (Py.lit "Appserver launched at http://172.29.0.2:3000/index.html" ++ [10%N])
           [Py.lit "ready" ++ [10%N]] (Py.lit "http://172.29.0.2:3000/index.html")).
  - reflexivity.
  - reflexivity.
  - reflexivity.
  - constructor; [|constructor]. exists (Py.lit "trace"). split; reflexivity.
  - reflexivity.
  - reflexivity.
Defined.

(** C4 as first stated fails: the last word of the only line begins with
    "http", yet no URL is set. *)
Lemma start_server_https_not_discovered :
  existsb (announces (Py.lit "http")) (w_stdout (with_stdout tls_stdout calm) 0) = true
  /\ fst (start_server (with_stdout tls_stdout calm) sample_args recorded) = Ok tt
  /\ url (snd (start_server (with_stdout tls_stdout calm) sample_args recorded)) = None.
Proof. repeat split; reflexivity. Qed.

(** C3, amended. With a recorded trace and a server process that
    starts: when the server's output ends and each of its lines has a
    last word that does not begin with "http:", start_server returns
    normally, with the URL left at None and every line printed. *)
Theorem start_server_closed_stream W args st trace :
  trace_dir st = Some trace ->
  w_os W (List.length (log st)) = None ->
  Forall passed_over (w_stdout W (List.length (log st))) ->
  fst (start_server W args st) = Ok tt
  /\ url (snd (start_server W args st)) = None
  /\ server (snd (start_server W args st)) = Some (List.length (log st))
  /\ log (snd (start_server W args st)) =
       log st ++ EvPopen (serve_argv W args trace)
              :: map EvStdout (w_stdout W (List.length (log st))).
Proof.
  intros Ht Hos Hall.
  rewrite (@start_server_spawned W args st trace Ht Hos).
  rewrite (@scan_stdout_closed _ _ Hall). cbn.
  rewrite <- app_assoc. repeat split; reflexivity.
Qed.

Lemma start_server_closed_stream_witness :
  fst (start_server (with_stdout silent_stdout calm) sample_args recorded) = Ok tt
  /\ url (snd (start_server (with_stdout silent_stdout calm) sample_args recorded)) = None
  /\ server (snd (start_server (with_stdout silent_stdout calm) sample_args recorded))
     = Some 0
  /\ log (snd (start_server (with_stdout silent_stdout calm) sample_args recorded)) =
       [] ++ EvPopen (serve_argv (with_stdout silent_stdout calm) sample_args
                        (Py.lit "/tmp/t/main-0"))
          :: map EvStdout silent_stdout.
Proof.
  apply (@start_server_closed_stream (with_stdout silent_stdout calm) sample_args
           recorded (Py.lit "/tmp/t/main-0")).
  - reflexivity.
  - reflexivity.
  - constructor; [|constructor; [|constructor]].
    + exists (Py.lit "trace"). split; reflexivity.
    + exists (Py.lit "missing"). split; reflexivity.
Defined.

(** C3 as first stated fails: no line of the output has a last word
    beginning with "http", the stream ends, and start_server returns
    without raising, the URL being None. *)
Lemma start_server_silent_returns :
  forallb (fun line => negb (announces (Py.lit "http") line))
          (w_stdout (with_stdout silent_stdout calm) 0) = true
  /\ fst (start_server (with_stdout silent_stdout calm) sample_args recorded) = Ok tt
  /\ url (snd (start_server (with_stdout silent_stdout calm) sample_args recorded)) = None.
Proof. repeat split; reflexivity. Qed.

(** C9. With a recorded trace and a server process that starts: when a
    line made only of whitespace comes after lines that were passed
    over, the line splits into no word, start_server raises IndexError
    with the URL left at None, having printed the lines up to that one,
    and whatever follows start_server in the script is not run. *)
Theorem start_server_blank_line W args st trace pre line post :
  trace_dir st = Some trace ->
  w_os W (List.length (log st)) = None ->
  w_stdout W (List.length (log st)) = pre ++ line :: post ->
  Forall passed_over pre ->
  blank line ->
  Py.split line = []
  /\ fst (start_server W args st) = Raise IndexError
  /\ url (snd (start_server W args st)) = None
  /\ log (snd (start_server W args st)) =
       log st ++ EvPopen (serve_argv W args trace) :: map EvStdout (pre ++ [line])
  /\ forall k : unit -> M unit,
       bind (start_server W args) k st = start_server W args st.
Proof.
  intros Ht Hos Hout Hpre Hb.
  split; [now apply split_from_blank|].
  assert (Hrun : start_server W args st =
            (Raise IndexError,
             add_events (map EvStdout (pre ++ [line]))
               (set_url None
                  (set_server (Some (List.length (log st)))
                     (add_event (EvPopen (serve_argv W args trace)) st))))).
  { rewrite (@start_server_spawned W args st trace Ht Hos), Hout.
    now rewrite (@scan_stdout_blank pre line post _ Hpre Hb). }
  rewrite Hrun. cbn. rewrite <- app_assoc.
  repeat split; try reflexivity.
  intros k. now apply bind_raise.
Qed.

Lemma start_server_blank_line_witness :
  Py.split [10%N] = []
  /\ fst (start_server (with_stdout spaced_stdout calm) sample_args recorded)
     = Raise IndexError
  /\ url (snd (start_server (with_stdout spaced_stdout calm) sample_args recorded)) = None
  /\ log (snd (start_server (with_stdout spaced_stdout calm) sample_args recorded)) =
       [] ++ EvPopen (serve_argv (with_stdout spaced_stdout calm) sample_args
                        (Py.lit "/tmp/t/main-0"))
          :: map EvStdout ([Py.lit "Loading trace" ++ [10%N]] ++ [[10%N]])
  /\ forall k : unit -> M unit,
       bind (start_server (with_stdout spaced_stdout calm) sample_args) k recorded =
       start_server (with_stdout spaced_stdout calm) sample_args recorded.
Proof.
  apply (@start_server_blank_line (with_stdout spaced_stdout calm) sample_args
           recorded (Py.lit "/tmp/t/main-0") [Py.lit "Loading trace" ++ [10%N]]
           [10%N]
           [Py.lit "Appserver launched at http://172.29.0.2:3000/index.html" ++ [10%N]]).
  - reflexivity.
  - reflexivity.
  - reflexivity.
  - constructor; [|constructor]. exists (Py.lit "trace"). split; reflexivity.
  - constructor; [reflexivity|constructor].
Defined.

(** ** Examples for script_succeeds, record and open_browser *)

Lemma script_succeeds_swallows_js_error_witness :
  script_succeeds broken_page textarea_script (JStr typed_text) browsing =
    (Ok false,
     add_event (EvExecuteScript textarea_script (inl JavascriptException)) browsing).
Proof.
  apply (@script_succeeds_swallows_js_error broken_page textarea_script
           (JStr typed_text) browsing 0); reflexivity.
Defined.

Lemma record_atomic_witness :
  fst (record failing_tracer sample_args initial)
    = Raise (CalledProcessError 1 (record_argv failing_tracer sample_args))
  /\ trace_dir (snd (record failing_tracer sample_args initial)) = None
  /\ next_trace_id (snd (record failing_tracer sample_args initial)) = 0%Z.
Proof.
  apply (proj1 (record_atomic failing_tracer sample_args initial) 1%Z []).
  - reflexivity.
  - discriminate.
Defined.

Lemma open_browser_retry_bound_witness :
  (open_browser late_server (Some (Py.lit "http://172.29.0.2:3000/")) browsing =
     (Ok tt,
      add_events (refused_attempts (Some (Py.lit "http://172.29.0.2:3000/")) 3
                  ++ [EvDriver (Get (Some (Py.lit "http://172.29.0.2:3000/")))])
                 browsing)
   /\ List.length (filter is_navigation
        (refused_attempts (Some (Py.lit "http://172.29.0.2:3000/")) 3
         ++ [EvDriver (Get (Some (Py.lit "http://172.29.0.2:3000/")))])) = 3 + 1)
  /\ (open_browser dead_server None browsing =
        (Raise (CustomException (Py.lit "Too many retries")),
         add_events (refused_attempts None 100 ++ [EvStderr (bail_out_message None)])
                    browsing)
      /\ List.length (filter is_navigation
           (refused_attempts None 100 ++ [EvStderr (bail_out_message None)])) = 100).
Proof.
  split.
  - apply (proj1 (@open_browser_retry_bound late_server
                    (Some (Py.lit "http://172.29.0.2:3000/")) browsing 0 eq_refl) 3).
    + lia.
    + intros i Hi. exists WebDriverException.
      destruct i as [|[|[|i]]]; [split; reflexivity .. | lia].
    + reflexivity.
  - apply (proj2 (@open_browser_retry_bound dead_server None browsing 0 eq_refl)).
    intros i Hi. exists WebDriverException. split; reflexivity.
Defined.

(** ** The check of the exported archive *)

Lemma eqb_eq a : forall b, Py.eqb a b = true <-> a = b.
Proof.
  induction a as [|x a IH]; intros [|y b]; cbn; try (split; [discriminate|discriminate]).
  - split; reflexivity.
  - rewrite andb_true_iff, N.eqb_eq, IH. split.
    + now intros [-> ->].
    + intros H; inversion H; now split.
Qed.

Lemma mem_In x l : Py.mem x l = true <-> In x l.
Proof.
  unfold Py.mem. rewrite existsb_exists. split.
  - intros (y & Hy & He). apply eqb_eq in He. now subst.
  - intros H. exists x. split; [assumption|now apply eqb_eq].
Qed.

Lemma alias_source_differs W args : alias_source W args <> expected_source W args.
Proof.
  unfold alias_source, expected_source, testdir_alias, tmpdir_alias.
  rewrite <- !app_assoc. intros H. apply app_inv_head in H. discriminate.
Qed.

(** C2, amended. When the copy-sources build and the listing of
    <trace>/files.user/sources.zip both exit with status 0, the export
    check passes exactly when the listing has a line equal to
    <tmpdir>/pernosco-submit-test/out/message.h, the path of message.h
    under the work root, which is never its path under the alias root;
    when no line is equal to it the check raises AssertionError. *)
Theorem export_verify_checks_work_root_path W args st out listing :
  w_proc W (List.length (log st)) = Exited 0 out ->
  w_proc W (S (List.length (log st))) = Exited 0 listing ->
  log (snd (export_verify W args st)) =
    log st ++ [EvCheckCall (copy_sources_argv args) None CleanEnv;
               EvCheckOutput (unzip_argv (trace_dir st))]
  /\ (In (expected_source W args) (Py.splitlines listing) ->
      fst (export_verify W args st) = Ok tt)
  /\ (~ In (expected_source W args) (Py.splitlines listing) ->
      fst (export_verify W args st) = Raise AssertionError)
  /\ expected_source W args = tmpdir W args ++ Py.lit "/pernosco-submit-test/out/message.h"
  /\ expected_source W args <> alias_source W args.
Proof.
  intros H1 H2.
  unfold export_verify, check_call, check_output, bind, now, emit, read, write, assert.
  cbn. rewrite H1. cbn. rewrite length_app, Nat.add_1_r. cbn. rewrite H2. cbn.
  destruct (Py.mem (expected_source W args) (Py.splitlines listing)) eqn:Hm; cbn.
  - rewrite <- app_assoc. repeat split; try reflexivity.
    + intros Hn. apply mem_In in Hm. contradiction.
    + intros E. now apply (@alias_source_differs W args).
  - rewrite <- app_assoc. repeat split; try reflexivity.
    + intros Hi. apply mem_In in Hi. congruence.
    + intros E. now apply (@alias_source_differs W args).
Qed.

Lemma export_verify_checks_work_root_path_witness :
  log (snd (export_verify work_root_archive sample_args recorded)) =
    [] ++ [EvCheckCall (copy_sources_argv sample_args) None CleanEnv;
           EvCheckOutput (unzip_argv (Some (Py.lit "/tmp/t/main-0")))]
  /\ fst (export_verify work_root_archive sample_args recorded) = Ok tt.
Proof.
  destruct (@export_verify_checks_work_root_path work_root_archive sample_args recorded
              (Py.lit "/tmp/t/pernosco-submit-test/out/main.c" ++ [10%N] ++
               Py.lit "/tmp/t/pernosco-submit-test/out/message.h" ++ [10%N])
              (Py.lit "/tmp/t/pernosco-submit-test/out/main.c" ++ [10%N] ++
               Py.lit "/tmp/t/pernosco-submit-test/out/message.h" ++ [10%N])
              eq_refl eq_refl) as (Hlog & Hok & _).
  split; [exact Hlog|].
  apply Hok. right. left. reflexivity.
Defined.

(** C2 as first stated fails both ways: an archive without the
    alias-rooted path of message.h passes the check, and an archive with
    it (and without the work-root path) fails the check. *)
Lemma export_verify_ignores_alias_path :
  (Py.mem (alias_source work_root_archive sample_args)
          (Py.splitlines
             (Py.lit "/tmp/t/pernosco-submit-test/out/main.c" ++ [10%N] ++
              Py.lit "/tmp/t/pernosco-submit-test/out/message.h" ++ [10%N])) = false
   /\ fst (export_verify work_root_archive sample_args recorded) = Ok tt)
  /\ (Py.mem (alias_source alias_archive sample_args)
             (Py.splitlines
                (Py.lit "/tmp/t/alias/pernosco-submit-test/out/main.c" ++ [10%N] ++
                 Py.lit "/tmp/t/alias/pernosco-submit-test/out/message.h" ++ [10%N])) = true
      /\ fst (export_verify alias_archive sample_args recorded) = Raise AssertionError).
Proof. repeat split; reflexivity. Qed.

(** ** Framing: what a piece of script leaves alone *)

#[export] Instance extends_frame P : Frame (extends P).
Proof.
  split.
  - intros st. exists []. now rewrite app_nil_r.
  - intros a b c (e1 & H1 & P1) (e2 & H2 & P2). exists (e1 ++ e2). split.
    + now rewrite H2, H1, app_assoc.
    + now rewrite forallb_app, P1, P2.
Qed.

#[export] Instance extends_same_server_frame P : Frame (extends_same_server P).
Proof.
  split.
  - intros st. split; [apply frame_refl|split; reflexivity].
  - intros a b c (H1 & S1 & T1) (H2 & S2 & T2). split.
    + eapply frame_trans; eassumption.
    + split; congruence.
Qed.

Lemma allows_extends (P : event -> bool) e : P e = true -> allows (extends P) e.
Proof. intros H st. exists [e]. split; [reflexivity|]. cbn. now rewrite H. Qed.

Lemma allows_extends_same_server (P : event -> bool) e :
  P e = true -> allows (extends_same_server P) e.
Proof.
  intros H st. split; [now apply allows_extends|split; reflexivity].
Qed.

Section Respects.

Context {R : state -> state -> Prop} `{Frame R}.

Lemma respects_ret A (a : A) : respects R (ret a).
Proof. intros st r st' E. inversion E; subst. apply frame_refl. Qed.

Lemma respects_raise A e : respects R (@raise A e).
Proof. intros st r st' E. inversion E; subst. apply frame_refl. Qed.

Lemma respects_read A (f : state -> A) : respects R (read f).
Proof. intros st r st' E. inversion E; subst. apply frame_refl. Qed.

Lemma respects_now : respects R now.
Proof. apply respects_read. Qed.

Lemma respects_write f : (forall st, R st (f st)) -> respects R (write f).
Proof. intros Hf st r st' E. inversion E; subst. apply Hf. Qed.

Lemma respects_emit e : allows R e -> respects R (emit e).
Proof. intros He. apply respects_write. exact He. Qed.

Lemma respects_bind A B (m : M A) (k : A -> M B) :
  respects R m -> (forall a, respects R (k a)) -> respects R (bind m k).
Proof.
  intros Hm Hk st r st' E. unfold bind in E.
  destruct (m st) as [[a|e] st1] eqn:Em.
  - eapply frame_trans; [eapply Hm; eassumption | eapply Hk; eassumption].
  - inversion E; subst. eapply Hm; eassumption.
Qed.

Lemma respects_try_except A (m : M A) handles h :
  respects R m -> respects R h -> respects R (try_except m handles h).
Proof.
  intros Hm Hh st r st' E. unfold try_except in E.
  destruct (m st) as [[a|e] st1] eqn:Em.
  - inversion E; subst. eapply Hm; eassumption.
  - destruct (handles e).
    + eapply frame_trans; [eapply Hm; eassumption | eapply Hh; eassumption].
    + inversion E; subst. eapply Hm; eassumption.
Qed.

Lemma respects_deref A (f : state -> option A) : respects R (deref f).
Proof.
  apply respects_bind; [apply respects_read|].
  intros [a|]; [apply respects_ret|apply respects_raise].
Qed.

Lemma respects_assert c : respects R (assert c).
Proof. destruct c; [apply respects_ret|apply respects_raise]. Qed.

Lemma respects_print s : allows R (EvStdout s) -> respects R (print s).
Proof. apply respects_emit. Qed.

Lemma respects_print_stderr s : allows R (EvStderr s) -> respects R (print_stderr s).
Proof. apply respects_emit. Qed.

Lemma respects_sleep n : allows R (EvSleep n) -> respects R (sleep n).
Proof. apply respects_emit. Qed.

Lemma respects_check_call W argv cwd env :
  allows R (EvCheckCall argv cwd env) -> respects R (check_call W argv cwd env).
Proof.
  intros He. apply respects_bind; [apply respects_now|]. intros t.
  apply respects_bind; [now apply respects_emit|]. intros _.
  destruct (w_proc W t) as [e|rc out]; [apply respects_raise|].
  destruct (rc =? 0)%Z; [apply respects_ret|apply respects_raise].
Qed.

Lemma respects_check_output W argv :
  allows R (EvCheckOutput argv) -> respects R (check_output W argv).
Proof.
  intros He. apply respects_bind; [apply respects_now|]. intros t.
  apply respects_bind; [now apply respects_emit|]. intros _.
  destruct (w_proc W t) as [e|rc out]; [apply respects_raise|].
  destruct (rc =? 0)%Z; [apply respects_ret|apply respects_raise].
Qed.

Lemma respects_os_call W e : allows R e -> respects R (os_call W e).
Proof.
  intros He. apply respects_bind; [apply respects_now|]. intros t.
  apply respects_bind; [now apply respects_emit|]. intros _.
  destruct (w_os W t); [apply respects_raise|apply respects_ret].
Qed.

Lemma respects_driver_call W c : allows R (EvDriver c) -> respects R (driver_call W c).
Proof.
  intros He. apply respects_bind; [apply respects_now|]. intros t.
  apply respects_bind; [now apply respects_emit|]. intros _.
  destruct (w_driver W t); [apply respects_raise|apply respects_ret].
Qed.

Lemma respects_script_succeeds W script expected :
  (forall r, allows R (EvExecuteScript script r)) ->
  respects R (script_succeeds W script expected).
Proof.
  intros He. apply respects_try_except; [|apply respects_ret].
  apply respects_bind; [apply respects_deref|]. intros _.
  apply respects_bind; [apply respects_now|]. intros t.
  apply respects_bind; [apply respects_emit, He|]. intros _.
  destruct (w_execute_script W t); [apply respects_raise|apply respects_ret].
Qed.

Lemma respects_text_to_be_present_in_element W selector text :
  (forall r, allows R (EvElementText selector r)) ->
  respects R (text_to_be_present_in_element W selector text).
Proof.
  intros He. apply respects_try_except; [|apply respects_ret].
  apply respects_bind; [apply respects_deref|]. intros _.
  apply respects_bind; [apply respects_now|]. intros t.
  apply respects_bind; [apply respects_emit, He|]. intros _.
  destruct (w_element_text W t); [apply respects_raise|apply respects_ret].
Qed.

Lemma respects_until_from method :
  allows R (EvSleep 500) -> respects R method ->
  forall polls, respects R (until_from polls method).
Proof.
  intros Hs Hm. induction polls as [|polls IH]; cbn [until_from].
  - apply respects_bind; [apply respects_try_except; [assumption|apply respects_ret]|].
    intros [|]; [apply respects_ret|].
    apply respects_bind; [now apply respects_sleep|]. intros _. apply respects_raise.
  - apply respects_bind; [apply respects_try_except; [assumption|apply respects_ret]|].
    intros [|]; [apply respects_ret|].
    apply respects_bind; [now apply respects_sleep|]. intros _. exact IH.
Qed.

Lemma respects_until W method :
  allows R (EvSleep 500) -> respects R method -> respects R (until W method).
Proof.
  intros Hs Hm. apply respects_bind; [apply respects_now|]. intros t.
  now apply respects_until_from.
Qed.

Lemma respects_open_browser_loop W u :
  allows R (EvDriver (Get u)) -> allows R (EvSleep 50) ->
  allows R (EvStderr (bail_out_message u)) ->
  forall n retries, attempts_left retries <= n ->
    respects R (open_browser_loop W u retries).
Proof.
  intros Hg Hs He. induction n as [|n IH]; intros retries Hn.
  - rewrite open_browser_loop_stop by (unfold attempts_left in Hn; lia).
    apply respects_bind; [now apply respects_print_stderr|].
    intros _. apply respects_raise.
  - destruct (Z_gt_dec (retries + 1) 100) as [g|g].
    + rewrite open_browser_loop_stop by assumption.
      apply respects_bind; [now apply respects_print_stderr|].
      intros _. apply respects_raise.
    + rewrite open_browser_loop_equation_1.
      destruct (Z_gt_dec (retries + 1) 100) as [g'|g']; [contradiction|].
      rewrite open_browser_loop_clause_1_equation_2.
      apply respects_bind; [apply respects_deref|]. intros _.
      apply respects_bind; [apply respects_now|]. intros t.
      apply respects_bind; [now apply respects_emit|]. intros _.
      destruct (w_driver W t) as [e|]; [|apply respects_ret].
      destruct (is_WebDriverException e); [|apply respects_raise].
      apply respects_bind; [now apply respects_sleep|]. intros _.
      apply IH. unfold attempts_left in *. lia.
Qed.

Lemma respects_open_browser W u :
  allows R (EvDriver (Get u)) -> allows R (EvSleep 50) ->
  allows R (EvStderr (bail_out_message u)) ->
  respects R (open_browser W u).
Proof.
  intros Hg Hs He. unfold open_browser.
  now apply (@respects_open_browser_loop W u Hg Hs He (attempts_left 0)).
Qed.

Lemma respects_scan_stdout lines :
  (forall s, allows R (EvStdout s)) ->
  (forall w st, R st (set_url w st)) ->
  respects R (scan_stdout lines).
Proof.
  intros He Hu. induction lines as [|line rest IH]; cbn [scan_stdout].
  - apply respects_ret.
  - apply respects_bind; [apply respects_print, He|]. intros _.
    destruct (Py.last_item (Py.split line)) as [w|]; [|apply respects_raise].
    destruct (Py.startswith w (Py.lit "http:")); [|exact IH].
    apply respects_write. apply Hu.
Qed.

End Respects.

Lemma extends_silent P st st' : log st' = log st -> extends P st st'.
Proof. intros E. exists []. now rewrite app_nil_r. Qed.

Lemma extends_same_server_silent P st st' :
  log st' = log st -> server st' = server st -> trace_dir st' = trace_dir st ->
  extends_same_server P st st'.
Proof. intros E S T. split; [now apply extends_silent|now split]. Qed.

Ltac respects_leaf :=
  intros;
  first
    [ apply allows_extends; reflexivity
    | apply allows_extends_same_server; reflexivity
    | apply extends_silent; reflexivity
    | apply extends_same_server_silent; reflexivity ].

Ltac respects_tac :=
  repeat first
    [ apply respects_ret | apply respects_raise | apply respects_now
    | apply respects_read | apply respects_deref | apply respects_assert
    | apply respects_print | apply respects_print_stderr | apply respects_sleep
    | apply respects_emit
    | apply respects_check_call | apply respects_check_output
    | apply respects_os_call | apply respects_driver_call
    | apply respects_script_succeeds
    | apply respects_text_to_be_present_in_element
    | apply respects_until | apply respects_open_browser
    | apply respects_scan_stdout
    | apply respects_try_except
    | apply respects_bind; [|intros ?]
    | apply respects_write
    | match goal with
      | |- respects _ (match ?x with _ => _ end) => destruct x
      end
    | progress cbv zeta
    | respects_leaf ].

(** The stages before the server is started neither start a server nor
    print the marker. *)
Lemma respects_provision W args : respects (extends background) (provision W args).
Proof. respects_tac. Qed.

Lemma respects_build W args : respects (extends background) (build W args).
Proof. respects_tac. Qed.

Lemma respects_record W args : respects (extends background) (record W args).
Proof. respects_tac. Qed.

Lemma respects_ingest W args : respects (extends background) (ingest W args).
Proof. respects_tac. Qed.

Lemma respects_create_driver W args :
  respects (extends_same_server background) (create_driver W args).
Proof. respects_tac. Qed.

Lemma respects_scenario1 W :
  respects (extends_same_server background) (scenario1 W).
Proof. respects_tac. Qed.

Lemma respects_cleanup_check W :
  respects (extends_same_server aftermath) (cleanup_check W).
Proof. respects_tac. Qed.

Lemma respects_export_verify W args :
  respects (extends_same_server aftermath) (export_verify W args).
Proof. respects_tac. Qed.

(** ** What a successful step has done *)

Lemma driver_call_ok W c st t st' :
  driver_call W c st = (Ok t, st') -> st' = add_event (EvDriver c) st.
Proof.
  unfold driver_call, bind, now, read, emit, write. cbn.
  destruct (w_driver W (List.length (log st))); intros E; inversion E; reflexivity.
Qed.

Lemma os_call_ok W e st t st' :
  os_call W e st = (Ok t, st') ->
  st' = add_event e st /\ t = List.length (log st).
Proof.
  unfold os_call, bind, now, read, emit, write. cbn.
  destruct (w_os W (List.length (log st))); intros E; inversion E; split; reflexivity.
Qed.

Lemma check_call_ok W argv cwd env st st' :
  check_call W argv cwd env st = (Ok tt, st') ->
  st' = add_event (EvCheckCall argv cwd env) st.
Proof.
  unfold check_call, bind, now, read, emit, write. cbn.
  destruct (w_proc W (List.length (log st))) as [e|rc out]; [discriminate|].
  destruct (rc =? 0)%Z; intros E; inversion E; reflexivity.
Qed.

Lemma stop_server_ok W st st' :
  stop_server W st = (Ok tt, st') ->
  exists p, server st = Some p /\ st' = add_events [EvKillSigint p; EvWait p] st.
Proof.
  unfold stop_server, deref. intros E.
  apply bind_ok_inv in E as (p & s1 & E1 & E).
  apply bind_ok_inv in E1 as (v & s0 & E0 & E1).
  unfold read in E0. inversion E0; subst s0 v. clear E0.
  destruct (server st) as [q|] eqn:Hs; [|discriminate].
  inversion E1; subst s1 q. clear E1.
  apply bind_ok_inv in E as (t & s2 & E2 & E).
  apply os_call_ok in E2 as [-> _].
  unfold emit, write in E. inversion E; subst st'.
  exists p. split; [reflexivity|].
  now rewrite !add_event_add_events, add_events_app.
Qed.

Lemma start_server_ok W args st st' :
  start_server W args st = (Ok tt, st') ->
  exists trace echoes,
    trace_dir st = Some trace
    /\ log st' = log st ++ EvPopen (serve_argv W args trace) :: echoes
    /\ forallb is_stdout echoes = true
    /\ server st' = Some (List.length (log st))
    /\ trace_dir st' = Some trace.
Proof.
  unfold start_server. intros E.
  apply bind_ok_inv in E as (v & s0 & E0 & E).
  unfold read in E0. inversion E0; subst s0 v. clear E0.
  destruct (trace_dir st) as [trace|] eqn:Ht; [|discriminate].
  apply bind_ok_inv in E as (p & s1 & E1 & E).
  apply os_call_ok in E1 as [-> ->].
  apply bind_ok_inv in E as ([] & s2 & E2 & E).
  unfold write in E2. inversion E2; subst s2. clear E2.
  apply bind_ok_inv in E as ([] & s3 & E3 & E).
  unfold write in E3. inversion E3; subst s3. clear E3.
  assert (Hscan : respects (extends_same_server is_stdout)
                    (scan_stdout (w_stdout W (List.length (log st))))) by respects_tac.
  apply Hscan in E as ((echoes & Hl & He) & Hs & Htd).
  exists trace, echoes.
  cbn [log server trace_dir add_event set_url set_server] in Hl, Hs, Htd.
  rewrite <- app_assoc in Hl. rewrite Ht in Htd.
  repeat split; assumption.
Qed.

Lemma script_succeeds_cases W script expected st r st' :
  script_succeeds W script expected st = (r, st') ->
  (driver st = None /\ r = Raise AttributeError /\ st' = st)
  \/ (st' = add_event (EvExecuteScript script
                         (w_execute_script W (List.length (log st)))) st
      /\ match w_execute_script W (List.length (log st)) with
         | inl e => r = if is_JavascriptException e then Ok false else Raise e
         | inr v => r = Ok (py_eq v expected)
         end).
Proof.
  unfold script_succeeds, try_except, bind, deref, read, now, emit, write, ret, raise.
  cbn. destruct (driver st); cbn.
  - destruct (w_execute_script W (List.length (log st))) as [e|v]; cbn.
    + destruct (is_JavascriptException e); intros E; inversion E; right; split; reflexivity.
    + intros E; inversion E. right; split; reflexivity.
  - intros E; inversion E. left. repeat split.
Qed.

(** One poll of a wait on a script, when it does not raise. *)
Lemma poll_script_ok W script expected st b s1 :
  try_except (script_succeeds W script expected) is_NoSuchElementException
             (ret false) st = (Ok b, s1) ->
  exists r,
    s1 = add_event (EvExecuteScript script r) st
    /\ (b = true -> exists v, r = inr v /\ py_eq v expected = true).
Proof.
  unfold try_except.
  destruct (script_succeeds W script expected st) as [[b0|e] s0] eqn:Es;
    apply script_succeeds_cases in Es as [(_ & Hr & _)|(-> & Hw)];
    try discriminate.
  - intros E. inversion E; subst b0 s1. eexists. split; [reflexivity|].
    intros ->. destruct (w_execute_script W (List.length (log st))) as [e|v].
    + destruct (is_JavascriptException e); discriminate.
    + exists v. split; [reflexivity|]. now inversion Hw.
  - inversion Hr; subst e. cbn. discriminate.
  - destruct (is_NoSuchElementException e); [|discriminate].
    intros E. inversion E; subst b s1. eexists. split; [reflexivity|discriminate].
Qed.

(** A wait on a script that returns has seen the expected value in its
    last evaluation. *)
Lemma until_from_script_ok W script expected polls :
  forall st st',
    until_from polls (script_succeeds W script expected) st = (Ok tt, st') ->
    exists evs v,
      log st' = log st ++ evs ++ [EvExecuteScript script (inr v)]
      /\ py_eq v expected = true.
Proof.
  induction polls as [|polls IH]; intros st st' E; cbn [until_from] in E;
    apply bind_ok_inv in E as (b & s1 & E1 & E);
    apply poll_script_ok in E1 as (r & -> & Hb);
    destruct b.
  - inversion E; subst st'. destruct (Hb eq_refl) as (v & -> & Hv).
    exists [], v. split; [reflexivity|assumption].
  - apply bind_ok_inv in E as (? & ? & _ & E). discriminate.
  - inversion E; subst st'. destruct (Hb eq_refl) as (v & -> & Hv).
    exists [], v. split; [reflexivity|assumption].
  - apply bind_ok_inv in E as ([] & s2 & E2 & E).
    unfold sleep, emit, write in E2. inversion E2; subst s2.
    apply IH in E as (evs & v & Hl & Hv).
    exists (EvExecuteScript script r :: EvSleep 500 :: evs), v.
    split; [|assumption]. rewrite Hl. cbn [log add_event].
    rewrite <- !app_assoc. reflexivity.
Qed.

Lemma wait_script_ok W script expected st st' :
  wait_script W script expected st = (Ok tt, st') ->
  exists evs v,
    log st' = log st ++ evs ++ [EvExecuteScript script (inr v)]
    /\ py_eq v expected = true
    /\ forallb background evs = true
    /\ server st' = server st
    /\ trace_dir st' = trace_dir st.
Proof.
  intros E.
  assert (Hr : respects (extends_same_server background)
                 (wait_script W script expected)) by respects_tac.
  destruct (Hr _ _ _ E) as ((evs' & Hl' & Hb') & Hs & Ht).
  unfold wait_script, until in E.
  apply bind_ok_inv in E as (t & s0 & E0 & E).
  unfold now, read in E0. inversion E0; subst s0 t.
  apply until_from_script_ok in E as (evs & v & Hl & Hv).
  exists evs, v. repeat split; try assumption.
  rewrite Hl in Hl'. apply app_inv_head in Hl'. subst evs'.
  rewrite forallb_app in Hb'. now apply andb_true_iff in Hb' as [? _].
Qed.

Lemma bind_ok_respects R A B (m : M A) (k : A -> M B) st b st' :
  respects R m ->
  bind m k st = (Ok b, st') ->
  exists a s1, R st s1 /\ k a s1 = (Ok b, st').
Proof.
  intros Hm E. apply bind_ok_inv in E as (a & s1 & E1 & E).
  exists a, s1. split; [eapply Hm; eassumption|assumption].
Qed.

Lemma forallb_weaken A (P Q : A -> bool) l :
  (forall x, P x = true -> Q x = true) -> forallb P l = true -> forallb Q l = true.
Proof. intros HPQ. rewrite !forallb_forall. auto. Qed.

Lemma stdout_is_background e : is_stdout e = true -> background e = true.
Proof. destruct e; cbn; try discriminate. reflexivity. Qed.

Lemma aftermath_is_background e : aftermath e = true -> background e = true.
Proof. unfold aftermath. now intros [? _]%andb_true_iff. Qed.

Lemma background_not_pass e : background e = true -> negb (is_pass e) = true.
Proof. unfold background. now intros [_ ?]%andb_true_iff. Qed.

Lemma background_not_lifecycle e : background e = true -> negb (is_lifecycle e) = true.
Proof. unfold background. now intros [? _]%andb_true_iff. Qed.

Lemma aftermath_not_script e : aftermath e = true -> negb (is_script e) = true.
Proof. unfold aftermath. now intros [_ ?]%andb_true_iff. Qed.

(** Peel the first step off a sequence that returned, keeping only what
    the frame [R] says about it, and add that to [Acc]. *)
Ltac skip_step R Acc E :=
  let a := fresh "a" in
  let s := fresh "s" in
  let F := fresh "F" in
  apply (@bind_ok_respects R) in E as (a & s & F & E);
  [ apply (frame_trans _ _ _ Acc) in F; clear Acc; rename F into Acc
  | solve [respects_tac] ].

(** Peel the first step off a sequence that returned. *)
Ltac open_step E E1 :=
  let a := fresh "a" in
  let s := fresh "s" in
  apply bind_ok_inv in E as (a & s & E1 & E);
  match type of a with
  | unit => destruct a
  | _ => idtac
  end.

(** What the frame [R] says about a computation that has run. *)
Ltac frame_of R E :=
  match type of E with
  | ?m ?s = (_, ?s') =>
      let F := fresh "F" in
      assert (F : respects R m) by (solve [respects_tac]);
      apply F in E; clear F
  end.

(** Start collecting what [R] says from the state [E] starts in. *)
Ltac start_frame R E Acc :=
  match type of E with
  | _ ?s = _ => pose proof (frame_refl (R := R) s) as Acc
  end.

Lemma check_output_ok W argv st out st' :
  check_output W argv st = (Ok out, st') ->
  st' = add_event (EvCheckOutput argv) st
  /\ w_proc W (List.length (log st)) = Exited 0 out.
Proof.
  unfold check_output, bind, now, read, emit, write. cbn.
  destruct (w_proc W (List.length (log st))) as [e|rc o]; [discriminate|].
  destruct (Z.eqb_spec rc 0) as [->|]; intros E; inversion E; split; reflexivity.
Qed.

Lemma cleanup_check_ok W st st' :
  cleanup_check W st = (Ok tt, st') ->
  st' = add_event (EvCheckOutput docker_argv) st.
Proof.
  unfold cleanup_check. intros E.
  apply bind_ok_inv in E as (out & s1 & Eout & E).
  apply check_output_ok in Eout as [-> _]. cbv zeta in E.
  destruct (0 <? List.length (Py.strip out)).
  - apply bind_ok_inv in E as (? & ? & _ & E). discriminate.
  - now inversion E.
Qed.

Lemma export_verify_ok W args st st' :
  export_verify W args st = (Ok tt, st') ->
  st' = add_events [EvCheckCall (copy_sources_argv args) None CleanEnv;
                    EvCheckOutput (unzip_argv (trace_dir st))] st
  /\ exists listing,
       w_proc W (S (List.length (log st))) = Exited 0 listing
       /\ In (expected_source W args) (Py.splitlines listing).
Proof.
  unfold export_verify. intros E.
  apply bind_ok_inv in E as ([] & s1 & Ecopy & E).
  apply check_call_ok in Ecopy. subst s1.
  apply bind_ok_inv in E as (trace & s2 & Eread & E).
  unfold read in Eread. inversion Eread; subst trace s2. clear Eread.
  apply bind_ok_inv in E as (listing & s3 & Eout & E).
  apply check_output_ok in Eout as [-> Hw].
  cbv zeta in E. unfold assert in E.
  destruct (Py.mem (expected_source W args) (Py.splitlines listing)) eqn:Hm;
    [|discriminate].
  inversion E. split.
  - now rewrite !add_event_add_events, add_events_app.
  - exists listing. split; [|now apply mem_In].
    cbn [log add_event] in Hw. now rewrite length_app, Nat.add_1_r in Hw.
Qed.

(** ** The log of a run that returns *)

(** The events of a run that passes: background events around a server
    start, the typing of the note, the restart, the successful reading
    of the text area, the second stop and the closing events. *)
Lemma run_ok_shape W args st :
  run W args = (Ok tt, st) ->
  exists trace l1 l2 l3 l4 l5 v,
    log st =
      l1 ++ EvPopen (serve_argv W args trace) :: l2
         ++ EvDriver (Perform [TypeKeys typed_text]) :: l3
         ++ EvKillSigint (List.length l1) :: EvWait (List.length l1)
         :: EvPopen (serve_argv W args trace) :: l4
         ++ EvExecuteScript textarea_script (inr v) :: l5
         ++ EvKillSigint (List.length l1 + List.length l2 + List.length l3 + 4)
         :: EvWait (List.length l1 + List.length l2 + List.length l3 + 4)
         :: closing_events W args trace
    /\ py_eq v (JStr (Py.lit "HelloKitty")) = true
    /\ forallb background l1 = true
    /\ forallb background l2 = true
    /\ forallb background l3 = true
    /\ forallb background l4 = true
    /\ forallb aftermath l5 = true.
Proof.
  unfold run, main. intros E.
  pose proof (frame_refl (R := extends background) initial) as A.
  skip_step (extends background) A E.
  skip_step (extends background) A E.
  skip_step (extends background) A E.
  skip_step (extends background) A E.
  open_step E Eserve. unfold serve in Eserve.
  skip_step (extends background) A Eserve.
  skip_step (extends background) A Eserve.
  open_step Eserve Estart1.
  apply start_server_ok in Estart1 as (trace & echo1 & T1 & L1 & O1 & S1 & T1').
  frame_of (extends_same_server background) Eserve.
  rename Eserve into B.
  skip_step (extends_same_server background) B E.
  open_step E Enote. unfold notebook_write in Enote.
  do 9 (skip_step (extends_same_server background) B Enote).
  open_step Enote Etype. apply driver_call_ok in Etype.
  frame_of (extends_same_server background) Enote.
  rename Enote into C.
  open_step E Erestart. unfold restart_verify in Erestart.
  open_step Erestart Estop1.
  apply stop_server_ok in Estop1 as (p1 & P1 & K1).
  open_step Erestart Estart2.
  apply start_server_ok in Estart2 as (trace2 & echo2 & T2 & L2 & O2 & S2 & T2').
  start_frame (extends_same_server background) Erestart D.
  do 2 (skip_step (extends_same_server background) D Erestart).
  open_step Erestart Ewait.
  apply wait_script_ok in Ewait as (polls & v & LW & V & BW & SW & TW).
  start_frame (extends_same_server aftermath) Erestart G.
  do 2 (skip_step (extends_same_server aftermath) G Erestart).
  apply stop_server_ok in Erestart as (p2 & P2 & K2).
  open_step E Eclean. apply cleanup_check_ok in Eclean.
  open_step E Eexport. apply export_verify_ok in Eexport as [Eexport _].
  unfold teardown in E. open_step E Eumount. apply check_call_ok in Eumount.
  unfold print_stderr, emit, write in E. inversion E as [Est]. clear E.
  destruct A as (eA & LA & BA). cbn [log initial app] in LA.
  destruct B as ((eB & LB & BB) & SB & TB).
  destruct C as ((eC & LC & BC) & SC & TC).
  destruct D as ((eD & LD & BD) & SD & TD).
  destruct G as ((eG & LG & BG) & SG & TG).
  subst st.
  repeat match goal with
         | H : ?s = add_event _ _ |- _ => subst s
         | H : ?s = add_events _ _ |- _ => subst s
         end.
  cbn [log server trace_dir add_event add_events] in *.
  assert (Hp1 : p1 = List.length eA).
  { rewrite SC, SB, S1, LA in P1. now inversion P1. }
  assert (Ht : trace2 = trace).
  { rewrite TC, TB, T1' in T2. now inversion T2. }
  assert (Hp2 : p2 = List.length eA + List.length (echo1 ++ eB) + List.length eC + 4).
  { rewrite SG, SW, SD, S2, LC, LB, L1, LA in P2. inversion P2.
    repeat first [rewrite length_app | progress cbn [List.length]]. lia. }
  subst p1 trace2 p2.
  exists trace, eA, (echo1 ++ eB), eC, (echo2 ++ eD ++ polls), eG, v.
  split.
  { rewrite TG, TW, TD, T2'. unfold closing_events.
    rewrite LG, LW, LD, L2, LC, LB, L1, LA.
    repeat first [rewrite <- app_assoc | progress cbn [app]]. reflexivity. }
  split; [exact V|].
  split; [exact BA|].
  split.
  { rewrite forallb_app, BB, andb_true_r.
    revert O1. apply forallb_weaken, stdout_is_background. }
  split; [exact BC|].
  split.
  { rewrite !forallb_app, BD, BW, !andb_true_r.
    revert O2. apply forallb_weaken, stdout_is_background. }
  assumption.
Qed.

Lemma py_eq_str v s : py_eq v (JStr s) = true -> v = JStr s.
Proof.
  destruct v; cbn; try discriminate.
  intros E. apply eqb_eq in E. now subst.
Qed.

Lemma filter_none A (P : A -> bool) l :
  forallb (fun x => negb (P x)) l = true -> filter P l = [].
Proof.
  induction l as [|x l IH]; [reflexivity|]. cbn.
  intros [Hx Hl]%andb_true_iff. apply negb_true_iff in Hx. rewrite Hx. auto.
Qed.

Lemma background_no_lifecycle l :
  forallb background l = true -> forallb (fun e => negb (is_lifecycle e)) l = true.
Proof. apply forallb_weaken, background_not_lifecycle. Qed.

Lemma background_unmarked l :
  forallb background l = true -> forallb unmarked l = true.
Proof. apply forallb_weaken, background_not_pass. Qed.

Lemma aftermath_background l :
  forallb aftermath l = true -> forallb background l = true.
Proof. apply forallb_weaken, aftermath_is_background. Qed.

Lemma aftermath_no_script l :
  forallb aftermath l = true -> forallb (fun e => negb (is_script e)) l = true.
Proof. apply forallb_weaken, aftermath_not_script. Qed.

(** ** The note survives the restart *)

(** C1. In every run that passes, a server is started, the string
    HelloKitty is typed, that server is interrupted and waited for, a
    server is started again with the same command line (so the same
    storage directory and the same trace), and after that the script
    reading the text area yields exactly the string that was typed; it
    is the last script evaluation of the run. Between these events no
    other server is started or stopped. *)
Theorem notebook_text_survives_restart W args st :
  run W args = (Ok tt, st) ->
  exists argv l1 l2 l3 l4 l5,
    log st =
      l1 ++ EvPopen argv :: l2
         ++ EvDriver (Perform [TypeKeys typed_text]) :: l3
         ++ EvKillSigint (List.length l1) :: EvWait (List.length l1)
         :: EvPopen argv :: l4
         ++ EvExecuteScript textarea_script (inr (JStr typed_text)) :: l5
    /\ forallb (fun e => negb (is_lifecycle e)) (l1 ++ l2 ++ l3 ++ l4) = true
    /\ forallb (fun e => negb (is_script e)) l5 = true.
Proof.
  intros E.
  apply run_ok_shape in E
    as (trace & l1 & l2 & l3 & l4 & l5 & v & L & V & B1 & B2 & B3 & B4 & B5).
  apply py_eq_str in V. subst v.
  eexists _, l1, l2, l3, l4, _. split; [exact L|]. split.
  - rewrite !forallb_app.
    now rewrite !background_no_lifecycle by assumption.
  - rewrite forallb_app, aftermath_no_script by assumption. reflexivity.
Qed.

Example happy_run_passes : fst (run happy sample_args) = Ok tt.
Proof. vm_compute. reflexivity. Qed.

Lemma notebook_text_survives_restart_witness :
  exists argv l1 l2 l3 l4 l5,
    log (snd (run happy sample_args)) =
      l1 ++ EvPopen argv :: l2
         ++ EvDriver (Perform [TypeKeys typed_text]) :: l3
         ++ EvKillSigint (List.length l1) :: EvWait (List.length l1)
         :: EvPopen argv :: l4
         ++ EvExecuteScript textarea_script (inr (JStr typed_text)) :: l5
    /\ forallb (fun e => negb (is_lifecycle e)) (l1 ++ l2 ++ l3 ++ l4) = true
    /\ forallb (fun e => negb (is_script e)) l5 = true.
Proof.
  apply (@notebook_text_survives_restart happy sample_args
           (snd (run happy sample_args))).
  vm_compute. reflexivity.
Defined.

(** ** Starting and stopping the server *)

Lemma nth_error_middle A (l : list A) x r n :
  n = List.length l -> nth_error (l ++ x :: r) n = Some x.
Proof.
  intros ->. rewrite nth_error_app2 by lia. now rewrite Nat.sub_diag.
Qed.

(** C6 as first stated fails: the server comes up, the first wait on
    the page times out, the run ends with TimeoutException, and the
    server that was started is neither interrupted nor waited for. *)
Lemma server_left_running_when_run_aborts :
  fst (run stuck_page sample_args) = Raise TimeoutException
  /\ filter is_lifecycle (log (snd (run stuck_page sample_args))) =
       [EvPopen (serve_argv stuck_page sample_args (Py.lit "/tmp/t/main-0"))].
Proof. vm_compute. split; reflexivity. Qed.

(** ** The PASS marker *)

Lemma marker_last_print : marker_last (print_stderr PASS).
Proof.
  intros st r st' E Hst. unfold print_stderr, emit, write in E.
  inversion E; subst. exists (log st). split; [reflexivity|assumption].
Qed.

Lemma marker_last_bind A (m : M A) (k : A -> M unit) :
  respects (extends unmarked) m ->
  (forall a, marker_last (k a)) ->
  marker_last (bind m k).
Proof.
  intros Hm Hk st r st' E Hst. unfold bind in E.
  destruct (m st) as [[a|e] s1] eqn:Em;
    destruct (Hm _ _ _ Em) as (evs & Hl & He).
  - apply (Hk a _ _ _ E). now rewrite Hl, forallb_app, Hst, He.
  - inversion E; subst. now rewrite Hl, forallb_app, Hst, He.
Qed.

Lemma marker_last_main W args : marker_last (main W args).
Proof.
  unfold main, teardown.
  repeat (apply marker_last_bind; [solve [respects_tac] | intros ?]).
  apply marker_last_print.
Qed.

(** C7. A run that passes prints the marker exactly once, as the very
    last thing it does, right after the second server has been stopped
    and the container check, the export, the listing of the archive and
    the unmount have all succeeded; a run that ends with an exception
    never prints the marker. *)
Theorem pass_marker_once_and_last W args :
  (forall st, run W args = (Ok tt, st) ->
     exists l trace,
       log st = l ++ closing_events W args trace
       /\ forallb unmarked l = true
       /\ filter is_pass (log st) = [EvStderr PASS])
  /\ (forall e st, run W args = (Raise e, st) -> filter is_pass (log st) = []).
Proof.
  split.
  - intros st E.
    apply run_ok_shape in E
      as (trace & l1 & l2 & l3 & l4 & l5 & v & L & V & B1 & B2 & B3 & B4 & B5).
    apply aftermath_background in B5.
    apply background_unmarked in B1, B2, B3, B4, B5.
    assert (U : forallb unmarked
                  (l1 ++ EvPopen (serve_argv W args trace) :: l2
                      ++ EvDriver (Perform [TypeKeys typed_text]) :: l3
                      ++ EvKillSigint (List.length l1) :: EvWait (List.length l1)
                      :: EvPopen (serve_argv W args trace) :: l4
                      ++ EvExecuteScript textarea_script (inr v) :: l5
                      ++ [EvKillSigint (List.length l1 + List.length l2 + List.length l3 + 4);
                          EvWait (List.length l1 + List.length l2 + List.length l3 + 4)])
                = true).
    { repeat first [rewrite forallb_app | progress cbn [forallb unmarked is_pass negb andb]].
      now rewrite B1, B2, B3, B4, B5. }
    eexists _, trace. split; [|split; [exact U|]].
    + rewrite L. repeat first [rewrite <- app_assoc | progress cbn [app]]. reflexivity.
    + rewrite L.
      replace (l1 ++ EvPopen (serve_argv W args trace) :: l2
                  ++ EvDriver (Perform [TypeKeys typed_text]) :: l3
                  ++ EvKillSigint (List.length l1) :: EvWait (List.length l1)
                  :: EvPopen (serve_argv W args trace) :: l4
                  ++ EvExecuteScript textarea_script (inr v) :: l5
                  ++ EvKillSigint (List.length l1 + List.length l2 + List.length l3 + 4)
                  :: EvWait (List.length l1 + List.length l2 + List.length l3 + 4)
                  :: closing_events W args trace)
        with ((l1 ++ EvPopen (serve_argv W args trace) :: l2
                  ++ EvDriver (Perform [TypeKeys typed_text]) :: l3
                  ++ EvKillSigint (List.length l1) :: EvWait (List.length l1)
                  :: EvPopen (serve_argv W args trace) :: l4
                  ++ EvExecuteScript textarea_script (inr v) :: l5
                  ++ [EvKillSigint (List.length l1 + List.length l2 + List.length l3 + 4);
                      EvWait (List.length l1 + List.length l2 + List.length l3 + 4)])
              ++ closing_events W args trace)
        by (repeat first [rewrite <- app_assoc | progress cbn [app]]; reflexivity).
      rewrite filter_app. rewrite (filter_none is_pass _ U). reflexivity.
  - intros e st E.
    apply filter_none.
    exact (@marker_last_main W args initial (Raise e) st E eq_refl).
Qed.

Lemma pass_marker_once_and_last_witness :
  (exists l trace,
     log (snd (run happy sample_args)) = l ++ closing_events happy sample_args trace
     /\ forallb unmarked l = true
     /\ filter is_pass (log (snd (run happy sample_args))) = [EvStderr PASS])
  /\ filter is_pass (log (snd (run stuck_page sample_args))) = [].
Proof.
  split.
  - apply (proj1 (pass_marker_once_and_last happy sample_args)
             (snd (run happy sample_args))).
    vm_compute. reflexivity.
  - apply (proj2 (pass_marker_once_and_last stuck_page sample_args)
             TimeoutException (snd (run stuck_page sample_args))).
    vm_compute. reflexivity.
Defined.

(** ** More on script_succeeds and the waits built on it *)

(** X1. With a browser session open, script_succeeds returns True
    exactly when the evaluation returns a value that Python's == finds
    equal to the expected one; in particular an exception never gives
    True. *)
Theorem script_succeeds_true_iff W script expected st d :
  driver st = Some d ->
  fst (script_succeeds W script expected st) = Ok true <->
  exists v, w_execute_script W (List.length (log st)) = inr v
            /\ py_eq v expected = true.
Proof.
  intros Hd.
  destruct (script_succeeds W script expected st) as [r st'] eqn:E.
  apply script_succeeds_cases in E as [(Hn & _)|(_ & Hw)]; [congruence|].
  cbn [fst]. destruct (w_execute_script W (List.length (log st))) as [e|v].
  - subst r. split.
    + destruct (is_JavascriptException e); discriminate.
    + intros (v & Hv & _). discriminate.
  - subst r. split.
    + intros H. inversion H. now exists v.
    + intros (v' & Hv & Hp). inversion Hv; subst. now rewrite Hp.
Qed.

Lemma script_succeeds_true_iff_witness :
  fst (script_succeeds happy textarea_script (JStr typed_text) browsing) = Ok false
  /\ fst (script_succeeds happy textarea_script (JStr typed_text)
            (add_events (repeat (EvSleep 50) 50) browsing)) = Ok true.
Proof.
  split.
  - destruct (fst (script_succeeds happy textarea_script (JStr typed_text) browsing))
      as [[|]|e] eqn:E; [|reflexivity|discriminate E].
    apply (proj1 (@script_succeeds_true_iff happy textarea_script (JStr typed_text)
                    browsing 0 eq_refl)) in E.
    destruct E as (v & Hv & Hp). vm_compute in Hv. inversion Hv; subst.
    discriminate Hp.
  - apply (proj2 (@script_succeeds_true_iff happy textarea_script (JStr typed_text)
                    (add_events (repeat (EvSleep 50) 50) browsing) 0 eq_refl)).
    exists (JStr typed_text). split; reflexivity.
Defined.

(** X2. With a browser session open, an exception of the evaluation
    other than JavascriptException is not swallowed: script_succeeds
    raises it, the evaluation being the only thing added to the log. *)
Theorem script_succeeds_propagates_other_errors W script expected st d e :
  driver st = Some d ->
  w_execute_script W (List.length (log st)) = inl e ->
  is_JavascriptException e = false ->
  script_succeeds W script expected st =
    (Raise e, add_event (EvExecuteScript script (inl e)) st).
Proof.
  intros Hd Hw He.
  destruct (script_succeeds W script expected st) as [r st'] eqn:E.
  apply script_succeeds_cases in E as [(Hn & _)|(-> & Hr)]; [congruence|].
  rewrite Hw in *. rewrite He in Hr. now subst r.
Qed.

Lemma script_succeeds_propagates_other_errors_witness :
  script_succeeds (with_execute_script (fun _ => inl WebDriverException) calm)
                  focus_script (JBool true) browsing =
    (Raise WebDriverException,
     add_event (EvExecuteScript focus_script (inl WebDriverException)) browsing).
Proof.
  apply (@script_succeeds_propagates_other_errors
           (with_execute_script (fun _ => inl WebDriverException) calm)
           focus_script (JBool true) browsing 0 WebDriverException); reflexivity.
Defined.

(** One poll whose evaluation raises an exception that either
    script_succeeds or the wait itself takes for "not yet". *)
Lemma poll_script_not_yet W script expected st d e :
  driver st = Some d ->
  w_execute_script W (List.length (log st)) = inl e ->
  is_JavascriptException e || is_NoSuchElementException e = true ->
  try_except (script_succeeds W script expected) is_NoSuchElementException
             (ret false) st =
    (Ok false, add_event (EvExecuteScript script (inl e)) st).
Proof.
  intros Hd Hw He.
  unfold script_succeeds, try_except, bind, deref, read, now, emit, write, ret, raise.
  cbn. rewrite Hd. cbn. rewrite Hw. cbn.
  destruct (is_JavascriptException e); [reflexivity|].
  cbn in He. now rewrite He.
Qed.

Lemma failed_polls_length script e n :
  List.length (failed_polls script e n) = 2 * n.
Proof.
  induction n as [|n IH]; [reflexivity|].
  unfold failed_polls in *. cbn [repeat List.concat]. rewrite length_app, IH.
  cbn [List.length]. lia.
Qed.

Lemma until_from_script_errors W script expected d e polls :
  is_JavascriptException e || is_NoSuchElementException e = true ->
  forall st,
    driver st = Some d ->
    (forall i, i <= polls ->
       w_execute_script W (List.length (log st) + 2 * i) = inl e) ->
    until_from polls (script_succeeds W script expected) st =
      (Raise TimeoutException, add_events (failed_polls script e (S polls)) st).
Proof.
  intros He. induction polls as [|polls IH]; intros st Hd Hall.
  - cbn [until_from]. unfold bind at 1.
    rewrite (@poll_script_not_yet W script expected st d e Hd);
      [|now rewrite <- (Hall 0), Nat.add_0_r by lia|exact He].
    unfold bind, sleep, emit, write, raise.
    now rewrite !add_event_add_events, add_events_app.
  - cbn [until_from]. unfold bind at 1.
    rewrite (@poll_script_not_yet W script expected st d e Hd);
      [|now rewrite <- (Hall 0), Nat.add_0_r by lia|exact He].
    unfold bind at 1. unfold sleep, emit, write.
    rewrite IH.
    + rewrite !add_event_add_events, !add_events_app. reflexivity.
    + exact Hd.
    + intros i Hi. cbn [log add_event]. rewrite !length_app. cbn [List.length].
      replace (List.length (log st) + 1 + 1 + 2 * i)
        with (List.length (log st) + 2 * S i) by lia.
      apply Hall. lia.
Qed.

(** X3. With a browser session open, when every evaluation during a
    wait on a script raises JavascriptException (or every one raises
    NoSuchElementException), the wait ends with TimeoutException, never
    with the exception of the script, after as many evaluations as the
    deadline allows, each followed by a pause of half a second. *)
Theorem wait_script_errors_time_out W script expected st d e :
  driver st = Some d ->
  is_JavascriptException e || is_NoSuchElementException e = true ->
  (forall i, i <= w_polls W (List.length (log st)) ->
     w_execute_script W (List.length (log st) + 2 * i) = inl e) ->
  wait_script W script expected st =
    (Raise TimeoutException,
     add_events (failed_polls script e (S (w_polls W (List.length (log st))))) st).
Proof.
  intros Hd He Hall. unfold wait_script, until, bind at 1, now, read.
  now apply (@until_from_script_errors W script expected d e).
Qed.

Lemma wait_script_errors_time_out_witness :
  wait_script broken_page textarea_script (JStr typed_text) browsing =
    (Raise TimeoutException,
     add_events (failed_polls textarea_script JavascriptException 120) browsing).
Proof.
  apply (@wait_script_errors_time_out broken_page textarea_script (JStr typed_text)
           browsing 0 JavascriptException).
  - reflexivity.
  - reflexivity.
  - intros i _. reflexivity.
Defined.

(** X4. With a browser session open, an exception of the first
    evaluation that is neither JavascriptException nor
    NoSuchElementException ends the wait at once with that exception:
    one evaluation, no pause, no further poll. *)
Theorem wait_script_aborts_on_other_error W script expected st d e :
  driver st = Some d ->
  w_execute_script W (List.length (log st)) = inl e ->
  is_JavascriptException e = false ->
  is_NoSuchElementException e = false ->
  wait_script W script expected st =
    (Raise e, add_event (EvExecuteScript script (inl e)) st).
Proof.
  intros Hd Hw Hj Hn. unfold wait_script, until, bind at 1, now, read.
  assert (Hp : try_except (script_succeeds W script expected)
                 is_NoSuchElementException (ret false) st =
               (Raise e, add_event (EvExecuteScript script (inl e)) st)).
  { unfold try_except.
    rewrite (@script_succeeds_other_error W script expected st d e Hd Hw Hj).
    now rewrite Hn. }
  destruct (w_polls W (List.length (log st))); cbn [until_from];
    unfold bind at 1; now rewrite Hp.
Qed.

Lemma wait_script_aborts_on_other_error_witness :
  wait_script (with_execute_script (fun _ => inl WebDriverException) calm)
              focus_script (JBool true) browsing =
    (Raise WebDriverException,
     add_event (EvExecuteScript focus_script (inl WebDriverException)) browsing).
Proof.
  apply (@wait_script_aborts_on_other_error
           (with_execute_script (fun _ => inl WebDriverException) calm)
           focus_script (JBool true) browsing 0 WebDriverException); reflexivity.
Defined.

(** ** More on open_browser *)

Lemma new_events_app st st' evs :
  log st' = log st ++ evs -> new_events st st' = evs.
Proof.
  intros E. unfold new_events. rewrite E.
  rewrite skipn_app, Nat.sub_diag, skipn_all. reflexivity.
Qed.

(** One turn of the loop of open_browser, when the budget is not used
    up. *)
Lemma open_browser_loop_step W u retries st :
  (retries + 1 <= 100)%Z ->
  open_browser_loop W u retries st =
    match driver st with
    | None => (Raise AttributeError, st)
    | Some _ =>
        match w_driver W (List.length (log st)) with
        | None => (Ok tt, add_events [EvDriver (Get u)] st)
        | Some e =>
            if is_WebDriverException e then
              open_browser_loop W u (retries + 1)
                (add_events [EvDriver (Get u); EvSleep 50] st)
            else (Raise e, add_events [EvDriver (Get u)] st)
        end
    end.
Proof.
  intros Hr. rewrite open_browser_loop_equation_1.
  destruct (Z_gt_dec (retries + 1) 100) as [g|g]; [lia|].
  rewrite open_browser_loop_clause_1_equation_2.
  unfold bind, deref, read, now, emit, write, sleep, ret, raise. cbn.
  destruct (driver st); [|reflexivity]. cbn.
  destruct (w_driver W (List.length (log st))) as [e|]; [|reflexivity].
  destruct (is_WebDriverException e); [|reflexivity].
  now rewrite !add_event_add_events, add_events_app.
Qed.

Lemma open_browser_loop_bounded W u n :
  forall retries st,
    (0 <= retries)%Z ->
    attempts_left retries <= n ->
    exists evs,
      log (snd (open_browser_loop W u retries st)) = log st ++ evs
      /\ List.length (filter is_navigation evs) <= Z.to_nat (100 - retries)
      /\ Forall (is_open_browser_event u) evs
      /\ (fst (open_browser_loop W u retries st) = Ok tt ->
          exists evs0,
            evs = evs0 ++ [EvDriver (Get u)]
            /\ w_driver W (List.length (log st ++ evs0)) = None).
Proof.
  assert (Hstop : forall retries st,
            (retries + 1 > 100)%Z ->
            exists evs,
              log (snd (open_browser_loop W u retries st)) = log st ++ evs
              /\ List.length (filter is_navigation evs) <= Z.to_nat (100 - retries)
              /\ Forall (is_open_browser_event u) evs
              /\ (fst (open_browser_loop W u retries st) = Ok tt ->
                  exists evs0,
                    evs = evs0 ++ [EvDriver (Get u)]
                    /\ w_driver W (List.length (log st ++ evs0)) = None)).
  { intros retries st g. rewrite open_browser_loop_stop by assumption.
    exists [EvStderr (bail_out_message u)]. cbn [filter is_navigation List.length log snd fst add_events app]. repeat split; try lia.
    - constructor; [right; right; reflexivity|constructor].
    - discriminate. }
  induction n as [|n IH]; intros retries st H0 Hn.
  - apply Hstop. unfold attempts_left in Hn. lia.
  - destruct (Z_gt_dec (retries + 1) 100) as [g|g]; [now apply Hstop|].
    rewrite open_browser_loop_step by lia.
    destruct (driver st) as [d|].
    + destruct (w_driver W (List.length (log st))) as [e|] eqn:Hw.
      * destruct (is_WebDriverException e).
        -- destruct (IH (retries + 1)%Z
                       (add_events [EvDriver (Get u); EvSleep 50] st))
             as (evs & Hl & Hc & Hf & Hok);
             [lia | unfold attempts_left in *; lia |].
           exists (EvDriver (Get u) :: EvSleep 50 :: evs).
           split; [|split; [|split]].
           ++ rewrite Hl. cbn [log add_events].
              rewrite <- !app_assoc. reflexivity.
           ++ cbn [filter is_navigation List.length]. lia.
           ++ constructor; [left; reflexivity|].
              constructor; [right; left; reflexivity|assumption].
           ++ intros Hr. destruct (Hok Hr) as (evs0 & -> & Hn0).
              exists (EvDriver (Get u) :: EvSleep 50 :: evs0). split.
              ** reflexivity.
              ** cbn [log add_events] in Hn0.
                 rewrite <- !app_assoc in Hn0. exact Hn0.
        -- exists [EvDriver (Get u)]. cbn [filter is_navigation List.length log snd fst add_events app]. repeat split; try lia.
           ++ constructor; [left; reflexivity|constructor].
           ++ discriminate.
      * exists [EvDriver (Get u)]. cbn [filter is_navigation List.length log snd fst add_events app]. repeat split; try lia.
        -- constructor; [left; reflexivity|constructor].
        -- intros _. exists []. split; [reflexivity|].
           now rewrite app_nil_r.
    + exists []. cbn [filter is_navigation List.length log snd fst add_events app]. rewrite app_nil_r. repeat split; try lia.
      * constructor.
      * discriminate.
Qed.

(** X5. Whatever the browser does, open_browser navigates at most 100
    times; it adds nothing to the log but navigations to its target,
    pauses of 50 ms and its bail-out message; and when it returns, the
    last thing it did is a navigation that did not raise. *)
Theorem open_browser_bounded W u st :
  List.length (filter is_navigation
                 (new_events st (snd (open_browser W u st)))) <= 100
  /\ Forall (is_open_browser_event u) (new_events st (snd (open_browser W u st)))
  /\ (fst (open_browser W u st) = Ok tt ->
      exists evs0,
        new_events st (snd (open_browser W u st)) = evs0 ++ [EvDriver (Get u)]
        /\ w_driver W (List.length (log st ++ evs0)) = None).
Proof.
  unfold open_browser.
  destruct (@open_browser_loop_bounded W u (attempts_left 0) 0%Z st)
    as (evs & Hl & Hc & Hf & Hok); [lia|lia|].
  rewrite (@new_events_app _ _ _ Hl).
  split; [change (Z.to_nat (100 - 0)) with 100 in Hc; exact Hc|].
  split; assumption.
Qed.

(** X6. With a browser session open, an exception of a navigation that
    is not a WebDriverException is not retried: after N refused
    attempts (N < 100), such an exception of the next attempt leaves
    open_browser at once, without pause and without the bail-out
    message. *)
Theorem open_browser_other_error W u st d N e :
  driver st = Some d ->
  N < 100 ->
  (forall i, i < N -> refuses W (List.length (log st) + 2 * i)) ->
  w_driver W (List.length (log st) + 2 * N) = Some e ->
  is_WebDriverException e = false ->
  open_browser W u st =
    (Raise e, add_events (refused_attempts u N ++ [EvDriver (Get u)]) st).
Proof.
  intros Hd HN Hall Hw He. unfold open_browser.
  rewrite (@open_browser_loop_refused W u d N 0 st); [|lia|assumption|assumption].
  rewrite open_browser_loop_step by lia.
  cbn [driver add_events]. rewrite Hd. cbn [log add_events]. rewrite length_app.
  replace (List.length (refused_attempts u N)) with (2 * N).
  - rewrite Hw, He. now rewrite add_events_app.
  - clear. induction N as [|N IH]; [reflexivity|].
    unfold refused_attempts in *. cbn [repeat List.concat].
    rewrite length_app, <- IH. cbn [List.length]. lia.
Qed.

Lemma open_browser_other_error_witness :
  open_browser (with_driver (fun t => if t <? 4 then Some WebDriverException
                                      else Some OSError) calm)
               (Some (Py.lit "http://172.29.0.2:3000/")) browsing =
    (Raise OSError,
     add_events (refused_attempts (Some (Py.lit "http://172.29.0.2:3000/")) 2
                 ++ [EvDriver (Get (Some (Py.lit "http://172.29.0.2:3000/")))])
                browsing).
Proof.
  apply (@open_browser_other_error
           (with_driver (fun t => if t <? 4 then Some WebDriverException
                                  else Some OSError) calm)
           (Some (Py.lit "http://172.29.0.2:3000/")) browsing 0 2 OSError).
  - reflexivity.
  - lia.
  - intros i Hi. exists WebDriverException.
    destruct i as [|[|i]]; [split; reflexivity .. | lia].
  - reflexivity.
  - reflexivity.
Defined.

(** ** More on start_server *)

Lemma split_from_words s :
  forall cur,
    Forall (fun c => Py.isspace c = false) cur ->
    Forall is_word (Py.split_from cur s).
Proof.
  induction s as [|c s IH]; intros cur Hcur; cbn [Py.split_from].
  - destruct cur as [|x cur]; [constructor|].
    constructor; [|constructor]. split.
    + intros E. apply (f_equal (@List.length _)) in E.
      rewrite length_rev in E. discriminate.
    + now apply Forall_rev.
  - destruct (Py.isspace c) eqn:Hc.
    + destruct cur as [|x cur]; [apply IH; constructor|].
      constructor; [|apply IH; constructor]. split.
      * intros E. apply (f_equal (@List.length _)) in E.
        rewrite length_rev in E. discriminate.
      * now apply Forall_rev.
    + apply IH. now constructor.
Qed.

Lemma last_word_is_word line w : last_word line = Some w -> is_word w.
Proof.
  unfold last_word, Py.last_item, Py.split. intros E.
  pose proof (@split_from_words line [] (Forall_nil _)) as Hall.
  apply Forall_rev in Hall.
  destruct (rev (Py.split_from [] line)) as [|x l]; [discriminate|].
  inversion E; subst. now inversion Hall.
Qed.

Lemma scan_stdout_url lines :
  forall st,
    url (snd (scan_stdout lines st)) = url st
    \/ exists line w,
         In line lines /\ last_word line = Some w
         /\ Py.startswith w (Py.lit "http:") = true
         /\ url (snd (scan_stdout lines st)) = Some w.
Proof.
  induction lines as [|line rest IH]; intros st; cbn [scan_stdout].
  - left. reflexivity.
  - unfold bind at 1, print, emit, write.
    destruct (Py.last_item (Py.split line)) as [w|] eqn:Hw; [|left; reflexivity].
    destruct (Py.startswith w (Py.lit "http:")) eqn:Hs.
    + right. exists line, w. repeat split; try assumption; now left.
    + destruct (IH (add_event (EvStdout line) st))
        as [E|(l & w' & Hin & Hl & Hs' & E)].
      * left. exact E.
      * right. exists l, w'. repeat split; try assumption. now right.
Qed.

(** X7. Once the server process has been started, start_server never
    leaves an earlier URL in place: whether it returns or raises, the
    URL is then None, or it is the last word, beginning with "http:",
    of a line this server has written. When the process cannot be
    started the URL and the server handle stay as they were. *)
Theorem start_server_no_stale_url W args st trace :
  trace_dir st = Some trace ->
  (w_os W (List.length (log st)) = None ->
   url (snd (start_server W args st)) = None
   \/ exists line w,
        In line (w_stdout W (List.length (log st)))
        /\ last_word line = Some w
        /\ Py.startswith w (Py.lit "http:") = true
        /\ url (snd (start_server W args st)) = Some w)
  /\ (forall e, w_os W (List.length (log st)) = Some e ->
      fst (start_server W args st) = Raise e
      /\ url (snd (start_server W args st)) = url st
      /\ server (snd (start_server W args st)) = server st).
Proof.
  intros Ht. split.
  - intros Hos. rewrite (@start_server_spawned W args st trace Ht Hos).
    apply scan_stdout_url.
  - intros e Hos.
    unfold start_server, bind, read, os_call, now, emit, write. cbn.
    rewrite Ht. cbn. rewrite Hos. repeat split.
Qed.

Lemma start_server_no_stale_url_witness :
  url (snd (start_server (with_stdout silent_stdout calm) sample_args
              (set_url (Some (Py.lit "http://172.29.0.2:3000/")) recorded))) = None
  \/ exists line w,
       In line (w_stdout (with_stdout silent_stdout calm) 0)
       /\ last_word line = Some w
       /\ Py.startswith w (Py.lit "http:") = true
       /\ url (snd (start_server (with_stdout silent_stdout calm) sample_args
                      (set_url (Some (Py.lit "http://172.29.0.2:3000/")) recorded)))
          = Some w.
Proof.
  apply (proj1 (@start_server_no_stale_url (with_stdout silent_stdout calm) sample_args
                  (set_url (Some (Py.lit "http://172.29.0.2:3000/")) recorded)
                  (Py.lit "/tmp/t/main-0") eq_refl)).
  reflexivity.
Defined.

(** X8. A URL that start_server has discovered is one word: it begins
    with "http:", it is not empty and it holds no whitespace, so
    neither the newline that ends the line nor anything before the last
    blank of the line is part of it. *)
Theorem start_server_url_is_word W args st trace w :
  trace_dir st = Some trace ->
  w_os W (List.length (log st)) = None ->
  url (snd (start_server W args st)) = Some w ->
  Py.startswith w (Py.lit "http:") = true /\ is_word w.
Proof.
  intros Ht Hos Hu.
  rewrite (@start_server_spawned W args st trace Ht Hos) in Hu.
  destruct (scan_stdout_url (w_stdout W (List.length (log st)))
              (set_url None
                 (set_server (Some (List.length (log st)))
                    (add_event (EvPopen (serve_argv W args trace)) st))))
    as [E|(line & w' & _ & Hl & Hs & E)].
  - cbn [url set_url] in E. congruence.
  - rewrite E in Hu. inversion Hu; subst w'.
    split; [assumption|]. now apply last_word_is_word in Hl.
Qed.

Lemma start_server_url_is_word_witness :
  Py.startswith (Py.lit "http://172.29.0.2:3000/index.html") (Py.lit "http:") = true
  /\ is_word (Py.lit "http://172.29.0.2:3000/index.html").
Proof.
  apply (@start_server_url_is_word (with_stdout announcing_stdout calm) sample_args
           recorded (Py.lit "/tmp/t/main-0")
           (Py.lit "http://172.29.0.2:3000/index.html")); reflexivity.
Defined.

(** ** The container check *)

Lemma lstrip_nil_iff s : Py.lstrip s = [] <-> blank s.
Proof.
  induction s as [|c s IH]; cbn [Py.lstrip].
  - split; [constructor|reflexivity].
  - destruct (Py.isspace c) eqn:Hc.
    + rewrite IH. split.
      * intros H. now constructor.
      * intros H. now inversion H.
    + split; [discriminate|]. intros H. inversion H. congruence.
Qed.

Lemma lstrip_idempotent s : Py.lstrip (Py.lstrip s) = Py.lstrip s.
Proof.
  induction s as [|c s IH]; [reflexivity|]. cbn [Py.lstrip].
  destruct (Py.isspace c) eqn:Hc; [assumption|].
  cbn [Py.lstrip]. now rewrite Hc.
Qed.

Lemma strip_nil_iff s : Py.strip s = [] <-> blank s.
Proof.
  unfold Py.strip. split.
  - intros H. apply (f_equal (@rev _)) in H. rewrite rev_involutive in H.
    cbn in H. apply lstrip_nil_iff in H. unfold blank in H.
    apply Forall_rev in H. rewrite rev_involutive in H.
    apply lstrip_nil_iff. rewrite <- lstrip_idempotent.
    now apply lstrip_nil_iff.
  - intros H. apply lstrip_nil_iff in H. now rewrite H.
Qed.

(** X9. When docker ps exits with status 0, the container check passes
    exactly when its output is made of whitespace only (so an empty
    output, or one newline, counts as no container); otherwise it prints
    the stripped output on stderr and raises AssertionError. *)
Theorem cleanup_check_passes_on_blank_output W st out :
  w_proc W (List.length (log st)) = Exited 0 out ->
  (blank out ->
   cleanup_check W st = (Ok tt, add_event (EvCheckOutput docker_argv) st))
  /\ (~ blank out ->
      cleanup_check W st =
        (Raise AssertionError,
         add_events
           [EvCheckOutput docker_argv;
            EvStderr (Py.lit "Docker containers still running:" ++ [10%N]
                      ++ Py.strip out)] st)).
Proof.
  intros Hw.
  unfold cleanup_check, check_output, bind, now, read, emit, write, print_stderr,
    assert, raise, ret.
  cbn [log add_event]. rewrite Hw. cbn [Z.eqb].
  destruct (Py.strip out) as [|c rest] eqn:Hs.
  - cbn [List.length Nat.ltb Nat.leb]. split.
    + reflexivity.
    + intros Hb. exfalso. apply Hb. now apply strip_nil_iff.
  - cbn [List.length Nat.ltb Nat.leb]. split.
    + intros Hb. apply strip_nil_iff in Hb. congruence.
    + intros _. unfold emit, write.
      now rewrite !add_event_add_events, add_events_app.
Qed.

Lemma cleanup_check_passes_on_blank_output_witness :
  cleanup_check (with_proc (fun _ => Exited 0 [10%N]) calm) recorded =
    (Ok tt, add_event (EvCheckOutput docker_argv) recorded)
  /\ cleanup_check (with_proc (fun _ => Exited 0 (Py.lit "4f2a9c01d3e5" ++ [10%N])) calm)
                   recorded =
       (Raise AssertionError,
        add_events
          [EvCheckOutput docker_argv;
           EvStderr (Py.lit "Docker containers still running:" ++ [10%N]
                     ++ Py.strip (Py.lit "4f2a9c01d3e5" ++ [10%N]))] recorded).
Proof.
  split.
  - apply (proj1 (@cleanup_check_passes_on_blank_output
                    (with_proc (fun _ => Exited 0 [10%N]) calm) recorded [10%N] eq_refl)).
    constructor; [reflexivity|constructor].
  - apply (proj2 (@cleanup_check_passes_on_blank_output
                    (with_proc (fun _ => Exited 0 (Py.lit "4f2a9c01d3e5" ++ [10%N])) calm)
                    recorded (Py.lit "4f2a9c01d3e5" ++ [10%N]) eq_refl)).
    intros Hb. inversion Hb as [|c l Hc _]. discriminate Hc.
Defined.

(** ** The --no-pull option *)

(** X10. With --no-pull on the command line, every run of the pernosco
    launcher in a run of the script, whether the run passes or not,
    carries --no-pull; in particular "./pernosco pull" (line 150), which
    does not carry it, is never run. *)
Theorem no_pull_is_honoured W args :
  no_pull args = true ->
  forallb honours_no_pull (log (snd (run W args))) = true.
Proof.
  intros H. destruct args as [h np t]. cbn [no_pull] in H. subst np.
  assert (Hr : respects (extends honours_no_pull) (main W (mkArgs h true t))).
  { unfold main, ingest. cbn [no_pull]. respects_tac. }
  unfold run. destruct (main W (mkArgs h true t) initial) as [r st] eqn:E.
  destruct (Hr _ _ _ E) as (evs & Hl & Hp).
  cbn [snd]. rewrite Hl. exact Hp.
Qed.

Lemma no_pull_is_honoured_witness :
  forallb honours_no_pull (log (snd (run happy sample_args))) = true.
Proof. apply (@no_pull_is_honoured happy sample_args). reflexivity. Defined.

Example pull_lacks_no_pull :
  honours_no_pull (EvCheckCall [Py.lit "./pernosco"; Py.lit "pull"] None InheritEnv)
  = false.
Proof. reflexivity. Qed.

(** ** The bind mount *)

Lemma never_unmounted_app W l evs :
  never_unmounted W l -> forallb not_umount evs = true ->
  never_unmounted W (l ++ evs).
Proof.
  intros Hl He t e out Hn Hu.
  destruct (Nat.lt_ge_cases t (List.length l)) as [Hlt|Hge].
  - rewrite nth_error_app1 in Hn by assumption. now apply (Hl t e out).
  - rewrite nth_error_app2 in Hn by assumption.
    apply nth_error_In in Hn. rewrite forallb_forall in He.
    apply He in Hn. unfold not_umount in Hn. rewrite Hu in Hn. discriminate.
Qed.

Lemma leaves_mounted_bind W A (m : M A) (k : A -> M unit) :
  respects (extends not_umount) m ->
  (forall a, leaves_mounted W (k a)) ->
  leaves_mounted W (bind m k).
Proof.
  intros Hm Hk st e st' E Hst. unfold bind in E.
  destruct (m st) as [[a|e0] s1] eqn:Em;
    destruct (Hm _ _ _ Em) as (evs & Hl & He).
  - apply (Hk a _ _ _ E). rewrite Hl. now apply never_unmounted_app.
  - inversion E; subst. rewrite Hl. now apply never_unmounted_app.
Qed.

Lemma leaves_mounted_teardown W args : leaves_mounted W (teardown W args).
Proof.
  intros st e st' E Hst. unfold teardown, check_call, bind, now, read, emit, write,
    print_stderr in E. cbn [log add_event] in E.
  destruct (w_proc W (List.length (log st))) as [x|rc out0] eqn:Hw.
  - inversion E; subst. cbn [log add_event].
    intros t ev out Hn Hu.
    destruct (Nat.lt_ge_cases t (List.length (log st))) as [Hlt|Hge].
    + rewrite nth_error_app1 in Hn by assumption. now apply (Hst t ev out).
    + assert (t = List.length (log st)) as ->.
      { assert (Hlen : t < List.length (log st ++ [EvCheckCall
                    [Py.lit "sudo"; Py.lit "umount"; testdir_alias W args] None InheritEnv]))
          by (apply nth_error_Some; congruence).
        rewrite length_app in Hlen. cbn [List.length] in Hlen. lia. }
      rewrite Hw. discriminate.
  - destruct (Z.eqb_spec rc 0) as [->|Hrc]; [discriminate|].
    inversion E; subst. cbn [log add_event].
    intros t ev out Hn Hu.
    destruct (Nat.lt_ge_cases t (List.length (log st))) as [Hlt|Hge].
    + rewrite nth_error_app1 in Hn by assumption. now apply (Hst t ev out).
    + assert (t = List.length (log st)) as ->.
      { assert (Hlen : t < List.length (log st ++ [EvCheckCall
                    [Py.lit "sudo"; Py.lit "umount"; testdir_alias W args] None InheritEnv]))
          by (apply nth_error_Some; congruence).
        rewrite length_app in Hlen. cbn [List.length] in Hlen. lia. }
      rewrite Hw. intros X. inversion X. contradiction.
Qed.

Lemma leaves_mounted_main W args : leaves_mounted W (main W args).
Proof.
  unfold main.
  repeat (apply leaves_mounted_bind; [solve [respects_tac] | intros ?]).
  apply leaves_mounted_teardown.
Qed.

(** X11. A run that ends with an exception has not unmounted the alias
    directory: no "sudo umount" in its log has exited with status 0
    (the only umount there can be is one that itself failed, as the last
    step). The bind mount made at line 145 is left in place. *)
Theorem aborted_run_leaves_mount W args e st :
  run W args = (Raise e, st) ->
  never_unmounted W (log st).
Proof.
  intros E. apply (@leaves_mounted_main W args initial e st E).
  intros t ev out Hn. destruct t; discriminate Hn.
Qed.

Lemma aborted_run_leaves_mount_witness :
  never_unmounted stuck_page (log (snd (run stuck_page sample_args))).
Proof.
  apply (@aborted_run_leaves_mount stuck_page sample_args TimeoutException).
  vm_compute. reflexivity.
Defined.

(** ** The trace directory the servers are started on *)

#[export] Instance before_record_frame : Frame before_record.
Proof.
  split.
  - intros st. split; [reflexivity|apply frame_refl].
  - intros a b c [N1 E1] [N2 E2]. split; [congruence|].
    eapply frame_trans; eassumption.
Qed.

#[export] Instance after_record_frame W args : Frame (after_record W args).
Proof.
  split.
  - intros st Ht. repeat split; try assumption.
    exists []. split; [now rewrite app_nil_r|constructor].
  - intros a b c H1 H2 Ha.
    destruct (H1 Ha) as (Tb & Nb & e1 & L1 & F1).
    destruct (H2 Tb) as (Tc & Nc & e2 & L2 & F2).
    split; [assumption|]. split; [congruence|].
    exists (e1 ++ e2). split.
    + now rewrite L2, L1, app_assoc.
    + apply Forall_app. now split.
Qed.

Lemma allows_before_record e :
  is_lifecycle e = false -> allows before_record e.
Proof.
  intros H st. split; [reflexivity|].
  apply allows_extends. now rewrite H.
Qed.

Lemma before_record_silent st st' :
  log st' = log st -> next_trace_id st' = next_trace_id st -> before_record st st'.
Proof. intros L N. split; [assumption|now apply extends_silent]. Qed.

Lemma allows_after_record W args e :
  (forall argv, e <> EvPopen argv) -> allows (after_record W args) e.
Proof.
  intros H st Ht. repeat split; try assumption.
  exists [e]. split; [reflexivity|].
  constructor; [|constructor]. intros argv E. now apply H in E.
Qed.

Lemma after_record_silent W args st st' :
  log st' = log st -> trace_dir st' = trace_dir st ->
  next_trace_id st' = next_trace_id st ->
  after_record W args st st'.
Proof.
  intros L T N Ht. split; [congruence|]. split; [assumption|].
  exists []. split; [now rewrite L, app_nil_r|constructor].
Qed.

(** The walk of [respects_tac], with a tactic tried first and another
    for the leaves. *)
Ltac respects_walk pre leaf :=
  repeat first
    [ pre
    | apply respects_ret | apply respects_raise | apply respects_now
    | apply respects_read | apply respects_deref | apply respects_assert
    | apply respects_print | apply respects_print_stderr | apply respects_sleep
    | apply respects_emit
    | apply respects_check_call | apply respects_check_output
    | apply respects_os_call | apply respects_driver_call
    | apply respects_script_succeeds
    | apply respects_text_to_be_present_in_element
    | apply respects_until | apply respects_open_browser
    | apply respects_scan_stdout
    | apply respects_try_except
    | apply respects_bind; [|intros ?]
    | apply respects_write
    | match goal with
      | |- respects _ (match ?x with _ => _ end) => destruct x
      end
    | progress cbv zeta
    | leaf ].

Ltac record_leaf :=
  intros;
  first
    [ apply allows_before_record; reflexivity
    | apply before_record_silent; reflexivity
    | apply allows_after_record; intros ? ?; discriminate
    | apply after_record_silent; reflexivity ].

Lemma respects_start_server_after_record W args :
  respects (after_record W args) (start_server W args).
Proof.
  intros st r st' E Ht.
  unfold start_server in E. unfold bind at 1, read in E. rewrite Ht in E.
  unfold bind at 1, os_call, bind at 1, now, read, bind at 1, emit, write in E.
  destruct (w_os W (List.length (log st))) as [x|].
  - inversion E; subst. cbn [trace_dir next_trace_id log add_event].
    repeat split; try assumption.
    exists [EvPopen (serve_argv W args (predicted_trace W args))].
    split; [reflexivity|]. constructor; [|constructor].
    intros argv X. now inversion X.
  - unfold ret at 1, bind at 1, write in E. unfold bind at 1, write in E.
    assert (Hscan : respects (after_record W args)
                      (scan_stdout (w_stdout W (List.length (log st)))))
      by (respects_walk fail record_leaf).
    destruct (Hscan _ _ _ E Ht) as (T & N & evs & L & F).
    split; [assumption|]. split; [assumption|].
    exists (EvPopen (serve_argv W args (predicted_trace W args)) :: evs).
    split.
    + rewrite L. cbn [log set_url set_server add_event].
      now rewrite <- app_assoc.
    + constructor; [|assumption]. intros argv X. now inversion X.
Qed.

Lemma bind_eq A B (m : M A) (k : A -> M B) st :
  bind m k st =
    match m st with
    | (Ok a, s1) => k a s1
    | (Raise e, s1) => (Raise e, s1)
    end.
Proof. reflexivity. Qed.

Lemma no_lifecycle_serves_predicted W args evs :
  forallb (fun e => negb (is_lifecycle e)) evs = true ->
  Forall (serves_predicted W args) evs.
Proof.
  rewrite forallb_forall, Forall_forall. intros H e Hin argv ->.
  apply H in Hin. discriminate Hin.
Qed.

Lemma record_from_zero W args st :
  next_trace_id st = 0%Z ->
  (exists e,
     record W args st =
       (Raise e, add_event (EvCheckCall (record_argv W args) None CleanEnv) st))
  \/ record W args st =
       (Ok tt,
        set_next_trace_id 1
          (set_trace_dir (Some (predicted_trace W args))
             (add_event (EvCheckCall (record_argv W args) None CleanEnv) st))).
Proof.
  intros Hn.
  unfold record, check_call, bind, now, read, emit, write, ret, raise, record_argv,
    predicted_trace.
  cbn [log add_event next_trace_id set_trace_dir].
  destruct (w_proc W (List.length (log st))) as [x|rc out].
  - left. now exists x.
  - destruct (rc =? 0)%Z.
    + right. cbn [next_trace_id add_event set_trace_dir]. rewrite Hn. reflexivity.
    + left. eexists. reflexivity.
Qed.

(** X12. The servers of a run are only ever started on the trace
    directory <tmpdir>/main-0: the name record predicts for the one
    recording the script makes. A run that passes ends with that
    directory in trace_dir and with the counter at 1. *)
Theorem servers_start_on_predicted_trace W args :
  Forall (serves_predicted W args) (log (snd (run W args)))
  /\ (fst (run W args) = Ok tt ->
      trace_dir (snd (run W args)) = Some (predicted_trace W args)
      /\ next_trace_id (snd (run W args)) = 1%Z).
Proof.
  assert (Hp : respects before_record (provision W args))
    by (respects_walk fail record_leaf).
  assert (Hb : respects before_record (build W args))
    by (respects_walk fail record_leaf).
  assert (Hrest : respects (after_record W args)
                    (bind (ingest W args) (fun _ =>
                     bind (serve W args) (fun _ =>
                     bind (scenario1 W) (fun _ =>
                     bind (notebook_write W) (fun _ =>
                     bind (restart_verify W args) (fun _ =>
                     bind (cleanup_check W) (fun _ =>
                     bind (export_verify W args) (fun _ =>
                     teardown W args)))))))))
    by (respects_walk
          ltac:(idtac;
                match goal with
                | |- respects _ (start_server _ _) =>
                    apply respects_start_server_after_record
                end)
          record_leaf).
  unfold run, main.
  rewrite bind_eq.
  destruct (provision W args initial) as [[[]|e] s1] eqn:E1;
    destruct (Hp _ _ _ E1) as (N1 & evs1 & L1 & F1); cbn [log initial app] in L1.
  2:{ cbn [fst snd]. rewrite L1. split; [|discriminate].
      now apply no_lifecycle_serves_predicted. }
  rewrite bind_eq.
  destruct (build W args s1) as [[[]|e] s2] eqn:E2;
    destruct (Hb _ _ _ E2) as (N2 & evs2 & L2 & F2).
  2:{ cbn [fst snd]. rewrite L2, L1. split; [|discriminate].
      apply Forall_app. split; now apply no_lifecycle_serves_predicted. }
  assert (Hpre : Forall (serves_predicted W args)
                   (log s2 ++ [EvCheckCall (record_argv W args) None CleanEnv])).
  { rewrite L2, L1.
    apply Forall_app. split.
    - apply Forall_app. split; now apply no_lifecycle_serves_predicted.
    - constructor; [|constructor]. intros argv X. discriminate X. }
  rewrite bind_eq.
  destruct (@record_from_zero W args s2) as [(e & ->)| ->];
    [rewrite N2, N1; reflexivity | |].
  { cbn [fst snd log add_event]. split; [exact Hpre|discriminate]. }
  match goal with
  | |- context [bind (ingest W args) ?k ?s] =>
      destruct (bind (ingest W args) k s) as [r st] eqn:E
  end.
  apply Hrest in E. cbn [fst snd].
  destruct (E eq_refl) as (T & N & evs & L & F).
  cbn [log next_trace_id set_next_trace_id set_trace_dir add_event] in L, N.
  split.
  - rewrite L. apply Forall_app. now split.
  - intros _. split; [exact T|exact N].
Qed.

Lemma servers_start_on_predicted_trace_witness :
  trace_dir (snd (run happy sample_args)) = Some (predicted_trace happy sample_args)
  /\ next_trace_id (snd (run happy sample_args)) = 1%Z.
Proof.
  apply (proj2 (servers_start_on_predicted_trace happy sample_args)).
  vm_compute. reflexivity.
Defined.

(** ** The names record gives to trace directories *)

Lemma lit_inj a b : Py.lit a = Py.lit b -> a = b.
Proof.
  unfold Py.lit. intros E.
  rewrite <- (string_of_list_ascii_of_string a),
          <- (string_of_list_ascii_of_string b).
  f_equal. revert E.
  generalize (list_ascii_of_string a) (list_ascii_of_string b).
  induction l as [|x l IH]; intros [|y l'] E; try discriminate; [reflexivity|].
  cbn [map] in E. inversion E as [[Hx Hl]].
  f_equal; [|now apply IH].
  rewrite <- (ascii_N_embedding x), <- (ascii_N_embedding y). now rewrite Hx.
Qed.

Lemma to_int_proper z : Z.to_int z <> Decimal.Pos Decimal.Nil
                        /\ Z.to_int z <> Decimal.Neg Decimal.Nil.
Proof.
  destruct z as [|p|p]; cbn; split; try discriminate;
    intros E; inversion E as [H]; now apply DecimalPos.Unsigned.to_uint_nonnil in H.
Qed.

Lemma of_int_inj a b : Py.of_int a = Py.of_int b -> a = b.
Proof.
  unfold Py.of_int. intros E. apply lit_inj in E.
  apply (f_equal NilZero.int_of_string) in E.
  destruct (to_int_proper a) as [Ha1 Ha2], (to_int_proper b) as [Hb1 Hb2].
  rewrite !NilZero.isi in E by assumption.
  inversion E as [H]. apply (f_equal Z.of_int) in H.
  now rewrite !DecimalZ.of_to in H.
Qed.

(** X13. record never gives two recordings the same directory: the
    name it sets is <tmpdir>/main-<n> for the value n the counter had,
    and two recordings that both succeed, one after the other, leave
    different names and a counter two higher. *)
Theorem record_twice_distinct W args st st1 st2 :
  record W args st = (Ok tt, st1) ->
  record W args st1 = (Ok tt, st2) ->
  trace_dir st1 = Some (tmpdir W args ++ Py.lit "/main-" ++ Py.of_int (next_trace_id st))
  /\ trace_dir st2 =
       Some (tmpdir W args ++ Py.lit "/main-" ++ Py.of_int (next_trace_id st + 1))
  /\ trace_dir st1 <> trace_dir st2
  /\ next_trace_id st2 = (next_trace_id st + 2)%Z.
Proof.
  assert (Hrec : forall s s',
            record W args s = (Ok tt, s') ->
            trace_dir s' =
              Some (tmpdir W args ++ Py.lit "/main-" ++ Py.of_int (next_trace_id s))
            /\ next_trace_id s' = (next_trace_id s + 1)%Z).
  { intros s s'.
    unfold record, check_call, bind, now, read, emit, write, ret, raise.
    cbn [log add_event next_trace_id set_trace_dir].
    destruct (w_proc W (List.length (log s))) as [x|rc out]; [discriminate|].
    destruct (rc =? 0)%Z; [|discriminate].
    intros E. inversion E. cbn [trace_dir next_trace_id set_trace_dir
                                 set_next_trace_id add_event].
    split; reflexivity. }
  intros E1 E2.
  destruct (Hrec _ _ E1) as [T1 N1]. destruct (Hrec _ _ E2) as [T2 N2].
  rewrite N1 in T2, N2.
  split; [exact T1|]. split; [exact T2|]. split; [|lia].
  rewrite T1, T2. intros E. inversion E as [H].
  apply app_inv_head in H. inversion H as [H'].
  apply of_int_inj in H'. lia.
Qed.

Lemma record_twice_distinct_witness :
  trace_dir (snd (record calm sample_args initial)) =
    Some (tmpdir calm sample_args ++ Py.lit "/main-" ++ Py.of_int 0)
  /\ trace_dir (snd (record calm sample_args (snd (record calm sample_args initial)))) =
       Some (tmpdir calm sample_args ++ Py.lit "/main-" ++ Py.of_int (0 + 1))
  /\ trace_dir (snd (record calm sample_args initial)) <>
     trace_dir (snd (record calm sample_args (snd (record calm sample_args initial))))
  /\ next_trace_id (snd (record calm sample_args (snd (record calm sample_args initial))))
     = (0 + 2)%Z.
Proof.
  apply (@record_twice_distinct calm sample_args initial
           (snd (record calm sample_args initial))
           (snd (record calm sample_args (snd (record calm sample_args initial)))));
    reflexivity.
Defined.

(** ** create_driver *)

Example digit_ascii : map digit (Py.lit "0479/:a") =
  [Some 0; Some 4; Some 7; Some 9; None; None; None]%Z.
Proof. reflexivity. Qed.

Example digit_arabic_indic_four : digit 1636%N = Some 4%Z.
Proof. reflexivity. Qed.

Example digit_fullwidth_three : digit 65299%N = Some 3%Z.
Proof. reflexivity. Qed.

Example digit_superscript_two_is_none : digit 178%N = None.
Proof. reflexivity. Qed.

(** A version that starts with ARABIC-INDIC DIGIT FOUR is read as 4. *)
Example create_driver_arabic_indic_version :
  create_driver
    (mkWorld [] (1636%N :: Py.lit ".1.0") (fun _ => Exited 0 []) (fun _ => [])
       (fun _ => None) (fun _ => None) (fun _ => []) (fun _ => inr [])
       (fun _ => inr JNull) (fun _ => 0))
    sample_args recorded =
  (Ok tt,
   set_driver (Some (List.length (log recorded)))
     (add_event (EvDriver (NewWebDriver
                   (OptArgument (Py.lit "-headless") :: base_options)))
        recorded)).
Proof. reflexivity. Qed.

(** X14. Without --headless, create_driver does not look at the
    Selenium version at all: whatever the version string, it starts the
    browser with the three fixed settings only. With --headless it looks
    at the first character only: an empty version raises IndexError and
    a first character that is no decimal digit raises ValueError, in
    both cases before any browser is started and with the driver global
    untouched; a decimal digit of value d, of any script since int()
    reads them all, selects the "-headless" argument when d >= 4 and
    set_headless() otherwise, whatever follows the digit. *)
Theorem create_driver_version_check W args st :
  (headless args = false ->
   log (snd (create_driver W args st)) = log st ++ [EvDriver (NewWebDriver base_options)])
  /\ (headless args = true -> w_selenium_version W = [] ->
      create_driver W args st = (Raise IndexError, st))
  /\ (forall c rest, headless args = true -> w_selenium_version W = c :: rest ->
      digit c = None -> create_driver W args st = (Raise ValueError, st))
  /\ (forall c rest d, headless args = true -> w_selenium_version W = c :: rest ->
      digit c = Some d ->
      log (snd (create_driver W args st)) =
        log st ++ [EvDriver (NewWebDriver
                     ((if (4 <=? d)%Z then OptArgument (Py.lit "-headless")
                       else OptHeadless) :: base_options))]).
Proof.
  unfold create_driver, driver_call, bind, now, read, emit, write, ret, raise,
    base_options.
  repeat split.
  - intros ->. cbn [log add_event app].
    destruct (w_driver W (List.length (log st))); reflexivity.
  - intros -> ->. reflexivity.
  - intros c rest -> -> ->. reflexivity.
  - intros c rest d -> -> ->.
    destruct (4 <=? d)%Z; cbn [log add_event app];
      destruct (w_driver W (List.length (log st))); reflexivity.
Qed.

Lemma create_driver_version_check_witness :
  log (snd (create_driver
              (mkWorld [] (Py.lit "10.2.0") (fun _ => Exited 0 []) (fun _ => [])
                 (fun _ => None) (fun _ => None) (fun _ => []) (fun _ => inr [])
                 (fun _ => inr JNull) (fun _ => 0))
              sample_args recorded)) =
    log recorded ++ [EvDriver (NewWebDriver
                       ((if (4 <=? 1)%Z then OptArgument (Py.lit "-headless")
                         else OptHeadless) :: base_options))].
Proof.
  apply (proj2 (proj2 (proj2 (create_driver_version_check
           (mkWorld [] (Py.lit "10.2.0") (fun _ => Exited 0 []) (fun _ => [])
              (fun _ => None) (fun _ => None) (fun _ => []) (fun _ => inr [])
              (fun _ => inr JNull) (fun _ => 0))
           sample_args recorded)))
         49%N (Py.lit "0.2.0") 1%Z); reflexivity.
Defined.

(** ** The changelog of the update script *)

Lemma splitlines_from_one_line n :
  forall s cur,
    List.length s <= n ->
    Update.one_line cur ->
    Forall Update.one_line (Py.splitlines_from cur s).
Proof.
  induction n as [|n IH]; intros s cur Hn Hcur.
  - destruct s; [|cbn in Hn; lia]. cbn.
    destruct cur; [constructor|].
    constructor; [now apply Forall_rev|constructor].
  - destruct s as [|c s]; cbn [Py.splitlines_from].
    + destruct cur; [constructor|].
      constructor; [now apply Forall_rev|constructor].
    + cbn [List.length] in Hn. destruct (Py.islinebreak c) eqn:Hc.
      * constructor; [now apply Forall_rev|].
        assert (Hrest : Forall Update.one_line (Py.splitlines_from [] s))
          by (apply IH; [lia|constructor]).
        assert (Hskip : forall s'', s = 10%N :: s'' ->
                  Forall Update.one_line (Py.splitlines_from [] s'')).
        { intros s'' ->. cbn [List.length] in Hn. apply IH; [lia|constructor]. }
        destruct c as [|p]; [exact Hrest|].
        do 4 (destruct p as [p|p|]; try exact Hrest).
        destruct s as [|[|q] s'']; try exact Hrest.
        do 4 (destruct q as [q|q|]; try exact Hrest).
        now apply Hskip.
      * apply IH; [lia|]. now constructor.
Qed.

Lemma splitlines_one_line s : Forall Update.one_line (Py.splitlines s).
Proof.
  apply (@splitlines_from_one_line (List.length s)); [lia|constructor].
Qed.

Lemma lstrip_one_line s : Update.one_line s -> Update.one_line (Py.lstrip s).
Proof.
  induction 1 as [|c s Hc Hs IH]; [constructor|]. cbn [Py.lstrip].
  destruct (Py.isspace c); [assumption|now constructor].
Qed.

Lemma strip_one_line s : Update.one_line s -> Update.one_line (Py.strip s).
Proof.
  intros H. unfold Py.strip. apply Forall_rev, lstrip_one_line, Forall_rev.
  now apply lstrip_one_line.
Qed.

Lemma replace_first_prefix old new s :
  Py.startswith s old = true ->
  Update.replace_first old new s = new ++ skipn (List.length old) s.
Proof. intros H. destruct s; cbn [Update.replace_first]; now rewrite H. Qed.

Lemma skipn_one_line n s : Update.one_line s -> Update.one_line (skipn n s).
Proof.
  revert s. induction n as [|n IH]; intros s H; [assumption|].
  destruct s; [constructor|]. cbn [skipn]. apply IH. now inversion H.
Qed.

Lemma changelog_step_entries (Q : Py.str -> Prop) acc line :
  (forall l, l <> [] -> Update.one_line l -> Q l) ->
  Update.one_line line ->
  Forall Q (snd acc) ->
  Forall Q (snd (Update.changelog_step acc line)).
Proof.
  intros HQ Hline Hacc. destruct acc as [accumulating changelog].
  unfold Update.changelog_step. cbn [snd] in *.
  apply strip_one_line in Hline.
  destruct (Py.strip line) as [|c l] eqn:Hs; [assumption|].
  destruct accumulating; cbn [snd].
  - apply Forall_app. split; [assumption|].
    constructor; [|constructor]. apply HQ; [discriminate|assumption].
  - destruct (Py.startswith (c :: l) (Py.lit "Changelog:")) eqn:Hp; cbn [snd];
      [|assumption].
    apply Forall_app. split; [assumption|].
    constructor; [|constructor].
    rewrite replace_first_prefix by assumption.
    apply HQ; [discriminate|].
    apply Forall_app. split; [repeat constructor|].
    now apply skipn_one_line.
Qed.

Lemma changelog_fold_entries (Q : Py.str -> Prop) lines :
  (forall l, l <> [] -> Update.one_line l -> Q l) ->
  Forall Update.one_line lines ->
  forall acc,
    Forall Q (snd acc) ->
    Forall Q (snd (fold_left Update.changelog_step lines acc)).
Proof.
  intros HQ. induction 1 as [|line lines Hl _ IH]; intros acc Hacc; [assumption|].
  cbn [fold_left]. apply IH. now apply changelog_step_entries.
Qed.

Lemma changelog_entries_are_lines_aux log_output :
  Forall (fun entry => entry <> [] /\ Update.one_line entry)
         (Update.extract_changelog log_output).
Proof.
  unfold Update.extract_changelog, Update.changelog_of_lines.
  apply changelog_fold_entries.
  - now split.
  - apply splitlines_one_line.
  - constructor.
Qed.

(** X17. Whatever git log prints, every entry of the changelog the
    update script extracts is a non-empty string without any line
    break. *)
Theorem changelog_entries_are_lines log_output :
  Forall (fun entry => entry <> [] /\ Update.one_line entry)
         (Update.extract_changelog log_output).
Proof.
  unfold Update.extract_changelog, Update.changelog_of_lines.
  apply changelog_fold_entries.
  - intros l Hne Hl. now split.
  - apply splitlines_one_line.
  - constructor.
Qed.

Lemma splitlines_from_line l :
  forall cur rest,
    Update.one_line l ->
    Py.splitlines_from cur (l ++ 10%N :: rest) =
      (rev cur ++ l) :: Py.splitlines_from [] rest.
Proof.
  induction l as [|c l IH]; intros cur rest Hl.
  - cbn [app Py.splitlines_from]. rewrite app_nil_r. reflexivity.
  - inversion Hl as [|? ? Hc Hl']; subst.
    cbn [app Py.splitlines_from]. rewrite Hc.
    rewrite IH by assumption. cbn [rev]. now rewrite <- app_assoc.
Qed.

Lemma splitlines_joined lines :
  Forall Update.one_line lines ->
  Py.splitlines (List.concat (map (fun line => line ++ [10%N]) lines)) = lines.
Proof.
  unfold Py.splitlines.
  induction 1 as [|l lines Hl _ IH]; [reflexivity|].
  cbn [map List.concat]. rewrite <- app_assoc. cbn [app].
  rewrite splitlines_from_line by assumption. now rewrite IH.
Qed.

(** X18. The commit message the update script writes, read back line by
    line, is the summary line, an empty line, and then exactly the
    entries of the extracted changelog, one per line and in order. *)
Theorem commit_message_lines log_output :
  Py.splitlines (Update.commit_message (Update.extract_changelog log_output)) =
    Py.lit "Update to new container version." :: []
    :: Update.extract_changelog log_output.
Proof.
  unfold Update.commit_message, Py.splitlines. cbn [app].
  rewrite splitlines_from_line by (repeat constructor).
  change (10%N :: List.concat
            (map (fun line => line ++ [10%N]) (Update.extract_changelog log_output)))
    with ([] ++ 10%N :: List.concat
            (map (fun line => line ++ [10%N]) (Update.extract_changelog log_output))).
  rewrite (@splitlines_from_line [] [] _ (Forall_nil _)).
  cbn [rev app]. do 2 f_equal.
  apply splitlines_joined.
  eapply Forall_impl; [|apply changelog_entries_are_lines_aux].
  intros e [_ H]. exact H.
Qed.

Lemma changelog_fold_no_header lines :
  Forall (fun line => Py.startswith (Py.strip line) (Py.lit "Changelog:") = false) lines ->
  forall changelog,
    fold_left Update.changelog_step lines (false, changelog) = (false, changelog).
Proof.
  induction 1 as [|line lines Hl _ IH]; intros changelog; [reflexivity|].
  cbn [fold_left]. unfold Update.changelog_step at 2.
  destruct (Py.strip line) as [|c l]; [apply IH|].
  rewrite Hl. apply IH.
Qed.

Lemma changelog_fold_body body :
  Forall (fun line => Py.strip line <> []) body ->
  forall tail changelog,
    fold_left Update.changelog_step (body ++ tail) (true, changelog) =
      fold_left Update.changelog_step tail (true, changelog ++ map Py.strip body).
Proof.
  induction 1 as [|line body Hl _ IH]; intros tail changelog.
  - cbn. now rewrite app_nil_r.
  - cbn [app fold_left map]. unfold Update.changelog_step at 2.
    destruct (Py.strip line) as [|c l] eqn:Hs; [contradiction|].
    rewrite IH, <- app_assoc. reflexivity.
Qed.

(** X15. When no line of the git log, once stripped, begins with
    "Changelog:", the extracted changelog is empty. *)
Theorem changelog_without_header_is_empty log_output :
  Forall (fun line => Py.startswith (Py.strip line) (Py.lit "Changelog:") = false)
         (Py.splitlines log_output) ->
  Update.extract_changelog log_output = [].
Proof.
  intros H. unfold Update.extract_changelog, Update.changelog_of_lines.
  now rewrite changelog_fold_no_header.
Qed.

Lemma changelog_without_header_is_empty_witness :
  Update.extract_changelog
    (Py.lit "commit 1f3a" ++ [10%N] ++ Py.lit "    See the changelog: none" ++ [10%N]) = [].
Proof.
  apply changelog_without_header_is_empty.
  repeat constructor.
Defined.

(** X16. A changelog paragraph is taken whole: for a git log with one
    line that, stripped, begins with "Changelog:", followed by lines
    that are not blank and then by a blank line, and with no such
    header line elsewhere, the changelog is that header with
    "Changelog:" replaced by "-", followed by the other lines of the
    paragraph, each stripped; everything before the header and after
    the blank line is dropped. *)
Theorem changelog_single_paragraph pre header body blank_line post :
  Forall (fun line => Py.startswith (Py.strip line) (Py.lit "Changelog:") = false) pre ->
  Py.startswith (Py.strip header) (Py.lit "Changelog:") = true ->
  Forall (fun line => Py.strip line <> []) body ->
  Py.strip blank_line = [] ->
  Forall (fun line => Py.startswith (Py.strip line) (Py.lit "Changelog:") = false) post ->
  Update.changelog_of_lines (pre ++ header :: body ++ blank_line :: post) =
    (Py.lit "-" ++ skipn 10 (Py.strip header)) :: map Py.strip body.
Proof.
  intros Hpre Hh Hbody Hblank Hpost. unfold Update.changelog_of_lines.
  rewrite fold_left_app, changelog_fold_no_header by assumption.
  cbn [fold_left]. unfold Update.changelog_step at 2.
  destruct (Py.strip header) as [|c l] eqn:Hs; [discriminate Hh|].
  rewrite Hh, replace_first_prefix by assumption.
  rewrite changelog_fold_body by assumption.
  cbn [fold_left]. unfold Update.changelog_step at 2. rewrite Hblank.
  rewrite changelog_fold_no_header by assumption. reflexivity.
Qed.

Lemma changelog_single_paragraph_witness :
  Update.changelog_of_lines
    ([Py.lit "commit 1f3a"; Py.lit "    Fix the source view"; []]
     ++ Py.lit "    Changelog: Fix the source view"
     :: [Py.lit "    of inlined functions"] ++ [] :: [Py.lit "commit 77b0"]) =
    (Py.lit "-" ++ skipn 10 (Py.strip (Py.lit "    Changelog: Fix the source view")))
    :: map Py.strip [Py.lit "    of inlined functions"].
Proof.
  apply changelog_single_paragraph.
  - repeat constructor.
  - reflexivity.
  - constructor; [discriminate|constructor].
  - reflexivity.
  - repeat constructor.
Defined.

Example sample_log_changelog :
  Update.extract_changelog Update.sample_log =
    [Py.lit "- Fix the source view"; Py.lit "of inlined functions"].
Proof. reflexivity. Qed.

(** ** The order of the steps of the update script *)

(** X19. Whenever the update script reaches git commit, its steps
    are, in this order and with nothing else: git rev-parse, the read
    of metadata.json, the rewrite of metadata.json with the stripped
    output of git rev-parse in both fields, the message on stderr, the
    smoke test, git log over old..new, the write of the commit message
    made from the extracted changelog, and the commit as the last step;
    and the smoke test has exited with status 0. So the commit comes
    after the test has passed, and the metadata is rewritten before the
    test is run. *)
Theorem update_commits_after_tests S :
  In Update.Commit (fst (Update.update S)) ->
  exists root out data old_rev tests_out log_output,
    Update.u_pernosco_root S = Some root
    /\ Update.u_rev_parse S = Exited 0 out
    /\ Update.u_metadata S = inr data
    /\ Update.lookup (Py.lit "db_builder_revision") data = Some old_rev
    /\ Update.u_tests S = Exited 0 tests_out
    /\ Update.u_git_log S = inr log_output
    /\ fst (Update.update S) =
         [Update.RevParse (Update.path_join root (Py.lit "main"));
          Update.ReadMetadata;
          Update.WriteMetadata (Update.rstrip out) (Update.rstrip out);
          Update.Stderr (Py.lit "Replacing on-prem revision  " ++ old_rev
                         ++ Py.lit "  with  " ++ Update.rstrip out);
          Update.RunTests;
          Update.GitLog (old_rev ++ Py.lit ".." ++ Update.rstrip out)
                        (Update.path_join root (Py.lit "main"));
          Update.WriteMessage
            (Update.commit_message (Update.extract_changelog log_output));
          Update.Commit].
Proof.
  unfold Update.update, Update.called.
  destruct (Update.u_pernosco_root S) as [root|]; [|intros []].
  destruct (Update.u_rev_parse S) as [e|rc out].
  { cbn. intros [X|[]]; discriminate X. }
  destruct (Z.eqb_spec rc 0) as [->|Hrc].
  2:{ cbn. intros [X|[]]; discriminate X. }
  destruct (Update.u_metadata S) as [e|data].
  { cbn. intros [X|[X|[]]]; discriminate X. }
  destruct (Update.lookup (Py.lit "db_builder_revision") data) as [old|] eqn:Hold.
  2:{ cbn. intros [X|[X|[]]]; discriminate X. }
  destruct (Update.u_tests S) as [e|rc o].
  { cbn. intros [X|[X|[X|[X|[X|[]]]]]]; discriminate X. }
  destruct (Z.eqb_spec rc 0) as [->|Hrc].
  2:{ cbn. intros [X|[X|[X|[X|[X|[]]]]]]; discriminate X. }
  destruct (Update.u_git_log S) as [e|log_output].
  { cbn. intros [X|[X|[X|[X|[X|[X|[]]]]]]]; discriminate X. }
  intros _. exists root, out, data, old, o, log_output.
  repeat (split; [reflexivity || exact Hold|]).
  destruct (Update.u_commit S) as [e|rc o']; [|destruct (rc =? 0)%Z]; reflexivity.
Qed.

Lemma update_commits_after_tests_witness :
  exists root out data old_rev tests_out log_output,
    Update.u_pernosco_root Update.passing_tests = Some root
    /\ Update.u_rev_parse Update.passing_tests = Exited 0 out
    /\ Update.u_metadata Update.passing_tests = inr data
    /\ Update.lookup (Py.lit "db_builder_revision") data = Some old_rev
    /\ Update.u_tests Update.passing_tests = Exited 0 tests_out
    /\ Update.u_git_log Update.passing_tests = inr log_output
    /\ fst (Update.update Update.passing_tests) =
         [Update.RevParse (Update.path_join root (Py.lit "main"));
          Update.ReadMetadata;
          Update.WriteMetadata (Update.rstrip out) (Update.rstrip out);
          Update.Stderr (Py.lit "Replacing on-prem revision  " ++ old_rev
                         ++ Py.lit "  with  " ++ Update.rstrip out);
          Update.RunTests;
          Update.GitLog (old_rev ++ Py.lit ".." ++ Update.rstrip out)
                        (Update.path_join root (Py.lit "main"));
          Update.WriteMessage
            (Update.commit_message (Update.extract_changelog log_output));
          Update.Commit].
Proof.
  apply update_commits_after_tests.
  vm_compute. do 7 right. left. reflexivity.
Defined.

(** X20. The update is not atomic: when everything before the smoke
    test goes through and the smoke test exits with a non-zero status,
    the script ends with CalledProcessError right after the test, and
    by then metadata.json has been rewritten with the new revision;
    git log and git commit are never reached. *)
Theorem update_failing_tests_leave_metadata S root out data old rc o :
  Update.u_pernosco_root S = Some root ->
  Update.u_rev_parse S = Exited 0 out ->
  Update.u_metadata S = inr data ->
  Update.lookup (Py.lit "db_builder_revision") data = Some old ->
  Update.u_tests S = Exited rc o ->
  rc <> 0%Z ->
  Update.update S =
    ([Update.RevParse (Update.path_join root (Py.lit "main"));
      Update.ReadMetadata;
      Update.WriteMetadata (Update.rstrip out) (Update.rstrip out);
      Update.Stderr (Py.lit "Replacing on-prem revision  " ++ old
                     ++ Py.lit "  with  " ++ Update.rstrip out);
      Update.RunTests],
     Some (Update.Failed
             (CalledProcessError rc [Py.lit "./tests/main.py"; Py.lit "--headless"]))).
Proof.
  intros Hroot Hrev Hmeta Hold Htests Hrc.
  unfold Update.update, Update.called.
  rewrite Hroot, Hrev. cbn [Z.eqb]. rewrite Hmeta, Hold, Htests.
  destruct (Z.eqb_spec rc 0) as [->|_]; [contradiction|]. reflexivity.
Qed.

Lemma update_failing_tests_leave_metadata_witness :
  Update.update Update.failing_tests =
    ([Update.RevParse (Update.path_join (Py.lit "/home/dev/pernosco") (Py.lit "main"));
      Update.ReadMetadata;
      Update.WriteMetadata (Update.rstrip (Py.lit "1f3a9c" ++ [10%N]))
                           (Update.rstrip (Py.lit "1f3a9c" ++ [10%N]));
      Update.Stderr (Py.lit "Replacing on-prem revision  " ++ Py.lit "77b0e2"
                     ++ Py.lit "  with  " ++ Update.rstrip (Py.lit "1f3a9c" ++ [10%N]));
      Update.RunTests],
     Some (Update.Failed
             (CalledProcessError 1 [Py.lit "./tests/main.py"; Py.lit "--headless"]))).
Proof.
  apply (@update_failing_tests_leave_metadata Update.failing_tests
           (Py.lit "/home/dev/pernosco") (Py.lit "1f3a9c" ++ [10%N])
           [(Py.lit "db_builder_revision", Py.lit "77b0e2");
            (Py.lit "appserver_revision", Py.lit "77b0e2")]
           (Py.lit "77b0e2") 1%Z []); try reflexivity.
  discriminate.
Defined.

(** ** The lifecycle of the servers in every run *)

Lemma bind_split R A B (m : M A) (k : A -> M B) st r st' :
  respects R m ->
  bind m k st = (r, st') ->
  (exists e, r = Raise e /\ R st st')
  \/ (exists a s1, R st s1 /\ k a s1 = (r, st')).
Proof.
  intros Hm E. unfold bind in E.
  destruct (m st) as [[a|e] s1] eqn:Em.
  - right. exists a, s1. split; [eapply Hm; eassumption|assumption].
  - left. inversion E; subst. exists e. split; [reflexivity|].
    eapply Hm; eassumption.
Qed.

Lemma bind_cases A B (m : M A) (k : A -> M B) st r st' :
  bind m k st = (r, st') ->
  (exists e, m st = (Raise e, st') /\ r = Raise e)
  \/ (exists a s1, m st = (Ok a, s1) /\ k a s1 = (r, st')).
Proof.
  unfold bind. destruct (m st) as [[a|e] s1]; intros E.
  - right. now exists a, s1.
  - left. inversion E; subst. now exists e.
Qed.

Lemma bind_assoc_eq A B C (m : M A) (k : A -> M B) (h : B -> M C) st :
  bind (bind m k) h st = bind m (fun a => bind (k a) h) st.
Proof. unfold bind. destruct (m st) as [[a|e] s1]; reflexivity. Qed.

(** start_server either leaves the log alone and raises, or has called
    Popen and echoed some lines; when it returns, the server handle is
    the position of that Popen. *)
Lemma start_server_summary W args st r st' :
  start_server W args st = (r, st') ->
  (r <> Ok tt /\ st' = st)
  \/ exists trace echoes,
       trace_dir st = Some trace
       /\ log st' = log st ++ EvPopen (serve_argv W args trace) :: echoes
       /\ forallb is_stdout echoes = true
       /\ trace_dir st' = Some trace
       /\ (r = Ok tt -> server st' = Some (List.length (log st))).
Proof.
  unfold start_server. intros E.
  rewrite bind_eq in E. unfold read at 1 in E.
  destruct (trace_dir st) as [trace|] eqn:Ht.
  2:{ left. inversion E. split; [discriminate|reflexivity]. }
  right. exists trace.
  rewrite bind_eq in E. unfold os_call in E. rewrite !bind_eq in E.
  unfold now, read, emit, write in E. cbn [log] in E.
  destruct (w_os W (List.length (log st))) as [x|].
  - inversion E; subst. exists []. cbn [log add_event trace_dir].
    repeat split; try assumption; try reflexivity. discriminate.
  - unfold ret in E.
    assert (Hscan : respects (extends_same_server is_stdout)
                      (scan_stdout (w_stdout W (List.length (log st)))))
      by respects_tac.
    apply Hscan in E as ((echoes & Hl & He) & Hs & Htd).
    cbn [log server trace_dir add_event set_url set_server] in Hl, Hs, Htd.
    exists echoes. rewrite <- app_assoc in Hl.
    repeat split; try assumption; congruence.
Qed.

(** stop_server either leaves the log alone and raises, or has sent
    the signal to the server at hand and, unless that raised, waited
    for it. *)
Lemma stop_server_summary W st r st' :
  stop_server W st = (r, st') ->
  (r <> Ok tt /\ st' = st)
  \/ exists p,
       server st = Some p
       /\ ((r <> Ok tt /\ st' = add_event (EvKillSigint p) st)
           \/ (r = Ok tt /\ st' = add_events [EvKillSigint p; EvWait p] st)).
Proof.
  unfold stop_server, deref. intros E.
  rewrite bind_assoc_eq, bind_eq in E. unfold read at 1 in E.
  destruct (server st) as [p|] eqn:Hs.
  2:{ left. inversion E. split; [discriminate|reflexivity]. }
  right. exists p. split; [reflexivity|].
  rewrite bind_eq in E. unfold ret at 1 in E.
  rewrite bind_eq in E. unfold os_call in E. rewrite !bind_eq in E.
  unfold now, read, emit, write in E. cbn [log] in E.
  destruct (w_os W (List.length (log st))) as [x|].
  - left. inversion E. split; [discriminate|reflexivity].
  - right. unfold ret in E. inversion E. split; [reflexivity|].
    now rewrite !add_event_add_events, add_events_app.
Qed.

Lemma firstn_succ A (l : list A) n e :
  nth_error l n = Some e -> firstn (S n) l = firstn n l ++ [e].
Proof.
  revert l. induction n as [|n IH]; intros [|x l] H; try discriminate.
  - inversion H. reflexivity.
  - cbn [nth_error] in H.
    change (x :: firstn (S n) l = x :: (firstn n l ++ [e])).
    f_equal. now apply IH.
Qed.

Lemma existsb_false_app A (f : A -> bool) l1 l2 :
  existsb f l1 = false -> existsb f l2 = false -> existsb f (l1 ++ l2) = false.
Proof. intros H1 H2. now rewrite existsb_app, H1, H2. Qed.

Lemma uneventful_no_check_output evs :
  forallb uneventful evs = true -> existsb is_check_output evs = false.
Proof.
  induction evs as [|e evs IH]; [reflexivity|]. cbn [forallb existsb].
  intros [He Hevs]%andb_true_iff. unfold uneventful in He.
  apply andb_true_iff in He as [_ He]. apply negb_true_iff in He.
  rewrite He. now apply IH.
Qed.

Lemma uneventful_no_lifecycle evs :
  forallb uneventful evs = true -> filter is_lifecycle evs = [].
Proof.
  intros H. apply filter_none. revert H. apply forallb_weaken.
  intros e He. unfold uneventful in He. now apply andb_true_iff in He as [? _].
Qed.

Lemma stdout_uneventful evs :
  forallb is_stdout evs = true -> forallb uneventful evs = true.
Proof. apply forallb_weaken. intros e. destruct e; cbn; congruence. Qed.

Lemma nth_error_app_keep A (l evs : list A) p x :
  nth_error l p = Some x -> nth_error (l ++ evs) p = Some x.
Proof.
  intros H. rewrite nth_error_app1; [assumption|].
  apply nth_error_Some. congruence.
Qed.

Lemma reached_uneventful n argv p1 p2 l evs :
  reached n argv p1 p2 l ->
  forallb uneventful evs = true ->
  reached n argv p1 p2 (l ++ evs).
Proof.
  intros (F & N1 & N2 & C) H. repeat split.
  - now rewrite filter_app, F, uneventful_no_lifecycle, app_nil_r.
  - intros Hn. now apply nth_error_app_keep, N1.
  - apply nth_error_app_keep. now apply N2.
  - now apply N2.
  - intros Hn. apply existsb_false_app; [now apply C|].
    now apply uneventful_no_check_output.
Qed.

Lemma reached_end argv p1 p2 l evs :
  reached 6 argv p1 p2 l ->
  forallb (fun e => negb (is_lifecycle e)) evs = true ->
  reached 6 argv p1 p2 (l ++ evs).
Proof.
  intros (F & N1 & N2 & C) H. repeat split.
  - now rewrite filter_app, F, (filter_none _ _ H), app_nil_r.
  - intros Hn. now apply nth_error_app_keep, N1.
  - apply nth_error_app_keep. now apply N2.
  - now apply N2.
  - lia.
Qed.

Lemma reached_first_popen argv0 q1 q2 l argv :
  reached 0 argv0 q1 q2 l ->
  reached 1 argv (List.length l) 0 (l ++ [EvPopen argv]).
Proof.
  intros (F & _ & _ & C). cbn [firstn] in F. repeat split.
  - rewrite filter_app, F. reflexivity.
  - intros _. now apply nth_error_middle.
  - lia.
  - lia.
  - intros _. apply existsb_false_app; [apply C; lia|reflexivity].
Qed.

Lemma reached_second_popen argv p1 q2 l :
  reached 3 argv p1 q2 l ->
  reached 4 argv p1 (List.length l) (l ++ [EvPopen argv]).
Proof.
  intros (F & N1 & _ & C). cbn [firstn server_lifecycle] in F. repeat split.
  - rewrite filter_app, F. reflexivity.
  - intros _. apply nth_error_app_keep, N1. lia.
  - now apply nth_error_middle.
  - apply nth_error_Some. rewrite N1 by lia. discriminate.
  - intros _. apply existsb_false_app; [apply C; lia|reflexivity].
Qed.

Lemma reached_next n argv p1 p2 l e :
  reached n argv p1 p2 l ->
  nth_error (server_lifecycle argv p1 p2) n = Some e ->
  (n = 1 \/ n = 2 \/ n = 4 \/ n = 5) ->
  reached (S n) argv p1 p2 (l ++ [e]).
Proof.
  intros (F & N1 & N2 & C) He Hn.
  assert (Hl : is_lifecycle e = true /\ is_check_output e = false).
  { destruct Hn as [-> | [-> | [-> | ->]]]; inversion He; subst; split; reflexivity. }
  destruct Hl as [Hl Hc]. repeat split.
  - rewrite filter_app, F. cbn [filter]. rewrite Hl.
    symmetry. now apply firstn_succ.
  - intros _. apply nth_error_app_keep, N1. lia.
  - apply nth_error_app_keep. apply N2. lia.
  - apply N2. lia.
  - intros Hlt. apply existsb_false_app; [apply C; lia|].
    cbn [existsb]. now rewrite Hc.
Qed.

Lemma lifecycle_goal_raise n argv p1 p2 e st :
  reached n argv p1 p2 (log st) -> n <= 6 -> lifecycle_goal (Raise e) st.
Proof.
  intros H Hn. exists argv, p1, p2, n.
  split; [assumption|]. split; [assumption|]. discriminate.
Qed.

Lemma app_cons_snoc A (l : list A) x r : l ++ x :: r = (l ++ [x]) ++ r.
Proof. now rewrite <- app_assoc. Qed.

(** A step that touches no server keeps the lifecycle where it is. *)
Lemma quiet_step A (m : M A) (k : A -> M unit) n argv p1 p2 st r st' :
  respects (extends uneventful) m ->
  n <= 6 ->
  reached n argv p1 p2 (log st) ->
  bind m k st = (r, st') ->
  lifecycle_goal r st'
  \/ exists a s1, reached n argv p1 p2 (log s1) /\ k a s1 = (r, st').
Proof.
  intros Hm Hn Hr E.
  destruct (@bind_split _ _ _ m k st r st' Hm E)
    as [(e & -> & (evs & Hl & He)) | (a & s1 & (evs & Hl & He) & E1)].
  - left. apply (@lifecycle_goal_raise n argv p1 p2); [|assumption].
    rewrite Hl. now apply reached_uneventful.
  - right. exists a, s1. split; [|assumption].
    rewrite Hl. now apply reached_uneventful.
Qed.

Lemma quiet_step_same_server A (m : M A) (k : A -> M unit) n argv p1 p2 st r st' :
  respects (extends_same_server uneventful) m ->
  n <= 6 ->
  reached n argv p1 p2 (log st) ->
  bind m k st = (r, st') ->
  lifecycle_goal r st'
  \/ exists a s1,
       reached n argv p1 p2 (log s1)
       /\ server s1 = server st /\ trace_dir s1 = trace_dir st
       /\ k a s1 = (r, st').
Proof.
  intros Hm Hn Hr E.
  destruct (@bind_split _ _ _ m k st r st' Hm E)
    as [(e & -> & ((evs & Hl & He) & _)) | (a & s1 & ((evs & Hl & He) & Hs & Ht) & E1)].
  - left. apply (@lifecycle_goal_raise n argv p1 p2); [|assumption].
    rewrite Hl. now apply reached_uneventful.
  - right. exists a, s1. split; [|split; [|split]]; try assumption.
    rewrite Hl. now apply reached_uneventful.
Qed.

(** Starting the first server. *)
Lemma first_start_step W args (k : unit -> M unit) argv0 q1 q2 st r st' :
  reached 0 argv0 q1 q2 (log st) ->
  bind (start_server W args) k st = (r, st') ->
  lifecycle_goal r st'
  \/ exists trace s1,
       reached 1 (serve_argv W args trace) (List.length (log st)) 0 (log s1)
       /\ server s1 = Some (List.length (log st))
       /\ trace_dir s1 = Some trace
       /\ k tt s1 = (r, st').
Proof.
  intros Hr E.
  destruct (@bind_cases _ _ _ k st r st' E) as [(e & Es & ->) | ([] & s1 & Es & E1)];
    destruct (@start_server_summary W args _ _ _ Es)
      as [[Hno ->] | (trace & echoes & Ht & Hl & He & Ht' & Hs)].
  - left. apply (@lifecycle_goal_raise 0 argv0 q1 q2); [assumption|lia].
  - left.
    apply (@lifecycle_goal_raise 1 (serve_argv W args trace) (List.length (log st)) 0);
      [|lia].
    rewrite Hl, app_cons_snoc. apply reached_uneventful.
    + eapply reached_first_popen; eassumption.
    + now apply stdout_uneventful.
  - now contradiction Hno.
  - right. exists trace, s1. split; [|split; [|split]].
    + rewrite Hl, app_cons_snoc. apply reached_uneventful.
      * eapply reached_first_popen; eassumption.
      * now apply stdout_uneventful.
    + now apply Hs.
    + assumption.
    + assumption.
Qed.

(** Starting the second server, on the trace of the first. *)
Lemma second_start_step W args (k : unit -> M unit) trace p1 q2 st r st' :
  reached 3 (serve_argv W args trace) p1 q2 (log st) ->
  trace_dir st = Some trace ->
  bind (start_server W args) k st = (r, st') ->
  lifecycle_goal r st'
  \/ exists s1,
       reached 4 (serve_argv W args trace) p1 (List.length (log st)) (log s1)
       /\ server s1 = Some (List.length (log st))
       /\ k tt s1 = (r, st').
Proof.
  intros Hr Htd E.
  destruct (@bind_cases _ _ _ k st r st' E) as [(e & Es & ->) | ([] & s1 & Es & E1)];
    destruct (@start_server_summary W args _ _ _ Es)
      as [[Hno ->] | (trace' & echoes & Ht & Hl & He & Ht' & Hs)].
  - left. apply (@lifecycle_goal_raise 3 (serve_argv W args trace) p1 q2);
      [assumption|lia].
  - left. assert (trace' = trace) by congruence. subst trace'.
    apply (@lifecycle_goal_raise 4 (serve_argv W args trace) p1 (List.length (log st)));
      [|lia].
    rewrite Hl, app_cons_snoc. apply reached_uneventful.
    + eapply reached_second_popen; eassumption.
    + now apply stdout_uneventful.
  - now contradiction Hno.
  - right. assert (trace' = trace) by congruence. subst trace'.
    exists s1. split; [|split].
    + rewrite Hl, app_cons_snoc. apply reached_uneventful.
      * eapply reached_second_popen; eassumption.
      * now apply stdout_uneventful.
    + now apply Hs.
    + assumption.
Qed.

(** Stopping the server at hand: the first after one event of the
    lifecycle, the second after four. *)
Lemma stop_step W (k : unit -> M unit) n argv p1 p2 p st r st' :
  reached n argv p1 p2 (log st) ->
  server st = Some p ->
  (n = 1 /\ p = p1) \/ (n = 4 /\ p = p2) ->
  bind (stop_server W) k st = (r, st') ->
  lifecycle_goal r st'
  \/ exists s1,
       reached (S (S n)) argv p1 p2 (log s1)
       /\ trace_dir s1 = trace_dir st
       /\ k tt s1 = (r, st').
Proof.
  intros Hr Hp Hn E.
  assert (Hk : nth_error (server_lifecycle argv p1 p2) n = Some (EvKillSigint p)
               /\ nth_error (server_lifecycle argv p1 p2) (S n) = Some (EvWait p)
               /\ n <= 4).
  { destruct Hn as [[-> ->] | [-> ->]]; repeat split; lia. }
  destruct Hk as (Hkill & Hwait & Hle).
  assert (Hn' : n = 1 \/ n = 2 \/ n = 4 \/ n = 5) by (destruct Hn as [[-> _] | [-> _]]; lia).
  assert (Hn'' : S n = 1 \/ S n = 2 \/ S n = 4 \/ S n = 5)
    by (destruct Hn as [[-> _] | [-> _]]; lia).
  destruct (@bind_cases _ _ _ k st r st' E) as [(e & Es & ->) | ([] & s1 & Es & E1)];
    destruct (@stop_server_summary W _ _ _ Es)
      as [[Hno ->] | (p' & Hp' & [[Hno ->] | [Hok ->]])];
    try (now contradiction Hno); try discriminate.
  - left. apply (@lifecycle_goal_raise n argv p1 p2); [assumption|lia].
  - left. assert (p' = p) by congruence. subst p'.
    apply (@lifecycle_goal_raise (S n) argv p1 p2); [|lia].
    cbn [log add_event]. now apply reached_next.
  - right. assert (p' = p) by congruence. subst p'.
    exists (add_events [EvKillSigint p; EvWait p] st). split; [|split].
    + cbn [log add_events].
      change (log st ++ [EvKillSigint p; EvWait p])
        with (log st ++ EvKillSigint p :: [EvWait p]).
      rewrite app_cons_snoc. apply reached_next; [|assumption|assumption].
      now apply reached_next.
    + reflexivity.
    + assumption.
Qed.

(** Take a quiet step off the front of the script still to run. *)
Ltac quiet_with lemma R E Hr :=
  cbv beta in E;
  match type of Hr with
  | reached ?n ?argv ?p1 ?p2 (log ?st) =>
      match type of E with
      | bind ?m ?k st = (?r, ?st') =>
          let Hm := fresh "Hm" in
          assert (Hm : respects R m) by (solve [respects_tac]);
          let Hn := fresh "Hn" in
          assert (Hn : n <= 6) by lia;
          let G := fresh "G" in
          destruct (@lemma _ m k n argv p1 p2 st r st' Hm Hn Hr E) as [G | G];
          [exact G|]; clear Hm Hn
      end
  end.

Ltac flatten E := cbv beta in E; rewrite bind_assoc_eq in E.

Lemma run_lifecycle W args r st :
  main W args initial = (r, st) -> lifecycle_goal r st.
Proof.
  intros E. unfold main in E.
  assert (Hr : reached 0 [] 0 0 (log initial)).
  { split; [reflexivity|]. split; [lia|]. split; [lia|reflexivity]. }
  quiet_with quiet_step (extends uneventful) E Hr.
  clear E Hr. destruct G as (? & s1 & Hr & E).
  quiet_with quiet_step (extends uneventful) E Hr.
  clear E Hr. destruct G as (? & s2 & Hr & E).
  quiet_with quiet_step (extends uneventful) E Hr.
  clear E Hr. destruct G as (? & s3 & Hr & E).
  quiet_with quiet_step (extends uneventful) E Hr.
  clear E Hr. destruct G as (? & s4 & Hr & E).
  cbv beta in E. unfold serve in E.
  flatten E.
  quiet_with quiet_step (extends uneventful) E Hr.
  clear E Hr. destruct G as (? & s5 & Hr & E).
  flatten E.
  quiet_with quiet_step (extends uneventful) E Hr.
  clear E Hr. destruct G as (? & s6 & Hr & E).
  flatten E.
  destruct (@first_start_step W args _ _ _ _ _ _ _ Hr E) as [G | (trace & s7 & Hr1 & Hs & Ht & E1)];
    [exact G|].
  clear E Hr.
  quiet_with quiet_step_same_server (extends_same_server uneventful) E1 Hr1.
  clear E1 Hr1. destruct G as (? & s8 & Hr & Hs8 & Ht8 & E).
  rewrite Hs in Hs8. rewrite Ht in Ht8. clear s7 Hs Ht.
  quiet_with quiet_step_same_server (extends_same_server uneventful) E Hr.
  clear E Hr. destruct G as (? & s9 & Hr & Hs9 & Ht9 & E).
  rewrite Hs8 in Hs9. rewrite Ht8 in Ht9. clear s8 Hs8 Ht8.
  quiet_with quiet_step_same_server (extends_same_server uneventful) E Hr.
  clear E Hr. destruct G as (? & s10 & Hr & Hs10 & Ht10 & E).
  rewrite Hs9 in Hs10. rewrite Ht9 in Ht10. clear s9 Hs9 Ht9.
  cbv beta in E. unfold restart_verify in E.
  flatten E.
  destruct (@stop_step W _ 1 _ _ 0 _ s10 r st Hr Hs10 (or_introl (conj eq_refl eq_refl)) E)
    as [G | (s11 & Hr3 & Ht11 & E3)]; [exact G|].
  clear E Hr. rewrite Ht10 in Ht11. clear s10 Hs10 Ht10.
  flatten E3.
  destruct (@second_start_step W args _ _ _ _ _ _ _ Hr3 Ht11 E3) as [G | (s12 & Hr4 & Hs12 & E4)];
    [exact G|].
  clear E3 Hr3.
  flatten E4.
  quiet_with quiet_step_same_server (extends_same_server uneventful) E4 Hr4.
  clear E4 Hr4. destruct G as (u & s13 & Hr & Hs13 & _ & E).
  rewrite Hs12 in Hs13. clear Hs12.
  flatten E.
  quiet_with quiet_step_same_server (extends_same_server uneventful) E Hr.
  clear E Hr. destruct G as (? & s14 & Hr & Hs14 & _ & E).
  rewrite Hs13 in Hs14. clear s13 Hs13.
  flatten E.
  quiet_with quiet_step_same_server (extends_same_server uneventful) E Hr.
  clear E Hr. destruct G as (? & s15 & Hr & Hs15 & _ & E).
  rewrite Hs14 in Hs15. clear s14 Hs14.
  flatten E.
  quiet_with quiet_step_same_server (extends_same_server uneventful) E Hr.
  clear E Hr. destruct G as (? & s16 & Hr & Hs16 & _ & E).
  rewrite Hs15 in Hs16. clear s15 Hs15.
  flatten E.
  quiet_with quiet_step_same_server (extends_same_server uneventful) E Hr.
  clear E Hr. destruct G as (? & s17 & Hr & Hs17 & _ & E).
  rewrite Hs16 in Hs17. clear s16 Hs16.
  cbv beta in E.
  destruct (@stop_step W _ 4 _ _ _ _ s17 r st Hr Hs17 (or_intror (conj eq_refl eq_refl)) E)
    as [G | (s18 & Hr6 & _ & E6)]; [exact G|].
  clear E Hr. cbv beta in E6.
  assert (Htail : respects (extends (fun e => negb (is_lifecycle e)))
                    (bind (cleanup_check W)
                       (fun _ => bind (export_verify W args) (fun _ => teardown W args))))
    by respects_tac.
  destruct (Htail _ _ _ E6) as (evs & Hl & He).
  exists (serve_argv W args trace), (List.length (log s6)), (List.length (log s11)), 6.
  split; [lia|]. split; [|reflexivity].
  rewrite Hl. now apply reached_end.
Qed.

(** C6, amended. In every run, passing or not, the events that start,
    interrupt or await a server are an initial segment of the sequence:
    start of a first server, its interrupt, its wait, start of a second
    server with the same command line, its interrupt, its wait; a
    server is named by the position of its start in the log, and the
    second is started after the first. So no server is interrupted or
    awaited before it is started, nor more than once, and no wait comes
    without the interrupt before it. In a run that passes, and in any
    run that gets as far as the container check of line 239, the
    segment is the whole sequence: each of the two servers is
    interrupted and then waited for exactly once. A run that raises
    before that has performed the segment reached by then and nothing
    else for the servers. *)
Theorem server_lifecycle_in_every_run W args :
  exists argv p1 p2 n,
    n <= 6
    /\ filter is_lifecycle (log (snd (run W args))) =
         firstn n (server_lifecycle argv p1 p2)
    /\ (1 <= n -> nth_error (log (snd (run W args))) p1 = Some (EvPopen argv))
    /\ (4 <= n ->
        nth_error (log (snd (run W args))) p2 = Some (EvPopen argv) /\ p1 < p2)
    /\ (fst (run W args) = Ok tt -> n = 6)
    /\ (existsb is_check_output (log (snd (run W args))) = true -> n = 6).
Proof.
  unfold run. destruct (main W args initial) as [r st] eqn:E.
  apply run_lifecycle in E as (argv & p1 & p2 & n & Hn & (F & N1 & N2 & C) & Hok).
  exists argv, p1, p2, n. cbn [fst snd].
  repeat (split; [assumption|]).
  intros Hc. destruct (Nat.eq_dec n 6) as [->|Hne]; [reflexivity|].
  rewrite C in Hc by lia. discriminate.
Qed.
